(** * AbsPresTree: absence/presence matrices of cluster families

    A shallow embedding of [map_tree/make_abs_pres_networkx.py], of the two
    clustering variants [map_tree/make_abs_pres.py] and
    [map_tree/make_abs_pres_mibig.py], and of the text steps of
    [map_tree/draw_cluster_tree.py], [map_tree/rename_clusters.py] and
    [utility/rename_strainless_organisms.py], with the properties of the
    family detection, naming and matrix building steps.

    Conventions of the embedding:
    - Python [str] values are [string]s (sequences of 8-bit characters);
    - a Python [set] of cluster ids is a [gset string]; iterating over a set
      visits [elements] of it (some fixed enumeration without repetition);
    - a Python [dict] that is only looked up, or sorted before it is
      traversed, is a [gmap]; a dict whose insertion order is observed is an
      association list with in-place update ([dict_set]);
    - a raised exception is the [Raise] outcome of the [result] monad;
    - raw distances are [float64] values with the arithmetic of IEEE 754. *)

From Stdlib Require Import Ascii ZArith SpecFloat.
From stdpp Require Import base numbers option list gmap sets strings sorting pretty.

(** ** Exceptions and the result monad *)

Inductive exn : Type :=
  | KeyError (key : string)
  | IndexError
  | ValueError (msg : string).

Inductive result (A : Type) : Type :=
  | Ok (a : A)
  | Raise (e : exn).
Arguments Ok {A} a.
Arguments Raise {A} e.

Global Instance result_ret : MRet result := λ A a, Ok a.
Global Instance result_bind : MBind result := λ A B k m,
  match m with
  | Ok a => k a
  | Raise e => Raise e
  end.

Global Instance exn_eq_dec : EqDecision exn.
Proof. solve_decision. Defined.

Global Instance result_eq_dec {A : Type} `{EqDecision A} : EqDecision (result A).
Proof. solve_decision. Defined.

Fixpoint rfold {A B : Type} (f : A → B → result A) (acc : A) (l : list B) : result A :=
  match l with
  | [] => Ok acc
  | x :: rest => acc' ← f acc x; rfold f acc' rest
  end.

Fixpoint rmap {A B : Type} (f : A → result B) (l : list A) : result (list B) :=
  match l with
  | [] => Ok []
  | x :: rest => y ← f x; ys ← rmap f rest; Ok (y :: ys)
  end.

(** [d[key]] on a dict that is only looked up. *)
Definition getitem {V : Type} (d : gmap string V) (key : string) : result V :=
  match d !! key with
  | Some v => Ok v
  | None => Raise (KeyError key)
  end.

(** ** Python string primitives *)

(** [s.startswith(p)] *)
Definition startswith (s p : string) : bool := String.prefix p s.

(** [pat in s] for strings: [pat] occurs as a contiguous substring of [s]. *)
Fixpoint str_in (pat s : string) : bool :=
  String.prefix pat s ||
  match s with
  | EmptyString => false
  | String _ rest => str_in pat rest
  end.

(** [sep.join(l)] *)
Definition str_join (sep : string) (l : list string) : string := String.concat sep l.

(** [str(n)] for a non-negative [int]. *)
Definition str_of_nat (n : nat) : string := pretty n.

(** ** Compound families *)

Record CompoundFamily : Type := mkCompoundFamily {
  compound_class : string;
  clusters : gset string
}.

(** [CompoundFamily.__len__] *)
Definition family_len (f : CompoundFamily) : nat := size (clusters f).

(** [sorted(l, key=len, reverse=True)]: a stable sort, so families of equal
    size keep their relative order. *)
Fixpoint insert_by_len (x : CompoundFamily) (l : list CompoundFamily) : list CompoundFamily :=
  match l with
  | [] => [x]
  | y :: rest =>
      if decide (family_len x < family_len y)
      then y :: insert_by_len x rest
      else x :: y :: rest
  end.

Fixpoint sorted_by_len_desc (l : list CompoundFamily) : list CompoundFamily :=
  match l with
  | [] => []
  | x :: rest => insert_by_len x (sorted_by_len_desc rest)
  end.

(** ** Insertion-ordered dicts *)

(** [d[key] = value] on a dict whose order is observed: an existing key keeps
    its position and takes the new value, a new key goes to the end. *)
Fixpoint dict_set {V : Type} (key : string) (value : V) (d : list (string * V)) : list (string * V) :=
  match d with
  | [] => [(key, value)]
  | (k, v) :: rest =>
      if decide (k = key) then (k, value) :: rest
      else (k, v) :: dict_set key value rest
  end.

Definition dict_keys {V : Type} (d : list (string * V)) : list string := d.*1.

Fixpoint dict_get {V : Type} (d : list (string * V)) (key : string) : result V :=
  match d with
  | [] => Raise (KeyError key)
  | (k, v) :: rest => if decide (k = key) then Ok v else dict_get rest key
  end.

(** ** FamilyNamer: [get_families] *)

(** One pass of the inner loop of [get_families] over a member [component]. *)
Definition name_component (bgc_names : gmap string string)
    (family_name component : string) : result string :=
  if startswith component "BGC" then
    display ← getitem bgc_names component;
    if negb (str_in display family_name)
    then Ok (family_name +:+ "_" +:+ display)
    else Ok family_name
  else Ok family_name.

Fixpoint get_families_loop (bgc_names : gmap string string) (index : nat)
    (families : list CompoundFamily) (families_names : list (string * gset string))
    : result (list (string * gset string)) :=
  match families with
  | [] => Ok families_names
  | components :: rest =>
      family_name ← rfold (name_component bgc_names)
                        ((str_of_nat index +:+ "_") +:+ compound_class components)
                        (elements (clusters components));
      get_families_loop bgc_names (S index) rest
        (dict_set family_name (clusters components) families_names)
  end.

Definition get_families (connected_families : list CompoundFamily)
    (bgc_names : gmap string string) : result (list (string * gset string)) :=
  get_families_loop bgc_names 1 (sorted_by_len_desc connected_families) [].

(** The naming rule in the words of the specification: the family of rank
    [rank] starts as [<rank>_<compound_class>]; the display name of each
    reference member is appended after an underscore unless it already
    occurs in the name built so far. *)
Definition spec_append_display (name display : string) : string :=
  if str_in display name then name else name +:+ "_" +:+ display.

Definition spec_family_name (bgc_names : gmap string string) (rank : nat)
    (f : CompoundFamily) : result string :=
  displays ← rmap (getitem bgc_names)
               (filter (λ c, startswith c "BGC") (elements (clusters f)));
  Ok (fold_left spec_append_display displays
        (str_of_nat rank +:+ "_" +:+ compound_class f)).

Definition spec_named_families (bgc_names : gmap string string)
    (first_rank : nat) (ranked : list CompoundFamily)
    : result (list (string * gset string)) :=
  rmap (λ rf, name ← spec_family_name bgc_names rf.1 rf.2; Ok (name, clusters rf.2))
       (zip (seq first_rank (length ranked)) ranked).

(** ** Text files and more string primitives *)

Definition newline : ascii := "010"%char.
Definition tab : ascii := "009"%char.

(** The successive results of [infile.readline()] up to the end of the file,
    for the text of the file as the text mode of [open] presents it (every
    line end is a newline): each line keeps its terminating newline (the
    last one may lack it), and no line is empty, so [while line:] runs once
    per element. *)
Fixpoint readlines (content : string) : list string :=
  match content with
  | EmptyString => []
  | String c rest =>
      if decide (c = newline) then String c "" :: readlines rest
      else match readlines rest with
           | [] => [String c ""]
           | line :: others => String c line :: others
           end
  end.

(** [c.isspace()] for the characters below 256: tab to carriage return, the
    four separators, the space, next line and the no-break space. *)
Definition py_isspace (c : ascii) : bool :=
  let n := nat_of_ascii c in
  bool_decide (9 ≤ n ≤ 13) || bool_decide (28 ≤ n ≤ 32)
  || bool_decide (n = 133) || bool_decide (n = 160).

(** [s.rstrip()] *)
Fixpoint rstrip (s : string) : string :=
  match s with
  | EmptyString => ""
  | String c rest =>
      match rstrip rest with
      | EmptyString => if py_isspace c then "" else String c ""
      | kept => String c kept
      end
  end.

(** [s.split(sep)] for a one-character separator: never an empty list. *)
Fixpoint str_split (sep : ascii) (s : string) : list string :=
  match s with
  | EmptyString => [""]
  | String c rest =>
      if decide (c = sep) then "" :: str_split sep rest
      else match str_split sep rest with
           | [] => [String c ""]
           | field :: others => String c field :: others
           end
  end.

(** [l[i]] for a non-negative literal index. *)
Definition index_list {A : Type} (l : list A) (i : nat) : result A :=
  match l !! i with
  | Some x => Ok x
  | None => Raise IndexError
  end.

(** [s.replace(old, new)] for a non-empty [old]: the occurrences are
    replaced from the left, without overlap. [skip] counts the characters of
    an occurrence still to be dropped. *)
Fixpoint str_replace_from (old new : string) (skip : nat) (s : string) : string :=
  match s with
  | EmptyString => ""
  | String c rest =>
      match skip with
      | S k => str_replace_from old new k rest
      | O =>
          if String.prefix old s
          then new +:+ str_replace_from old new (String.length old - 1) rest
          else String c (str_replace_from old new 0 rest)
      end
  end.

Definition str_replace (old new s : string) : string :=
  str_replace_from old new 0 s.

(** The characters of the class [[A-Za-z0-9_-]]. *)
Definition is_name_char (c : ascii) : bool :=
  let n := nat_of_ascii c in
  bool_decide (65 ≤ n ≤ 90) || bool_decide (97 ≤ n ≤ 122)
  || bool_decide (48 ≤ n ≤ 57) || bool_decide (n = 95) || bool_decide (n = 45).

Fixpoint str_filter (keep : ascii → bool) (s : string) : string :=
  match s with
  | EmptyString => ""
  | String c rest =>
      if keep c then String c (str_filter keep rest) else str_filter keep rest
  end.

(** [re.sub(r"[^A-Za-z0-9_-]", "", s.replace(" ", "_"))] *)
Definition sanitize (s : string) : string :=
  str_filter is_name_char (str_replace " " "_" s).

(** ** SummaryParser: [map_clusters_to_names] *)

Record ParseState : Type := mkParseState {
  genomes_with_clusters : gmap string (gset string);
  bgcs_with_names : gmap string string;
  clusters_with_types : gmap string string;
  wrong_line_format : bool
}.

Definition format_warn : string :=
  "Line(s) in the summary file contain a nonstandard number of columns (standard is 7). "
  +:+ String newline
        ("In case of errors/strange results, please check the format of your summary file."
         +:+ String newline "").

(** The body of the [while line:] loop for one line read from the file. *)
Definition parse_row (st : ParseState) (raw_line : string) : result ParseState :=
  let line := str_split tab (rstrip raw_line) in
  let wrong := if decide (length line ≠ 7) then true else wrong_line_format st in
  cluster ← index_list line 0;
  maps ←
    (if startswith cluster "BGC" then
       field ← index_list line 2;
       let cluster_name := sanitize (str_replace " biosynthetic gene cluster" "" field) in
       Ok (genomes_with_clusters st, <[cluster := cluster_name]> (bgcs_with_names st))
     else
       field ← index_list line 5;
       let genome := sanitize field in
       Ok (match genomes_with_clusters st !! genome with
           | None => <[genome := {[cluster]}]> (genomes_with_clusters st)
           | Some members => <[genome := members ∪ {[cluster]}]> (genomes_with_clusters st)
           end,
           bgcs_with_names st));
  metabolite_type ← index_list line 4;
  Ok (mkParseState maps.1 maps.2
        (<[cluster := metabolite_type]> (clusters_with_types st)) wrong).

(** What [map_clusters_to_names] hands back: the three mappings, and what it
    wrote to standard error. *)
Record Summary : Type := mkSummary {
  summary_genomes : gmap string (gset string);
  summary_bgcs : gmap string string;
  summary_types : gmap string string;
  summary_stderr : list string
}.

Definition map_clusters_to_names (content : string) : result Summary :=
  match readlines content with
  | [] => Raise (ValueError "Header line of summary file missing.")
  | header :: rows =>
      if negb (startswith header "BGC")
      then Raise (ValueError "Header line of summary file missing.")
      else
        st ← rfold parse_row (mkParseState ∅ ∅ ∅ false) rows;
        Ok (mkSummary (genomes_with_clusters st) (bgcs_with_names st)
              (clusters_with_types st)
              (if wrong_line_format st then [format_warn] else []))
  end.

(** ** NetworkMerger: [merge_all_bigscape_networks] *)

(** A value of a [float64] column: a binary64 number with the arithmetic of
    IEEE 754 (round to nearest, ties to even). *)
Definition float64 : Type := spec_float.

Global Instance float64_eq_dec : EqDecision float64.
Proof. unfold float64. solve_decision. Defined.

Definition float_prec : Z := 53.
Definition float_emax : Z := 1024.

Definition float_add (x y : float64) : float64 := SFadd float_prec float_emax x y.
Definition float_div (x y : float64) : float64 := SFdiv float_prec float_emax x y.

(** [float(z)] for an integer. *)
Definition float_of_Z (z : Z) : float64 :=
  match z with
  | Z0 => S754_zero false
  | Zpos p => binary_normalize float_prec float_emax (Zpos p) 0 false
  | Zneg p => binary_normalize float_prec float_emax (Zpos p) 0 true
  end.

(** A row of a [.network] file restricted to the columns [Clustername 1],
    [Clustername 2] and [Raw distance], for the tables that [pd.read_csv]
    reads with both name columns as strings and the distances as
    [float64]. *)
Record Edge : Type := mkEdge {
  clustername_1 : string;
  clustername_2 : string;
  raw_distance : float64
}.

Global Instance Edge_eq_dec : EqDecision Edge.
Proof. solve_decision. Defined.

(** An entry of a result directory: whether it is a regular file, its name,
    and what [pd.read_csv(dir_entry, sep="\t")[['Clustername 1',
    'Clustername 2', 'Raw distance']]] gives for it: the table, or the
    exception of a file that cannot be read or lacks one of the columns. *)
Record DirEntry : Type := mkDirEntry {
  entry_is_file : bool;
  entry_name : string;
  entry_table : result (list Edge)
}.

Record ResultDir : Type := mkResultDir {
  dir_name : string;
  dir_entries : list DirEntry
}.

(** [s.endswith(suffix)] *)
Fixpoint endswith (s suffix : string) : bool :=
  bool_decide (s = suffix) ||
  match s with
  | EmptyString => false
  | String _ rest => endswith rest suffix
  end.

(** [dir_entry.match("*_c<cutoff>.network")], where [cutoff_text] is the
    cutoff formatted with two decimals ([0.30] for the default cutoff). *)
Definition matches_network_pattern (cutoff_text : string) (e : DirEntry) : bool :=
  endswith (entry_name e) ("_c" +:+ cutoff_text +:+ ".network").

(** A [DataFrame] of edges; [pd.DataFrame()] has no columns at all. *)
Inductive Frame : Type :=
  | NoColumns
  | Table (rows : list Edge).

(** [frame.append(table)] *)
Definition frame_append (frame : Frame) (table : list Edge) : Frame :=
  match frame with
  | NoColumns => Table table
  | Table rows => Table (rows ++ table)
  end.

(** The inner loop over the entries of one result directory: the first
    matching file is read when it is met, before any later entry is
    looked at. *)
Fixpoint scan_entries (cutoff_text : string) (result_dir : string)
    (entries : list DirEntry) (network_found : bool) (network_values : Frame)
    : result Frame :=
  match entries with
  | [] => Ok network_values
  | dir_entry :: rest =>
      if entry_is_file dir_entry && matches_network_pattern cutoff_text dir_entry then
        if negb network_found then
          table ← entry_table dir_entry;
          scan_entries cutoff_text result_dir rest true
            (frame_append network_values table)
        else
          Raise (ValueError ("Multiple network files in directory "
                             +:+ result_dir +:+ "."))
      else scan_entries cutoff_text result_dir rest network_found network_values
  end.

(** The outer loop over the result directories. *)
Fixpoint scan_results (cutoff_text : string) (results : list ResultDir)
    (network_values : Frame) : result Frame :=
  match results with
  | [] => Ok network_values
  | result_dir :: rest =>
      network_values' ← scan_entries cutoff_text (dir_name result_dir)
                          (dir_entries result_dir) false network_values;
      scan_results cutoff_text rest network_values'
  end.

(** The column [Match_name]: the two cluster names, concatenated. *)
Definition match_name (e : Edge) : string :=
  clustername_1 e +:+ clustername_2 e.

(** [drop_duplicates()]: of equal rows the first one is kept. *)
Fixpoint drop_duplicates {A : Type} `{EqDecision A} (l : list A) : list A :=
  match l with
  | [] => []
  | x :: rest => x :: filter (λ y, y ≠ x) (drop_duplicates rest)
  end.

Fixpoint series_lookup (series : list (string * float64)) (key : string)
    : option float64 :=
  match series with
  | [] => None
  | (k, v) :: rest => if decide (k = key) then Some v else series_lookup rest key
  end.

(** [left.join(series.to_frame(name="Raw distance"), on="Match_name",
    how="inner")]: every row of [left] whose match name is in the index of
    the series, with the value found there. *)
Definition join_means (left : list (string * string * string))
    (series : list (string * float64)) : list (string * string * string * float64) :=
  omap (λ row, (λ m, (row, m)) <$> series_lookup series row.1.1) left.

Section Merge.

(** What pandas' [mean()] computes for the [float64] values of one group,
    taken in the order of the rows. It is a sum divided by the count, each
    step rounded; whether the sum is compensated depends on the version of
    pandas, which is not part of this repository. *)
Variable series_mean : list float64 → float64.

(** [network_values.groupby('Match_name')['Raw distance'].mean()]: a series
    indexed by the distinct match names, in sorted order. *)
Definition groupby_mean (rows : list Edge) : list (string * float64) :=
  (λ key, (key, series_mean (raw_distance <$> filter (λ r, match_name r = key) rows)))
    <$> merge_sort String.le (drop_duplicates (match_name <$> rows)).

(** The part of [merge_all_bigscape_networks] after the files are read. *)
Definition combine_networks (network_values : list Edge) : list Edge :=
  let network_matches := groupby_mean network_values in
  let networks_combined :=
    drop_duplicates
      (join_means ((λ r, (match_name r, clustername_1 r, clustername_2 r))
                     <$> network_values)
                  network_matches) in
  (λ row, mkEdge row.1.1.2 row.1.2 row.2) <$> networks_combined.

Definition merge_all_bigscape_networks (results : list ResultDir)
    (cutoff_text : string) : result (list Edge) :=
  network_values ← scan_results cutoff_text results NoColumns;
  match network_values with
  | NoColumns => Raise (KeyError "Clustername 1")
  | Table rows => Ok (combine_networks rows)
  end.

End Merge.

(** The mean of [float64] values as the plain sum from left to right divided
    by the count. For a group of one or two values a compensated sum gives
    the same result; the examples have no larger group. *)
Definition float_mean (values : list float64) : float64 :=
  float_div (foldl float_add (S754_zero false) values)
            (float_of_Z (Z.of_nat (length values))).

(** The matching files of a result directory. *)
Definition network_files (cutoff_text : string) (d : ResultDir) : list DirEntry :=
  filter (λ e, entry_is_file e && matches_network_pattern cutoff_text e) (dir_entries d).

(** The rows the specification speaks of: the tables of the first matching
    file of each directory, concatenated. *)
Definition first_network_table (cutoff_text : string) (d : ResultDir) : list Edge :=
  match network_files cutoff_text d with
  | [] => []
  | e :: _ => match entry_table e with
              | Ok table => table
              | Raise _ => []
              end
  end.

Definition similarity_rows (cutoff_text : string) (results : list ResultDir) : list Edge :=
  concat (first_network_table cutoff_text <$> results).

Definition ordered_pair (e : Edge) : string * string :=
  (clustername_1 e, clustername_2 e).



(** Example result directories; [tenths n] is the [float64] nearest to
    [n/10] and [hundredths n] the one nearest to [n/100]. *)
Definition tenths (n : Z) : float64 := float_div (float_of_Z n) (float_of_Z 10).

Definition example_dir_nrps : ResultDir :=
  mkResultDir "NRPS"
    [mkDirEntry true "NRPS_c0.30.network" (Ok [mkEdge "Cluster_1" "Cluster_2" (tenths 3)]);
     mkDirEntry true "NRPS_clustering_c0.30.tsv" (Ok [])].

Definition example_dir_mix : ResultDir :=
  mkResultDir "mix"
    [mkDirEntry true "mix_c0.30.network" (Ok [mkEdge "Cluster_1" "Cluster_2" (tenths 4)])].



Definition example_dir_collision : ResultDir :=
  mkResultDir "collision"
    [mkDirEntry true "collision_c0.30.network"
       (Ok [mkEdge "A" "BC" (tenths 1); mkEdge "AB" "C" (tenths 3)])].

(** A directory with two network files of the cutoff. *)
Definition example_dir_twice : ResultDir :=
  mkResultDir "twice"
    [mkDirEntry true "twice_c0.30.network" (Ok [mkEdge "A" "B" (tenths 3)]);
     mkDirEntry true "old_c0.30.network" (Ok [])].

(** A directory with a clustering file only. *)
Definition example_dir_other : ResultDir :=
  mkResultDir "other"
    [mkDirEntry true "other_clustering_c0.30.tsv" (Ok [])].

(** ** FamilyDetector: [get_connected_from_df] *)

(** The nodes of [nx.from_pandas_edgelist(network_df, ...)], in the order in
    which the edges add them. *)
Definition graph_nodes (network_df : list Edge) : list string :=
  drop_duplicates (network_df ≫= λ e, [clustername_1 e; clustername_2 e]).

(** The neighbours of [v] in the undirected graph. *)
Definition neighbours (network_df : list Edge) (v : string) : gset string :=
  list_to_set
    (network_df ≫= λ e,
       (if decide (clustername_1 e = v) then [clustername_2 e] else [])
       ++ (if decide (clustername_2 e = v) then [clustername_1 e] else [])).

(** One level of the breadth-first search: the nodes seen so far and their
    neighbours. *)
Definition expand (network_df : list Edge) (seen : gset string) : gset string :=
  seen ∪ ⋃ (neighbours network_df <$> elements seen).

(** [_plain_bfs(G, n, source)]: the search stops when a level adds no node,
    which happens after at most [n] levels for a graph of [n] nodes; from
    then on [expand] changes nothing. *)
Definition plain_bfs (network_df : list Edge) (n : nat) (source : string) : gset string :=
  Nat.iter n (expand network_df) {[source]}.

(** The loop of [nx.connected_components] over the nodes. *)
Fixpoint connected_components_from (network_df : list Edge) (n : nat)
    (nodes : list string) (seen : gset string) : list (gset string) :=
  match nodes with
  | [] => []
  | v :: rest =>
      if decide (v ∈ seen) then connected_components_from network_df n rest seen
      else
        let c := plain_bfs network_df n v in
        c :: connected_components_from network_df n rest (seen ∪ c)
  end.

Definition connected_components (network_df : list Edge) : list (gset string) :=
  connected_components_from network_df (length (graph_nodes network_df))
    (graph_nodes network_df) ∅.

(** The body of the loop of [get_connected_from_df] for one component. *)
Definition trim_component (cluster_types : gmap string string)
    (trimmed_components : list CompoundFamily) (components : gset string)
    : result (list CompoundFamily) :=
  if negb (forallb (λ component, startswith component "BGC") (elements components)) then
    types ← rmap (getitem cluster_types) (elements components);
    let compound_type := str_join "_" (elements (list_to_set types : gset string)) in
    Ok (trimmed_components ++ [mkCompoundFamily compound_type components])
  else Ok trimmed_components.

Definition get_connected_from_df (network_df : list Edge)
    (cluster_types : gmap string string) : result (list CompoundFamily) :=
  rfold (trim_component cluster_types) [] (connected_components network_df).

(** An example network: two query components and a component of reference
    clusters only. *)
Definition example_network : list Edge :=
  [mkEdge "Cluster_1" "Cluster_2" (tenths 3);
   mkEdge "Cluster_4" "Cluster_5" (tenths 2);
   mkEdge "BGC_7" "BGC_8" (tenths 1);
   mkEdge "Cluster_3" "Cluster_1" (tenths 1);
   mkEdge "BGC_1" "Cluster_3" (tenths 2)].

Definition example_family_mixed : CompoundFamily :=
  mkCompoundFamily "other_test" {[ "Cluster_1"; "Cluster_2"; "Cluster_3"; "BGC_1" ]}.

Definition example_types : gmap string string :=
  {[ "Cluster_1" := "test"; "Cluster_2" := "test"; "Cluster_3" := "test";
     "Cluster_4" := "test"; "Cluster_5" := "test"; "BGC_1" := "other";
     "BGC_7" := "other"; "BGC_8" := "other" ]}.

(** ** MatrixBuilder and FamilyOrderer *)

(** The order of [sorted(clusters_in_genomes.items())]: the keys of a dict
    are distinct, so the tuples are ordered by their first components. *)
Definition item_le (a b : string * gset string) : Prop := String.le a.1 b.1.

Global Instance item_le_dec : RelDecision item_le.
Proof. intros a b. unfold item_le. apply _. Defined.

(** [sorted(d.items())] *)
Definition sorted_items (d : gmap string (gset string)) : list (string * gset string) :=
  merge_sort item_le (map_to_list d).

(** [sorted(d.keys())] *)
Definition sorted_keys (d : gmap string (gset string)) : list string :=
  merge_sort String.le (map_to_list d).*1.

(** [[len(clusters.intersection(family)) for genomes, clusters in
    sorted(clusters_in_genomes.items())]] *)
Definition family_counts (clusters_in_genomes : gmap string (gset string))
    (family : gset string) : list nat :=
  (λ item, size (item.2 ∩ family)) <$> sorted_items clusters_in_genomes.

(** A [DataFrame] of counts: the index labels and the named columns. *)
Record DataFrame : Type := mkDataFrame {
  df_index : list string;
  df_columns : list (string * list nat)
}.

(** [pd.DataFrame(data=data, index=index)]: every column must have one value
    per index label. *)
Definition pd_DataFrame (data : list (string * list nat)) (index : list string)
    : result DataFrame :=
  if forallb (λ column, bool_decide (length column.2 = length index)) data
  then Ok (mkDataFrame index data)
  else Raise (ValueError "Length of values does not match length of index").

(** [parse_family_order], on the text of the order file. *)
Fixpoint order_duplicates (family_numbers numbers_seen : list string) : list string :=
  match family_numbers with
  | [] => []
  | number :: rest =>
      (if decide (number ∈ numbers_seen) then [number] else [])
      ++ order_duplicates rest (number :: numbers_seen)
  end.

Definition parse_family_order (content : string) : result (list string) :=
  let family_numbers :=
    str_split ","%char (rstrip (default "" (head (readlines content)))) in
  let duplicates := order_duplicates family_numbers [] in
  if decide (duplicates = []) then Ok family_numbers
  else Raise (ValueError ("Family order list contains duplicates: "
                          +:+ str_join ", " duplicates)).

(** The first loop of [get_preordered_matrix]: for each number of the order,
    all families whose name starts with the number and an underscore. *)
Definition families_by_order (families_with_names : list (string * gset string))
    (family_order : list string) : list string :=
  family_order ≫= λ family_number,
    filter (λ x, startswith x (family_number +:+ "_")) (dict_keys families_with_names).

(** The second loop: the counts of each selected family, stored under its
    name in an ordered dict. *)
Definition count_families (families_with_names : list (string * gset string))
    (clusters_in_genomes : gmap string (gset string)) (selected : list string)
    : result (list (string * list nat)) :=
  rfold (λ families_clusters family,
           members ← dict_get families_with_names family;
           Ok (dict_set family (family_counts clusters_in_genomes members)
                 families_clusters))
        [] selected.

(** [get_preordered_matrix] up to the data frame it serialises. *)
Definition preordered_frame (families_with_names : list (string * gset string))
    (clusters_in_genomes : gmap string (gset string)) (family_order : list string)
    : result DataFrame :=
  if negb (bool_decide (length families_with_names = length family_order))
  then Raise (ValueError
                ("Length of family order list must match amount of families."
                 +:+ String newline
                       ("        Amount of families: "
                        +:+ str_of_nat (length families_with_names)
                        +:+ " Length of family order list: "
                        +:+ str_of_nat (length family_order))))
  else
    families_clusters ← count_families families_with_names clusters_in_genomes
                          (families_by_order families_with_names family_order);
    pd_DataFrame families_clusters (sorted_keys clusters_in_genomes).

(** ** Serialisation *)

Definition quote : ascii := "034"%char.
Definition comma : ascii := ","%char.

Fixpoint str_existsb (p : ascii → bool) (s : string) : bool :=
  match s with
  | EmptyString => false
  | String c rest => p c || str_existsb p rest
  end.

(** The fields that [csv.writer] quotes under [QUOTE_MINIMAL]: those holding
    the separator, the quote character or the line terminator. *)
Definition csv_special (c : ascii) : bool :=
  bool_decide (c = comma) || bool_decide (c = quote) || bool_decide (c = newline).

Fixpoint csv_double_quotes (s : string) : string :=
  match s with
  | EmptyString => ""
  | String c rest =>
      if decide (c = quote) then String quote (String quote (csv_double_quotes rest))
      else String c (csv_double_quotes rest)
  end.

Definition csv_field (field : string) : string :=
  if str_existsb csv_special field
  then String quote (csv_double_quotes field +:+ String quote "")
  else field.

(** One line as [csv.writer.writerow] writes it; a row that is one empty
    field is written as a pair of quotes. *)
Definition csv_line (fields : list string) : string :=
  (if decide (fields = [""]) then String quote (String quote "")
   else str_join "," (csv_field <$> fields))
  +:+ String newline "".

(** The cells of the row of index label number [i]. *)
Definition frame_row (df : DataFrame) (i : nat) (label : string) : list string :=
  label :: ((λ column, str_of_nat (default 0 (column.2 !! i))) <$> df_columns df).

(** [df.to_csv()]: the header line, whose first cell (the name of the index)
    is empty, then one line per index label. *)
Definition to_csv (df : DataFrame) : string :=
  csv_line ("" :: (df_columns df).*1)
  +:+ foldr String.append "" (imap (λ i label, csv_line (frame_row df i label)) (df_index df)).

Definition get_preordered_matrix (families_with_names : list (string * gset string))
    (clusters_in_genomes : gmap string (gset string)) (family_order : list string)
    : result string :=
  absence_presence_df ← preordered_frame families_with_names clusters_in_genomes
                          family_order;
  Ok ("#NAMES" +:+ to_csv absence_presence_df).

Section Heuristic.

(** [scipy.cluster.hierarchy.leaves_list(scipy.cluster.hierarchy.linkage(X,
    optimal_ordering=True))] for the observations [X], one row of counts
    per family; the clustering itself is not part of this repository. *)
Variable linkage_leaves : list (list nat) → result (list nat).

(** [get_absence_presence_matrix] up to the data frame it serialises. *)
Definition absence_presence_frame (families_with_names : list (string * gset string))
    (clusters_in_genomes : gmap string (gset string)) : result DataFrame :=
  families_clusters ← count_families families_with_names clusters_in_genomes
                        (merge_sort String.le (dict_keys families_with_names));
  absence_presence_tmp ← pd_DataFrame families_clusters
                           (sorted_keys clusters_in_genomes);
  transposed_leaves ← linkage_leaves (df_columns absence_presence_tmp).*2;
  reordered ← rmap (λ leaf_ind,
                      name ← index_list (df_columns absence_presence_tmp).*1 leaf_ind;
                      values ← dict_get (df_columns absence_presence_tmp) name;
                      Ok (name, values))
                   transposed_leaves;
  Ok (mkDataFrame (df_index absence_presence_tmp) reordered).

Definition get_absence_presence_matrix
    (families_with_names : list (string * gset string))
    (clusters_in_genomes : gmap string (gset string)) : result string :=
  absence_presence_reordered ← absence_presence_frame families_with_names
                                 clusters_in_genomes;
  Ok ("#NAMES" +:+ to_csv absence_presence_reordered).

End Heuristic.

(** The last block of [bigscape_to_matrix] in [make_abs_pres.py], which
    builds the tab-separated matrix from the sorted family names
    [all_families], the families and the genomes. *)
Definition bigscape_to_matrix (all_families : list string)
    (families_with_clusters genomes_to_clusters : gmap string (gset string))
    : result string :=
  rfold (λ absence_presence_matrix item,
           absence_presence_row ←
             rmap (λ family,
                     members ← getitem families_with_clusters family;
                     Ok (str_of_nat (size (item.2 ∩ members))))
                  all_families;
           Ok ((absence_presence_matrix
                +:+ (String newline "" +:+ item.1 +:+ String tab ""))
               +:+ str_join (String tab "") absence_presence_row))
        (("#NAMES" +:+ String tab "") +:+ str_join (String tab "") all_families)
        (sorted_items genomes_to_clusters).

(** Example inputs of the matrix builders. *)
Definition example_named_families : list (string * gset string) :=
  [("1_test", {[ "Cluster_1"; "Cluster_2"; "Cluster_3" ]});
   ("2_test", {[ "Cluster_4"; "Cluster_5" ]})].

Definition example_genomes : gmap string (gset string) :=
  {[ "Test_org_1" := {[ "Cluster_1" ]};
     "Test_org_2" := {[ "Cluster_3"; "Cluster_4" ]};
     "Test_org_3" := {[ "Cluster_5" ]} ]}.

(** A stand-in for the clustering that keeps the families in their order. *)
Definition example_linkage_leaves (observations : list (list nat)) : result (list nat) :=
  Ok (seq 0 (length observations)).

Definition example_frame : DataFrame :=
  mkDataFrame ["Test_org_1"; "Test_org_2"; "Test_org_3"]
    [("2_test", [0; 1; 1]); ("1_test", [1; 1; 0])].

(** The document in the words of the specification: a header line with the
    marker and the family names, then one line per genome with its name and
    its counts, all cells joined by the separator. *)
Definition spec_matrix_lines (sep : string) (names : list string)
    (rows : list (string * list nat)) : list string :=
  ("#NAMES" +:+ sep +:+ str_join sep names)
  :: ((λ row, row.1 +:+ sep +:+ str_join sep (str_of_nat <$> row.2)) <$> rows).

(** The rows of a frame: each index label with the entries of its row. *)
Definition frame_rows_of (df : DataFrame) : list (string * list nat) :=
  imap (λ i label, (label, (λ column, default 0 (column.2 !! i)) <$> df_columns df))
       (df_index df).

(** The rows of the tab-separated matrix: each genome with the sizes of the
    intersections of its cluster set with the families. *)
Definition genome_rows (all_families : list string)
    (families_with_clusters genomes_to_clusters : gmap string (gset string))
    : list (string * list nat) :=
  (λ item, (item.1,
            (λ family, size (item.2 ∩ default ∅ (families_with_clusters !! family)))
              <$> all_families))
    <$> sorted_items genomes_to_clusters.

(** A cell that [csv.writer] writes as it is. *)
Definition csv_plain (field : string) : Prop := str_existsb csv_special field = false.

(** [lacks c s]: the character [c] does not occur in [s]. *)
Fixpoint lacks (c : ascii) (s : string) : Prop :=
  match s with
  | EmptyString => True
  | String a rest => a ≠ c ∧ lacks c rest
  end.

Definition example_families_by_number : gmap string (gset string) :=
  {[ "1" := {[ "Cluster_1"; "Cluster_2"; "Cluster_3" ]};
     "2" := {[ "Cluster_4"; "Cluster_5" ]} ]}.

(** ** Predicates of the statements *)

(** [non_digit c]: no decimal digit is the character [c]. *)
Definition non_digit (c : ascii) : Prop := ∀ x, pretty_N_char x ≠ c.

(** [len_ge a b]: the family [a] is at least as large as [b]. *)
Definition len_ge (a b : CompoundFamily) : Prop := family_len b ≤ family_len a.

(** A name is [ranked_below index] when it starts with a rank smaller than
    [index] followed by an underscore. *)
Definition ranked_below (index : nat) (name : string) : Prop :=
  ∃ j rest, j < index ∧ name = str_of_nat j +:+ "_" +:+ rest.

(** The reference prefix separates the two mappings: the cluster sets of
    the genomes hold query ids only, the display names are keyed by
    reference ids only. *)
Definition prefix_separated (genomes : gmap string (gset string))
    (bgcs : gmap string string) : Prop :=
  (∀ genome members cluster,
     genomes !! genome = Some members → cluster ∈ members →
     startswith cluster "BGC" = false)
  ∧ (∀ cluster, is_Some (bgcs !! cluster) → startswith cluster "BGC" = true).


(** A directory that the scan passes without an error: it holds no network
    file of the cutoff, or one whose table is read. *)
Definition readable (cutoff_text : string) (d : ResultDir) : Prop :=
  match network_files cutoff_text d with
  | [] => True
  | [e] => ∃ table, entry_table e = Ok table
  | _ :: _ :: _ => False
  end.


(** A family has a query member when one of its cluster ids lacks the
    reference prefix. *)
Definition has_query_member (f : CompoundFamily) : Prop :=
  ∃ cluster, cluster ∈ clusters f ∧ startswith cluster "BGC" = false.

(** The columns that [count_families] produces hold the counts of families
    of the mapping. *)
Definition counts_of (families_with_names : list (string * gset string))
    (clusters_in_genomes : gmap string (gset string))
    (entry : string * list nat) : Prop :=
  ∃ members, dict_get families_with_names entry.1 = Ok members
             ∧ entry.2 = family_counts clusters_in_genomes members.

(** The cluster set of a family of the mapping. *)
Definition family_clusters (families_with_names : list (string * gset string))
    (family : string) : gset string :=
  match dict_get families_with_names family with
  | Ok members => members
  | Raise _ => ∅
  end.

(** The column of a family: its name and its count for each genome. *)
Definition column_of (families_with_names : list (string * gset string))
    (clusters_in_genomes : gmap string (gset string)) (family : string)
    : string * list nat :=
  (family, family_counts clusters_in_genomes (family_clusters families_with_names family)).

(** The frame of counts with the columns [names]. *)
Definition count_frame (families_with_names : list (string * gset string))
    (clusters_in_genomes : gmap string (gset string)) (names : list string) : DataFrame :=
  mkDataFrame (sorted_keys clusters_in_genomes)
    (column_of families_with_names clusters_in_genomes <$> names).

(** The family names in sorted order, as the columns of the frame that
    [get_absence_presence_matrix] builds before it reorders them. *)
Definition sorted_families (families_with_names : list (string * gset string))
    : list string :=
  drop_duplicates (merge_sort String.le (dict_keys families_with_names)).

(** The observations that the clustering is given: the counts of each
    family, in sorted order of the family names. *)
Definition observations (families_with_names : list (string * gset string))
    (clusters_in_genomes : gmap string (gset string)) : list (list nat) :=
  (column_of families_with_names clusters_in_genomes <$> sorted_families families_with_names).*2.

(** The frame has the entry [n] for the family and the genome. *)
Definition matrix_entry (df : DataFrame) (family genome : string) (n : nat) : Prop :=
  ∃ column i, (family, column) ∈ df_columns df
              ∧ df_index df !! i = Some genome ∧ column !! i = Some n.

(** ** More example data *)

(** Two example families and a display-name table. *)
Definition example_family_small : CompoundFamily :=
  mkCompoundFamily "test" {[ "Cluster_4"; "Cluster_5" ]}.
Definition example_family_large : CompoundFamily :=
  mkCompoundFamily "test" {[ "Cluster_1"; "Cluster_2"; "Cluster_3"; "BGC_1" ]}.
Definition example_bgc_names : gmap string string :=
  {[ "BGC_1" := "Testomycin" ]}.

(** A line of tab-separated fields. *)
Definition tsv_row (fields : list string) : string :=
  str_join (String tab "") fields +:+ String newline "".

(** An annotation table with one reference row and two query rows, the last
    of which lost its empty seventh field. *)
Definition example_summary_file : string :=
  tsv_row ["BGC"; "Accesion ID"; "Description"; "Product Prediction";
           "BiG-SCAPE class"; "Organism"; "Taxonomy"]
  +:+ tsv_row ["testcluster1"; "acc1"; "first"; "nrps"; "NRPS";
               "Test organism 1"; "Bacteria"]
  +:+ tsv_row ["BGC_1"; "acc2"; "Testomycin biosynthetic gene cluster"; "other";
               "other"; "Some organism"; "Bacteria"]
  +:+ tsv_row ["testcluster2"; "acc3"; "second"; "pks"; "PKS";
               "Test organism (2)"; ""].

(** The fields of a line as the row loop splits it. *)
Definition row_fields (raw_line : string) : list string :=
  str_split tab (rstrip raw_line).

(** A row has the fields that the row loop reads: up to the fifth for a row
    of a reference cluster, up to the sixth for any other row. *)
Definition enough_fields (raw_line : string) : Prop :=
  if startswith (default "" (head (row_fields raw_line))) "BGC"
  then 5 ≤ length (row_fields raw_line)
  else 6 ≤ length (row_fields raw_line).

Fixpoint str_forallb (p : ascii → bool) (s : string) : bool :=
  match s with
  | EmptyString => true
  | String c rest => p c && str_forallb p rest
  end.

(** A sanitized name: only characters of the class [[A-Za-z0-9_-]]. *)
Definition sanitized (name : string) : Prop := str_forallb is_name_char name = true.

(** ** The clustering-file variant: [map_tree/make_abs_pres.py] *)

(** An entry of a result directory as the clustering variants read it:
    whether it is a regular file, its name and its text. *)
Record TextEntry : Type := mkTextEntry {
  text_is_file : bool;
  text_name : string;
  text_content : string
}.

(** An entry of the directory given on the command line; for a directory,
    [base_children] are its entries. *)
Record BaseEntry : Type := mkBaseEntry {
  base_is_file : bool;
  base_is_dir : bool;
  base_name : string;
  base_content : string;
  base_children : list TextEntry
}.

(** The exceptions of the whole run: those of the steps, and [IOError]. *)
Inductive run_exn : Type :=
  | Exception (e : exn)
  | IOError (msg : string).

Inductive outcome (A : Type) : Type :=
  | Returned (a : A)
  | Raised (e : run_exn).
Arguments Returned {A} a.
Arguments Raised {A} e.

Global Instance run_exn_eq_dec : EqDecision run_exn.
Proof. solve_decision. Defined.

Global Instance outcome_eq_dec {A : Type} `{EqDecision A} : EqDecision (outcome A).
Proof. solve_decision. Defined.

Global Instance outcome_ret : MRet outcome := λ A a, Returned a.
Global Instance outcome_bind : MBind outcome := λ A B k m,
  match m with
  | Returned a => k a
  | Raised e => Raised e
  end.

(** A step of the run: its exception, if any, goes through unchanged. *)
Definition step {A : Type} (r : result A) : outcome A :=
  match r with
  | Ok a => Returned a
  | Raise e => Raised (Exception e)
  end.

(** [entry.match("Network_Annotations_Full*")] *)
Definition is_summary_file (entry : BaseEntry) : bool :=
  base_is_file entry && startswith (base_name entry) "Network_Annotations_Full".

(** The loop over the base directory that the three command-line variants
    share: the summary file found so far and the result directories. *)
Fixpoint find_inputs (entries : list BaseEntry) (all_networks : option BaseEntry)
    (result_dirs : list BaseEntry) : outcome (option BaseEntry * list BaseEntry) :=
  match entries with
  | [] => Returned (all_networks, result_dirs)
  | entry :: rest =>
      found ←
        (if is_summary_file entry then
           match all_networks with
           | None => Returned (Some entry)
           | Some _ => Raised (Exception (ValueError "Multiple summary files found."))
           end
         else Returned all_networks);
      find_inputs rest found
        (if base_is_dir entry then result_dirs ++ [entry] else result_dirs)
  end.

(** The loop and the two sanity checks after it. *)
Definition find_summary_and_results (entries : list BaseEntry)
    : outcome (BaseEntry * list BaseEntry) :=
  found ← find_inputs entries None [];
  match found.1 with
  | None => Raised (IOError "No summary file found.")
  | Some all_networks =>
      if decide (found.2 = []) then Raised (IOError "No results found.")
      else Returned (all_networks, found.2)
  end.

(** [sorted(l, key=key)] once the keys are computed: a stable sort. *)
Fixpoint insert_by_key (x : Z * string) (l : list (Z * string)) : list (Z * string) :=
  match l with
  | [] => [x]
  | y :: rest =>
      if decide (y.1 < x.1)%Z then y :: insert_by_key x rest else x :: y :: rest
  end.

Fixpoint sort_by_key (l : list (Z * string)) : list (Z * string) :=
  match l with
  | [] => []
  | x :: rest => insert_by_key x (sort_by_key rest)
  end.

Module MakeAbsPres.

(** The body of the [while line:] loop of [get_families]. *)
Definition family_row (file_name : string) (families : list (string * gset string))
    (raw_line : string) : result (list (string * gset string)) :=
  let line := str_split tab (rstrip raw_line) in
  if decide (length line ≠ 2) then
    Raise (ValueError ("Cluster file must contain two columns. File " +:+ file_name
                       +:+ " contains " +:+ str_of_nat (length line) +:+ "."))
  else
    cluster ← index_list line 0;
    family ← index_list line 1;
    Ok (match dict_get families family with
        | Raise _ => dict_set family {[cluster]} families
        | Ok members => dict_set family (members ∪ {[cluster]}) families
        end).

(** [get_families(cluster_file, families)]: the dict after the update, for
    the name and the text of the clustering file. *)
Definition get_families (file_name content : string)
    (families : list (string * gset string)) : result (list (string * gset string)) :=
  match readlines content with
  | [] => Raise (ValueError ("Header line of file " +:+ file_name +:+ " missing."))
  | header :: rows =>
      if negb (startswith header "#")
      then Raise (ValueError ("Header line of file " +:+ file_name +:+ " missing."))
      else rfold (family_row file_name) families rows
  end.

(** The body of the [while line:] loop of [match_clusters_to_genomes]. *)
Definition genome_row (st : gmap string (gset string) * bool) (raw_line : string)
    : result (gmap string (gset string) * bool) :=
  let line := str_split tab (rstrip raw_line) in
  let wrong := if decide (length line ≠ 7) then true else st.2 in
  field ← index_list line 5;
  let genome := sanitize field in
  cluster ← index_list line 0;
  Ok (match st.1 !! genome with
      | None => <[genome := {[cluster]}]> st.1
      | Some members => <[genome := members ∪ {[cluster]}]> st.1
      end, wrong).

(** [match_clusters_to_genomes(summary_file)]: the mapping, and what was
    written to standard error. *)
Definition match_clusters_to_genomes (content : string)
    : result (gmap string (gset string) * list string) :=
  match readlines content with
  | [] => Raise (ValueError "Header line of summary file missing.")
  | header :: rows =>
      if negb (startswith header "BGC")
      then Raise (ValueError "Header line of summary file missing.")
      else
        st ← rfold genome_row ((∅ : gmap string (gset string)), false) rows;
        Ok (st.1, if (st.2 : bool) then [format_warn] else [])
  end.

(** [entry.match("*_clustering_c.<cutoff>.tsv")], where [cutoff_text] is the
    cutoff formatted with two decimals. *)
Definition matches_clustering_pattern (cutoff_text : string) (e : TextEntry) : bool :=
  endswith (text_name e) ("_clustering_c." +:+ cutoff_text +:+ ".tsv").

(** The loop over the entries of one result directory. *)
Fixpoint scan_clusterings (cutoff_text result_dir : string) (entries : list TextEntry)
    (clusters_found : bool) (families : list (string * gset string))
    : result (list (string * gset string)) :=
  match entries with
  | [] => Ok families
  | entry :: rest =>
      if text_is_file entry && matches_clustering_pattern cutoff_text entry then
        if negb clusters_found then
          families' ← get_families (text_name entry) (text_content entry) families;
          scan_clusterings cutoff_text result_dir rest true families'
        else
          Raise (ValueError ("Multiple clustering files in directory "
                             +:+ result_dir +:+ "."))
      else scan_clusterings cutoff_text result_dir rest clusters_found families
  end.

Section Run.

(** [int(s)] for a string: the integer, or the [ValueError] for a string
    that is no integer literal. *)
Variable py_int : string → result Z.

(** [sorted(families_with_clusters.keys(), key=int)] *)
Definition sorted_by_int (keys : list string) : result (list string) :=
  numbers ← rmap py_int keys;
  Ok (sort_by_key (zip numbers keys)).*2.

(** [bigscape_to_matrix(network_result_dir, cutoff)] for the entries of the
    directory: the matrix, and what was written to standard error. *)
Definition bigscape_to_matrix (entries : list BaseEntry) (cutoff_text : string)
    : outcome (string * list string) :=
  inputs ← find_summary_and_results entries;
  families_with_clusters ←
    step (rfold (λ families result_dir,
                   scan_clusterings cutoff_text (base_name result_dir)
                     (base_children result_dir) false families)
                [] inputs.2);
  all_families ← step (sorted_by_int (dict_keys families_with_clusters));
  genomes ← step (match_clusters_to_genomes (base_content inputs.1));
  absence_presence_matrix ←
    step (bigscape_to_matrix all_families
            (list_to_map families_with_clusters) genomes.1);
  Returned (absence_presence_matrix, genomes.2).

End Run.

End MakeAbsPres.

(** ** The variant with reference clusters: [map_tree/make_abs_pres_mibig.py] *)

Module Mibig.

(** [get_families] has the same text as in [make_abs_pres.py]. *)
Definition get_families (file_name content : string)
    (families : list (string * gset string)) : result (list (string * gset string)) :=
  MakeAbsPres.get_families file_name content families.

Record NamesState : Type := mkNamesState {
  names_genomes : gmap string (gset string);
  names_bgcs : gmap string string;
  names_wrong : bool
}.

(** The body of the [while line:] loop of [map_clusters_to_names]. *)
Definition names_row (st : NamesState) (raw_line : string) : result NamesState :=
  let line := str_split tab (rstrip raw_line) in
  let wrong := if decide (length line ≠ 7) then true else names_wrong st in
  cluster ← index_list line 0;
  if startswith cluster "BGC" then
    field ← index_list line 2;
    let cluster_name := sanitize (str_replace " biosynthetic gene cluster" "" field) in
    Ok (mkNamesState (names_genomes st) (<[cluster := cluster_name]> (names_bgcs st)) wrong)
  else
    field ← index_list line 5;
    let genome := sanitize field in
    Ok (mkNamesState
          (match names_genomes st !! genome with
           | None => <[genome := {[cluster]}]> (names_genomes st)
           | Some members => <[genome := members ∪ {[cluster]}]> (names_genomes st)
           end)
          (names_bgcs st) wrong).

(** [map_clusters_to_names(summary_file)]: the two mappings, and what was
    written to standard error. *)
Definition map_clusters_to_names (content : string)
    : result (gmap string (gset string) * gmap string string * list string) :=
  match readlines content with
  | [] => Raise (ValueError "Header line of summary file missing.")
  | header :: rows =>
      if negb (startswith header "BGC")
      then Raise (ValueError "Header line of summary file missing.")
      else
        st ← rfold names_row (mkNamesState ∅ ∅ false) rows;
        Ok (names_genomes st, names_bgcs st,
            if names_wrong st then [format_warn] else [])
  end.

(** [entry.match("*_clustering_c<cutoff>.tsv")] *)
Definition matches_clustering_pattern (cutoff_text : string) (e : TextEntry) : bool :=
  endswith (text_name e) ("_clustering_c" +:+ cutoff_text +:+ ".tsv").

(** The loop over the entries of one result directory. *)
Fixpoint scan_clusterings (cutoff_text result_dir : string) (entries : list TextEntry)
    (clusters_found : bool) (families : list (string * gset string))
    : result (list (string * gset string)) :=
  match entries with
  | [] => Ok families
  | entry :: rest =>
      if text_is_file entry && matches_clustering_pattern cutoff_text entry then
        if negb clusters_found then
          families' ← get_families (text_name entry) (text_content entry) families;
          scan_clusterings cutoff_text result_dir rest true families'
        else
          Raise (ValueError ("Multiple clustering files in directory "
                             +:+ result_dir +:+ "."))
      else scan_clusterings cutoff_text result_dir rest clusters_found families
  end.

(** The body of the loop that names the families. *)
Definition name_family (bgcs_to_names : gmap string string)
    (named_families : list (string * gset string)) (item : string * gset string)
    : result (list (string * gset string)) :=
  if negb (forallb (λ found_cluster, startswith found_cluster "BGC") (elements item.2))
  then
    family_name ← rfold (name_component bgcs_to_names) item.1 (elements item.2);
    Ok (dict_set family_name item.2 named_families)
  else Ok named_families.

Definition name_families (families_with_clusters : list (string * gset string))
    (bgcs_to_names : gmap string string) : result (list (string * gset string)) :=
  rfold (name_family bgcs_to_names) [] families_with_clusters.

(** [bigscape_to_matrix(network_result_dir, cutoff)] for the entries of the
    directory: the matrix, and what was written to standard error. *)
Definition bigscape_to_matrix (entries : list BaseEntry) (cutoff_text : string)
    : outcome (string * list string) :=
  inputs ← find_summary_and_results entries;
  families_with_clusters ←
    step (rfold (λ families result_dir,
                   scan_clusterings cutoff_text (base_name result_dir)
                     (base_children result_dir) false families)
                [] inputs.2);
  names ← step (map_clusters_to_names (base_content inputs.1));
  named_families ← step (name_families families_with_clusters names.1.2);
  absence_presence_matrix ←
    step (bigscape_to_matrix (merge_sort String.le (dict_keys named_families))
            (list_to_map named_families) names.1.1);
  Returned (absence_presence_matrix, names.2).

End Mibig.

(** ** [map_tree/draw_cluster_tree.py], [map_tree/rename_clusters.py] and
       [utility/rename_strainless_organisms.py] *)

(** The text array that [make_cluster_tree] hands to [ClusterTree]:
    [matrix.replace(",", "\t")]. *)
Definition cluster_tree_text_array (matrix : string) : string :=
  str_replace "," (String tab "") matrix.

(** An item of a regular expression without alternatives: a digit [\d] or a
    literal character. *)
Inductive RegexItem : Type :=
  | Digit
  | Literal (c : ascii).

Definition is_decimal_digit (c : ascii) : bool :=
  bool_decide (48 ≤ nat_of_ascii c ≤ 57).

(** The items match a prefix of the string. *)
Fixpoint match_items (items : list RegexItem) (s : string) : bool :=
  match items with
  | [] => true
  | item :: rest =>
      match s with
      | EmptyString => false
      | String c s' =>
          (match item with
           | Digit => is_decimal_digit c
           | Literal l => bool_decide (c = l)
           end) && match_items rest s'
      end
  end.

Fixpoint literal_items (s : string) : list RegexItem :=
  match s with
  | EmptyString => []
  | String c rest => Literal c :: literal_items rest
  end.

(** [re.search(r"^\d{1,7}\.region\d{3}\.gbk", name)] finds a match: for some
    number of digits from 1 to 7 the rest of the expression matches. *)
Definition plain_name (name : string) : bool :=
  existsb (λ count,
             match_items (replicate count Digit ++ literal_items ".region"
                          ++ replicate 3 Digit ++ literal_items ".gbk") name)
          (seq 1 7).

(** The name that the loop of [rename_clusters.py] gives to the file [result]
    of the directory [entry], if it renames it. *)
Definition new_name (entry_name result_name : string) : option string :=
  if plain_name result_name then Some (entry_name +:+ "_" +:+ result_name) else None.

(** [s.lstrip()] and [s.strip()] *)
Fixpoint lstrip (s : string) : string :=
  match s with
  | EmptyString => ""
  | String c rest => if py_isspace c then lstrip rest else s
  end.

Definition strip (s : string) : string := lstrip (rstrip s).

(** The first loop of [rename_organism]: the strain name, which is still
    empty when no line gave one. *)
Fixpoint find_strain (lines : list string) : result string :=
  match lines with
  | [] => Ok ""
  | line :: rest =>
      if str_in "/strain" line then
        part ← index_list (str_split "="%char (strip line)) 1;
        let strain_name := str_replace (String quote "") "" part in
        if decide (strain_name = "") then find_strain rest else Ok strain_name
      else find_strain rest
  end.

(** The update of one annotation ([organism] or [source]) of a record. *)
Definition add_strain (strain_name annotation : string) : string :=
  if negb (str_in strain_name annotation)
  then annotation +:+ (" " +:+ strain_name)
  else annotation.

(** ** Predicates and examples for the clustering variants *)

(** A row of a clustering file with a cluster id and a family number. *)
Definition two_fields (raw_line : string) : Prop := length (row_fields raw_line) = 2.

Global Instance two_fields_dec (raw_line : string) : Decision (two_fields raw_line).
Proof. unfold two_fields. apply _. Defined.

(** [cluster] is a member of the entry of [family]. *)
Definition family_member (families : list (string * gset string))
    (family cluster : string) : Prop :=
  ∃ members, dict_get families family = Ok members ∧ cluster ∈ members.

(** The exception of the scan of a result directory with two clustering
    files. *)
Definition multiple_clustering_files (result_dir : string) : exn :=
  ValueError ("Multiple clustering files in directory " +:+ result_dir +:+ ".").

(** The part of the state of the network variant that the variant with
    reference clusters keeps as well. *)
Definition names_of (st : ParseState) : Mibig.NamesState :=
  Mibig.mkNamesState (genomes_with_clusters st) (bgcs_with_names st)
    (wrong_line_format st).

(** A row of a query cluster: its first field lacks the reference prefix. *)
Definition query_row (raw_line : string) : Prop :=
  startswith (default "" (head (row_fields raw_line))) "BGC" = false.

Global Instance query_row_dec (raw_line : string) : Decision (query_row raw_line).
Proof. unfold query_row. apply _. Defined.

(** Every reference cluster with a product class has a display name. *)
Definition references_named (types bgcs : gmap string string) : Prop :=
  ∀ cluster, cluster ∈ dom types → startswith cluster "BGC" = true → cluster ∈ dom bgcs.

(** Every cluster id of the network has a row in the annotation table. *)
Definition annotated (network_df : list Edge) (types : gmap string string) : Prop :=
  Forall (λ e, clustername_1 e ∈ dom types ∧ clustername_2 e ∈ dom types) network_df.

Global Instance annotated_dec (network_df : list Edge) (types : gmap string string)
  : Decision (annotated network_df types).
Proof. unfold annotated. apply _. Defined.

(** A family with a member that is no reference cluster. *)
Definition query_family (members : gset string) : Prop :=
  ∃ cluster, cluster ∈ members ∧ startswith cluster "BGC" = false.

(** Every character replaced by a string. *)
Fixpoint str_expand (f : ascii → string) (s : string) : string :=
  match s with
  | EmptyString => ""
  | String c rest => f c +:+ str_expand f rest
  end.

(** What [s.replace(old, new)] does to a character when [old] is the one
    character [a]. *)
Definition replace_char (a : ascii) (new : string) (c : ascii) : string :=
  if decide (c = a) then new else String c "".

(** The characters that an item of a regular expression matches. *)
Definition accepts (item : RegexItem) (c : ascii) : bool :=
  match item with
  | Digit => is_decimal_digit c
  | Literal l => bool_decide (c = l)
  end.

(** [int] on a non-empty string of decimal digits, as an instance for the
    examples; it rejects every other string. *)
Fixpoint digits_value (acc : Z) (s : string) : result Z :=
  match s with
  | EmptyString => Ok acc
  | String c rest =>
      if is_decimal_digit c
      then digits_value (10 * acc + (Z.of_nat (nat_of_ascii c) - 48)) rest
      else Raise (ValueError "invalid literal for int() with base 10")
  end.

Definition example_int (s : string) : result Z :=
  if decide (s = "") then Raise (ValueError "invalid literal for int() with base 10")
  else digits_value 0 s.

(** A clustering file with a mixed family, a query family and a family of a
    reference cluster only. *)
Definition example_clustering_header : string := tsv_row ["#BGC Name"; "Family Number"].

Definition example_clustering_rows : list string :=
  [tsv_row ["testcluster1"; "10"]; tsv_row ["BGC_1"; "10"];
   tsv_row ["testcluster2"; "9"]; tsv_row ["BGC_2"; "7"]].

Definition example_clustering_file : string :=
  example_clustering_header +:+ foldr String.append "" example_clustering_rows.

(** A clustering file whose second row lost its family number. *)
Definition example_short_clustering_file : string :=
  example_clustering_header
  +:+ tsv_row ["testcluster1"; "10"] +:+ tsv_row ["testcluster2"].

Definition example_clustering_families : list (string * gset string) :=
  [("10", {[ "testcluster1"; "BGC_1" ]}); ("9", {[ "testcluster2" ]});
   ("7", {[ "BGC_2" ]})].

Definition example_named_clustering_families : list (string * gset string) :=
  [("10_Testomycin", {[ "testcluster1"; "BGC_1" ]}); ("9", {[ "testcluster2" ]})].

(** What the network variant reads from the example annotation table. *)
Definition example_summary : Summary :=
  mkSummary
    {[ "Test_organism_1" := {[ "testcluster1" ]};
       "Test_organism_2" := {[ "testcluster2" ]} ]}
    {[ "BGC_1" := "Testomycin" ]}
    {[ "testcluster1" := "NRPS"; "BGC_1" := "other"; "testcluster2" := "PKS" ]}
    [format_warn].

(** What [make_abs_pres.py] reads from it: the organism of the reference
    cluster is one more genome. *)
Definition example_plain_genomes : gmap string (gset string) :=
  {[ "Test_organism_1" := {[ "testcluster1" ]};
     "Some_organism" := {[ "BGC_1" ]};
     "Test_organism_2" := {[ "testcluster2" ]} ]}.

(** An annotation table of query clusters only. *)
Definition example_query_summary_file : string :=
  tsv_row ["BGC"; "Accesion ID"; "Description"; "Product Prediction";
           "BiG-SCAPE class"; "Organism"; "Taxonomy"]
  +:+ tsv_row ["testcluster1"; "acc1"; "first"; "nrps"; "NRPS";
               "Test organism 1"; "Bacteria"]
  +:+ tsv_row ["testcluster2"; "acc3"; "second"; "pks"; "PKS";
               "Test organism (2)"; ""].

(** A network over the clusters of the example annotation table. *)
Definition example_annotated_network : list Edge :=
  [mkEdge "testcluster1" "BGC_1" (tenths 2);
   mkEdge "testcluster2" "testcluster1" (tenths 3)].

(** A base directory with a result directory that holds a clustering file
    for each of the two patterns, the annotation table and a directory
    without results. *)
Definition example_result_dir : BaseEntry :=
  mkBaseEntry false true "NRPS" ""
    [mkTextEntry true "NRPS_c0.30.network" "";
     mkTextEntry true "NRPS_clustering_c.0.30.tsv" example_clustering_file;
     mkTextEntry true "NRPS_clustering_c0.30.tsv" example_clustering_file].

Definition example_summary_entry : BaseEntry :=
  mkBaseEntry true false "Network_Annotations_Full.tsv" example_summary_file [].

Definition example_other_dir : BaseEntry := mkBaseEntry false true "html_content" "" [].

Definition example_base_entries : list BaseEntry :=
  [example_result_dir; example_summary_entry; example_other_dir].

Definition example_plain_matrix : string :=
  str_join (String newline "")
    [str_join (String tab "") ["#NAMES"; "7"; "9"; "10"];
     str_join (String tab "") ["Some_organism"; "0"; "0"; "1"];
     str_join (String tab "") ["Test_organism_1"; "0"; "0"; "1"];
     str_join (String tab "") ["Test_organism_2"; "0"; "1"; "0"]].

(** The lines of a GenBank file that name the organism and the strain, and
    lines with a strain qualifier without a value. *)
Definition example_genbank_lines : list string :=
  ["SOURCE      Streptomyces sp." +:+ String newline "";
   ("                     /organism=" +:+ String quote "Streptomyces sp.")
   +:+ String quote (String newline "");
   ("                     /strain=" +:+ String quote "DSM 1234")
   +:+ String quote (String newline "")].

Definition example_strainless_lines : list string :=
  ["SOURCE      Streptomyces sp." +:+ String newline "";
   "                     /strain" +:+ String newline ""].

(** * Properties *)

(** Closed equations between values with decidable equality are settled by
    evaluating the decision. *)
Ltac by_evaluation :=
  match goal with
  | |- ?P => apply (bool_decide_eq_true_1 P); vm_compute; reflexivity
  end.

(** ** The result monad *)

Lemma rbind_Ok {A B : Type} (m : result A) (k : A → result B) (b : B) :
  (m ≫= k) = Ok b ↔ ∃ a, m = Ok a ∧ k a = Ok b.
Proof.
  destruct m as [a|e]; simpl.
  - split; [eauto | intros (a' & [= <-] & ?); done].
  - split; [done | intros (a' & [=] & _)].
Qed.

Lemma rmap_length {A B : Type} (f : A → result B) (l : list A) (ys : list B) :
  rmap f l = Ok ys → length ys = length l.
Proof.
  revert ys. induction l as [|x l IH]; intros ys; simpl.
  - by intros [= <-].
  - destruct (f x) as [y|e]; simpl; [|done].
    destruct (rmap f l) as [ys'|e]; simpl; [|done].
    intros [= <-]. simpl. f_equal. by apply IH.
Qed.

(** ** Strings *)

Lemma str_app_cons (x : ascii) (a b : string) :
  String x a +:+ b = String x (a +:+ b).
Proof. reflexivity. Qed.

Lemma str_app_nil_l (a : string) : "" +:+ a = a.
Proof. reflexivity. Qed.

Lemma str_app_assoc (a b c : string) : (a +:+ b) +:+ c = a +:+ (b +:+ c).
Proof.
  induction a as [|x a IH]; [done|]. by rewrite !str_app_cons, IH.
Qed.

Lemma str_app_nil_r (a : string) : a +:+ "" = a.
Proof. induction a as [|x a IH]; [done|]. by rewrite str_app_cons, IH. Qed.

Lemma non_digit_underscore : non_digit "_"%char.
Proof. intros x. unfold pretty_N_char. by repeat case_match. Qed.

Lemma non_digit_newline : non_digit newline.
Proof. intros x. unfold pretty_N_char. by repeat case_match. Qed.

Lemma non_digit_comma : non_digit comma.
Proof. intros x. unfold pretty_N_char. by repeat case_match. Qed.

Lemma non_digit_quote : non_digit quote.
Proof. intros x. unfold pretty_N_char. by repeat case_match. Qed.

Lemma pretty_N_go_lacks (c : ascii) (x : N) (s : string) :
  non_digit c → lacks c s → lacks c (pretty_N_go x s).
Proof.
  intros Hc. revert s. induction (N.lt_wf_0 x) as [x _ IH]; intros s Hs.
  destruct (decide (x = 0)%N) as [->|Hx].
  - by rewrite pretty_N_go_0.
  - rewrite pretty_N_go_step by lia. apply IH.
    + apply N.div_lt; lia.
    + split; [apply Hc | done].
Qed.

Lemma str_of_nat_lacks (c : ascii) (n : nat) : non_digit c → lacks c (str_of_nat n).
Proof.
  intros Hc. unfold str_of_nat, pretty, pretty_nat, pretty, pretty_N.
  case_decide; [|by apply pretty_N_go_lacks].
  split; [apply (Hc 0%N)|done].
Qed.

(** Two names that start with a rank and an underscore and are equal have
    the same rank text. *)
Lemma rank_prefix_inj (a b x y : string) :
  lacks "_" a → lacks "_" b →
  a +:+ String "_" x = b +:+ String "_" y → a = b.
Proof.
  revert b.
  induction a as [|c a IH]; intros [|d b];
    rewrite ?str_app_cons, ?str_app_nil_l; simpl.
  - done.
  - intros _ [Hd _] [= Hc _]. by destruct Hd.
  - intros [Hc _] _ [= Hd _]. by destruct Hc.
  - intros [_ Ha] [_ Hb] [= -> Heq]. f_equal. by apply IH.
Qed.

Lemma ranked_name_inj (i j : nat) (x y : string) :
  str_of_nat i +:+ "_" +:+ x = str_of_nat j +:+ "_" +:+ y → i = j.
Proof.
  intros Heq.
  apply rank_prefix_inj in Heq; auto using str_of_nat_lacks, non_digit_underscore.
  by apply (inj pretty) in Heq.
Qed.

(** ** Ranking by descending size *)

Lemma insert_by_len_perm (x : CompoundFamily) (l : list CompoundFamily) :
  insert_by_len x l ≡ₚ x :: l.
Proof.
  induction l as [|y l IH]; simpl; [done|].
  case_decide; [|done]. rewrite IH. apply Permutation_swap.
Qed.

Lemma sorted_by_len_desc_perm (l : list CompoundFamily) :
  sorted_by_len_desc l ≡ₚ l.
Proof.
  induction l as [|x l IH]; simpl; [done|].
  by rewrite insert_by_len_perm, IH.
Qed.

Lemma insert_by_len_sorted (x : CompoundFamily) (l : list CompoundFamily) :
  Sorted len_ge l → Sorted len_ge (insert_by_len x l).
Proof.
  induction 1 as [|y l Hl IH Hhd]; simpl.
  - repeat constructor.
  - case_decide as Hlt.
    + constructor; [done|].
      destruct Hhd as [|z l' Hyz]; simpl.
      * constructor. unfold len_ge. lia.
      * case_decide; constructor; unfold len_ge in *; lia.
    + constructor; [by constructor|]. constructor. unfold len_ge. lia.
Qed.

Lemma sorted_by_len_desc_sorted (l : list CompoundFamily) :
  Sorted len_ge (sorted_by_len_desc l).
Proof.
  induction l as [|x l IH]; simpl; [constructor|].
  by apply insert_by_len_sorted.
Qed.

(** Stability: a family that is at least as large as every family after it
    stays in front. *)
Lemma insert_by_len_stable (x : CompoundFamily) (l : list CompoundFamily) :
  Forall (λ y, family_len y ≤ family_len x) l → insert_by_len x l = x :: l.
Proof.
  destruct 1 as [|y l Hy _]; simpl; [done|]. case_decide; [lia|done].
Qed.

(** ** Insertion-ordered dicts *)

Lemma dict_set_fresh {V : Type} (key : string) (value : V) (d : list (string * V)) :
  key ∉ d.*1 → dict_set key value d = d ++ [(key, value)].
Proof.
  induction d as [|[k v] d IH]; simpl; [done|].
  intros Hnotin. case_decide as Hk.
  - subst. destruct Hnotin. left.
  - f_equal. apply IH. intros Hin. apply Hnotin. by right.
Qed.

Lemma dict_get_set {V : Type} (key key' : string) (value : V) (d : list (string * V)) :
  dict_get (dict_set key value d) key' =
  if decide (key = key') then Ok value else dict_get d key'.
Proof.
  induction d as [|[k v] d IH]; simpl.
  - by case_decide.
  - destruct (decide (k = key)) as [->|Hk]; simpl.
    + destruct (decide (key = key')); [done|done].
    + rewrite IH. destruct (decide (k = key')) as [->|Hk']; [|done].
      by rewrite decide_False.
Qed.

Lemma dict_get_keys {V : Type} (d : list (string * V)) (key : string) :
  key ∈ dict_keys d ↔ ∃ value, dict_get d key = Ok value.
Proof.
  unfold dict_keys. induction d as [|[k v] d IH]; simpl.
  - split; [by intros ?%elem_of_nil|by intros [? ?]].
  - rewrite elem_of_cons, IH. case_decide as Hk.
    + split; [eauto|]. intros _. by left.
    + split; [by intros [->|?]|by right].
Qed.

Lemma dict_keys_set {V : Type} (key : string) (value : V) (d : list (string * V)) :
  dict_keys (dict_set key value d) =
  if decide (key ∈ dict_keys d) then dict_keys d else dict_keys d ++ [key].
Proof.
  unfold dict_keys. induction d as [|[k v] d IH]; cbn [dict_set fmap list_fmap fst].
  - case_decide as Hin; [by apply elem_of_nil in Hin|done].
  - destruct (decide (k = key)) as [->|Hk]; cbn [fmap list_fmap fst].
    + destruct (decide (key ∈ key :: d.*1)) as [_|Hin]; [done|]. destruct Hin. left.
    + rewrite IH. destruct (decide (key ∈ d.*1)) as [Hin|Hnotin].
      * destruct (decide (key ∈ k :: d.*1)) as [_|Hin']; [done|].
        destruct Hin'. by right.
      * destruct (decide (key ∈ k :: d.*1)) as [Hin'|_]; [|done].
        apply elem_of_cons in Hin' as [->|Hin']; done.
Qed.

Lemma dict_set_same {V : Type} (d : list (string * V)) (key : string) (value : V) :
  dict_get d key = Ok value → dict_set key value d = d.
Proof.
  induction d as [|[k v] d IH]; [done|]. cbn [dict_get dict_set].
  destruct (decide (k = key)) as [->|Hne].
  - by intros [= ->].
  - intros Hrest. by rewrite IH.
Qed.

(** ** FamilyNamer *)

Lemma name_component_reference (bgc_names : gmap string string)
    (family_name component : string) :
  startswith component "BGC" = true →
  name_component bgc_names family_name component =
  (display ← getitem bgc_names component;
   Ok (spec_append_display family_name display)).
Proof.
  intros Hc. unfold name_component, spec_append_display. rewrite Hc.
  destruct (getitem bgc_names component) as [display|e]; simpl; [|done].
  by destruct (str_in display family_name).
Qed.

Lemma name_component_query (bgc_names : gmap string string)
    (family_name component : string) :
  startswith component "BGC" = false →
  name_component bgc_names family_name component = Ok family_name.
Proof. intros Hc. unfold name_component. by rewrite Hc. Qed.

Lemma name_loop_spec (bgc_names : gmap string string) (members : list string)
    (base : string) :
  rfold (name_component bgc_names) base members =
  (displays ← rmap (getitem bgc_names) (filter (λ c, startswith c "BGC") members);
   Ok (fold_left spec_append_display displays base)).
Proof.
  revert base. induction members as [|c members IH]; intros base; [done|].
  cbn [rfold]. destruct (startswith c "BGC") eqn:Hc.
  - rewrite filter_cons_True by by rewrite Hc.
    rewrite name_component_reference by done. cbn [rmap].
    destruct (getitem bgc_names c) as [display|e]; simpl; [|done].
    rewrite IH. by destruct (rmap _ _).
  - rewrite filter_cons_False by (rewrite Hc; simpl; tauto).
    rewrite name_component_query by done. simpl. apply IH.
Qed.

Lemma fold_append_display_prefix (displays : list string) (base : string) :
  ∃ suffix, fold_left spec_append_display displays base = base +:+ suffix.
Proof.
  revert base. induction displays as [|d displays IH]; intros base; simpl.
  - exists "". by rewrite str_app_nil_r.
  - unfold spec_append_display at 2. destruct (str_in d base); [apply IH|].
    destruct (IH (base +:+ "_" +:+ d)) as [suffix ->].
    exists ("_" +:+ d +:+ suffix). by rewrite !str_app_assoc.
Qed.

Lemma spec_family_name_ranked (bgc_names : gmap string string) (rank : nat)
    (f : CompoundFamily) (name : string) :
  spec_family_name bgc_names rank f = Ok name →
  ∃ rest, name = str_of_nat rank +:+ "_" +:+ rest.
Proof.
  unfold spec_family_name. intros (displays & _ & [= <-])%rbind_Ok.
  destruct (fold_append_display_prefix displays
              (str_of_nat rank +:+ "_" +:+ compound_class f)) as [suffix ->].
  exists (compound_class f +:+ suffix). by rewrite !str_app_assoc.
Qed.

Lemma get_families_loop_spec (bgc_names : gmap string string) (index : nat)
    (families : list CompoundFamily) (acc : list (string * gset string)) :
  Forall (ranked_below index) acc.*1 →
  get_families_loop bgc_names index families acc =
  (named ← spec_named_families bgc_names index families; Ok (acc ++ named)).
Proof.
  revert index acc. induction families as [|f families IH]; intros index acc Hacc.
  - simpl. by rewrite app_nil_r.
  - unfold spec_named_families. simpl.
    rewrite str_app_assoc, name_loop_spec. fold (spec_family_name bgc_names index f).
    destruct (spec_family_name bgc_names index f) as [name|e] eqn:Hname; simpl; [|done].
    assert (name ∉ acc.*1) as Hfresh.
    { intros Hin. rewrite Forall_forall in Hacc.
      destruct (Hacc _ Hin) as (j & rest & Hj & Hjname).
      destruct (spec_family_name_ranked _ _ _ _ Hname) as [rest' Hrest].
      rewrite Hrest in Hjname. apply ranked_name_inj in Hjname. lia. }
    rewrite (dict_set_fresh _ _ _ Hfresh), IH.
    + unfold spec_named_families.
      destruct (rmap _ _) as [named|e]; simpl; [|done].
      by rewrite <-app_assoc.
    + rewrite fmap_app, Forall_app. split.
      * eapply Forall_impl; [exact Hacc|].
        intros k (j & rest & Hj & ->). exists j, rest. split; [lia|done].
      * simpl. constructor; [|constructor].
        destruct (spec_family_name_ranked _ _ _ _ Hname) as [rest ->].
        exists index, rest. split; [lia|done].
Qed.

Lemma get_families_spec (connected_families : list CompoundFamily)
    (bgc_names : gmap string string) :
  get_families connected_families bgc_names =
  spec_named_families bgc_names 1 (sorted_by_len_desc connected_families).
Proof.
  unfold get_families. rewrite get_families_loop_spec by constructor.
  by destruct (spec_named_families _ _ _).
Qed.

(** Every name that [spec_named_families] hands out starts with the rank of
    its family, and the cluster sets are those of the families, in order. *)
Lemma spec_named_families_entries (bgc_names : gmap string string)
    (first_rank : nat) (ranked : list CompoundFamily)
    (named : list (string * gset string)) :
  spec_named_families bgc_names first_rank ranked = Ok named →
  Forall2 (λ rank name, ∃ rest, name = str_of_nat rank +:+ "_" +:+ rest)
          (seq first_rank (length ranked)) named.*1
  ∧ named.*2 = clusters <$> ranked.
Proof.
  unfold spec_named_families.
  revert first_rank named.
  induction ranked as [|f ranked IH]; intros first_rank named; simpl.
  - intros [= <-]. split; [constructor|done].
  - intros (entry & Hentry & (rest & Hrest & [= <-])%rbind_Ok)%rbind_Ok.
    apply rbind_Ok in Hentry as (name & Hname & [= <-]).
    destruct (IH _ _ Hrest) as [Hnames Hsets]. split.
    + constructor; [|done]. by eapply spec_family_name_ranked.
    + rewrite !fmap_cons. by f_equal.
Qed.

Lemma ranked_names_NoDup (ranks : list nat) (names : list string) :
  NoDup ranks →
  Forall2 (λ rank name, ∃ rest, name = str_of_nat rank +:+ "_" +:+ rest) ranks names →
  NoDup names.
Proof.
  intros Hnodup Hall. induction Hall as [|r name ranks names [rest ->] Hall IH].
  - constructor.
  - apply NoDup_cons in Hnodup as [Hr Hnodup]. constructor; [|by apply IH].
    intros (i & Hi)%list_elem_of_lookup.
    destruct (Forall2_lookup_r _ _ _ _ _ Hall Hi) as (r' & Hr' & rest' & Heq).
    apply ranked_name_inj in Heq as ->.
    apply Hr. by eapply list_elem_of_lookup_2.
Qed.

(** C4: [get_families] ranks the families by descending cardinality
    ([ranked] is a rearrangement of the input in which no family is smaller
    than the one after it) and names the family at rank [r], counted from 1,
    [<r>_<compound_class>] followed, for each member id with the reference
    prefix, by an underscore and its display name unless that display name
    already occurs in the name built so far. *)
Theorem get_families_ranks_and_names (connected_families : list CompoundFamily)
    (bgc_names : gmap string string) :
  ∃ ranked : list CompoundFamily,
    ranked ≡ₚ connected_families
    ∧ Sorted len_ge ranked
    ∧ get_families connected_families bgc_names =
      rmap (λ rf,
              displays ← rmap (getitem bgc_names)
                (filter (λ c, startswith c "BGC") (elements (clusters rf.2)));
              Ok (fold_left
                    (λ name display,
                       if str_in display name then name
                       else name +:+ "_" +:+ display)
                    displays
                    (str_of_nat rf.1 +:+ "_" +:+ compound_class rf.2),
                  clusters rf.2))
           (zip (seq 1 (length ranked)) ranked).
Proof.
  exists (sorted_by_len_desc connected_families).
  split; [apply sorted_by_len_desc_perm|].
  split; [apply sorted_by_len_desc_sorted|].
  rewrite get_families_spec. unfold spec_named_families.
  generalize 1 as first_rank.
  induction (sorted_by_len_desc connected_families) as [|f ranked IH];
    intros first_rank; simpl; [done|].
  rewrite IH. unfold spec_family_name, spec_append_display.
  by destruct (rmap (getitem bgc_names) _).
Qed.

Example get_families_example :
  get_families [example_family_small; example_family_large] example_bgc_names =
  Ok [("1_test_Testomycin", clusters example_family_large);
      ("2_test", clusters example_family_small)].
Proof. vm_compute. reflexivity. Qed.

(** C8 (as stated it fails): the mapping returned by [get_families] never
    has fewer entries than there are input families. *)
Lemma get_families_never_drops_a_family :
  ¬ ∃ (connected_families : list CompoundFamily) (bgc_names : gmap string string)
      (named : list (string * gset string)),
      get_families connected_families bgc_names = Ok named
      ∧ length named < length connected_families.
Proof.
  intros (connected & bgc_names & named & Hnamed & Hlt).
  rewrite get_families_spec in Hnamed.
  apply rmap_length in Hnamed.
  rewrite length_zip, length_seq, Nat.min_id in Hnamed.
  rewrite (Permutation_length (sorted_by_len_desc_perm connected)) in Hnamed.
  lia.
Qed.

(** C8 (amended): no two families are assigned the same final name, as each
    name starts with the rank of its family and an underscore; the returned
    mapping has one entry per input family, with pairwise distinct names,
    and the entry at position [i] holds the cluster set of the family of
    rank [i + 1]. *)
Theorem get_families_one_entry_per_family
    (connected_families : list CompoundFamily) (bgc_names : gmap string string)
    (named : list (string * gset string)) :
  get_families connected_families bgc_names = Ok named →
  length named = length connected_families
  ∧ NoDup named.*1
  ∧ named.*2 = clusters <$> sorted_by_len_desc connected_families
  ∧ Forall2 (λ rank name, ∃ rest, name = str_of_nat rank +:+ "_" +:+ rest)
            (seq 1 (length connected_families)) named.*1.
Proof.
  rewrite get_families_spec. intros Hnamed.
  pose proof (Permutation_length (sorted_by_len_desc_perm connected_families)) as Hlen.
  destruct (spec_named_families_entries _ _ _ _ Hnamed) as [Hnames Hsets].
  rewrite Hlen in Hnames.
  apply rmap_length in Hnamed.
  rewrite length_zip, length_seq, Nat.min_id, Hlen in Hnamed.
  repeat split; [done| |done|done].
  eapply ranked_names_NoDup; [apply NoDup_seq | exact Hnames].
Qed.

(** The two example families keep their two entries. *)
Lemma get_families_one_entry_per_family_witness :
  let named := [("1_test_Testomycin", clusters example_family_large);
                ("2_test", clusters example_family_small)] in
  length named = 2
  ∧ NoDup named.*1
  ∧ named.*2 = clusters <$> sorted_by_len_desc [example_family_small; example_family_large]
  ∧ Forall2 (λ rank name, ∃ rest, name = str_of_nat rank +:+ "_" +:+ rest)
            (seq 1 2) named.*1.
Proof.
  exact (get_families_one_entry_per_family
           [example_family_small; example_family_large] example_bgc_names _
           get_families_example).
Defined.

(** ** SummaryParser *)

Lemma rfold_invariant {A B : Type} (f : A → B → result A) (P : A → Prop)
    (l : list B) (acc out : A) :
  (∀ a x a', P a → f a x = Ok a' → P a') →
  P acc → rfold f acc l = Ok out → P out.
Proof.
  intros Hstep. revert acc. induction l as [|x l IH]; intros acc Hacc; simpl.
  - by intros [= <-].
  - intros (acc' & Hacc' & Hout)%rbind_Ok. eauto.
Qed.

Lemma parse_row_separated (st st' : ParseState) (raw_line : string) :
  prefix_separated (genomes_with_clusters st) (bgcs_with_names st) →
  parse_row st raw_line = Ok st' →
  prefix_separated (genomes_with_clusters st') (bgcs_with_names st').
Proof.
  intros [Hgenomes Hbgcs]. unfold parse_row.
  intros (cluster & _ & (maps & Hmaps & (ty & _ & [= <-])%rbind_Ok)%rbind_Ok)%rbind_Ok.
  simpl. destruct (startswith cluster "BGC") eqn:Hprefix.
  - apply rbind_Ok in Hmaps as (field & _ & [= <-]). simpl. split; [done|].
    intros k [name Hk]. destruct (decide (cluster = k)) as [<-|Hne]; [done|].
    rewrite lookup_insert_ne in Hk by done. eauto.
  - apply rbind_Ok in Hmaps as (field & _ & [= <-]). simpl. split; [|done].
    intros genome members c Hlookup Hc.
    destruct (genomes_with_clusters st !! sanitize field) as [old|] eqn:Hold.
    + destruct (decide (sanitize field = genome)) as [<-|Hne].
      * rewrite lookup_insert_eq in Hlookup. injection Hlookup as <-.
        apply elem_of_union in Hc as [Hc|Hc]; [by eapply Hgenomes|].
        by apply elem_of_singleton in Hc as ->.
      * rewrite lookup_insert_ne in Hlookup by done. by eapply Hgenomes.
    + destruct (decide (sanitize field = genome)) as [<-|Hne].
      * rewrite lookup_insert_eq in Hlookup. injection Hlookup as <-.
        by apply elem_of_singleton in Hc as ->.
      * rewrite lookup_insert_ne in Hlookup by done. by eapply Hgenomes.
Qed.

Example map_clusters_to_names_example :
  map_clusters_to_names example_summary_file =
  Ok (mkSummary
        {[ "Test_organism_1" := {[ "testcluster1" ]};
           "Test_organism_2" := {[ "testcluster2" ]} ]}
        {[ "BGC_1" := "Testomycin" ]}
        {[ "testcluster1" := "NRPS"; "BGC_1" := "other"; "testcluster2" := "PKS" ]}
        [format_warn]).
Proof. vm_compute. reflexivity. Qed.

(** C10: in what [map_clusters_to_names] returns for an accepted annotation
    table, no cluster id with the prefix [BGC] occurs in the cluster set of
    any genome, every key of the display-name mapping has the prefix [BGC],
    and so the cluster ids covered by the two mappings are disjoint. *)
Theorem map_clusters_to_names_separates_reference_ids (content : string)
    (summary : Summary) :
  map_clusters_to_names content = Ok summary →
  (∀ genome members cluster,
     summary_genomes summary !! genome = Some members → cluster ∈ members →
     startswith cluster "BGC" = false)
  ∧ (∀ cluster, cluster ∈ dom (summary_bgcs summary) →
       startswith cluster "BGC" = true)
  ∧ (∀ genome members,
       summary_genomes summary !! genome = Some members →
       members ## dom (summary_bgcs summary)).
Proof.
  unfold map_clusters_to_names.
  destruct (readlines content) as [|header rows]; [done|].
  destruct (negb (startswith header "BGC")); [done|].
  intros (st & Hst & [= <-])%rbind_Ok. simpl.
  assert (prefix_separated (genomes_with_clusters st) (bgcs_with_names st))
    as [Hgenomes Hbgcs].
  { eapply (rfold_invariant parse_row
              (λ st, prefix_separated (genomes_with_clusters st) (bgcs_with_names st)));
      [|split|exact Hst].
    - intros a x a' Ha Hrow. by eapply parse_row_separated.
    - intros genome members cluster. simpl. by rewrite lookup_empty.
    - intros cluster [name Hname]. simpl in Hname. by rewrite lookup_empty in Hname. }
  split; [exact Hgenomes|]. split.
  - intros cluster Hin. apply Hbgcs. by apply elem_of_dom.
  - intros genome members Hlookup cluster Hmember Hin.
    apply elem_of_dom in Hin.
    specialize (Hgenomes _ _ _ Hlookup Hmember). specialize (Hbgcs _ Hin).
    congruence.
Qed.

(** The mappings read from the example annotation table. *)
Lemma map_clusters_to_names_separates_reference_ids_witness :
  (∀ genome members cluster,
     ({[ "Test_organism_1" := {[ "testcluster1" ]};
         "Test_organism_2" := {[ "testcluster2" ]} ]} : gmap string (gset string))
       !! genome = Some members →
     cluster ∈ members → startswith cluster "BGC" = false)
  ∧ (∀ cluster, cluster ∈ dom ({[ "BGC_1" := "Testomycin" ]} : gmap string string) →
       startswith cluster "BGC" = true)
  ∧ (∀ genome members,
       ({[ "Test_organism_1" := {[ "testcluster1" ]};
           "Test_organism_2" := {[ "testcluster2" ]} ]} : gmap string (gset string))
         !! genome = Some members →
       members ## dom ({[ "BGC_1" := "Testomycin" ]} : gmap string string)).
Proof.
  exact (map_clusters_to_names_separates_reference_ids example_summary_file _
           map_clusters_to_names_example).
Defined.

(** C5 (the parser stops on a short row): a data row with two fields makes
    [map_clusters_to_names] raise [IndexError], and so does a blank line; no
    mapping is returned and no warning is written. *)
Theorem map_clusters_to_names_short_row_raises :
  map_clusters_to_names
    (tsv_row ["BGC"; "Accesion ID"; "Description"; "Product Prediction";
              "BiG-SCAPE class"; "Organism"; "Taxonomy"]
     +:+ tsv_row ["testcluster1"; "acc1"]) = Raise IndexError
  ∧ map_clusters_to_names
      (tsv_row ["BGC"; "Accesion ID"; "Description"; "Product Prediction";
                "BiG-SCAPE class"; "Organism"; "Taxonomy"]
       +:+ String newline "") = Raise IndexError.
Proof. split; vm_compute; reflexivity. Qed.

(** ** NetworkMerger *)

Lemma filter_ext_elem_of {A : Type} (P Q : A → Prop)
    `{!∀ x, Decision (P x), !∀ x, Decision (Q x)} (l : list A) :
  (∀ x, x ∈ l → P x ↔ Q x) → filter P l = filter Q l.
Proof.
  induction l as [|x l IH]; intros Hiff; [done|].
  rewrite !filter_cons.
  rewrite IH by (intros y Hy; apply Hiff; by right).
  destruct (decide (P x)) as [HP|HP], (decide (Q x)) as [HQ|HQ]; try done.
  - destruct HQ. apply Hiff; [left|done].
  - destruct HP. apply Hiff; [left|done].
Qed.

Lemma elem_of_drop_duplicates {A : Type} `{EqDecision A} (l : list A) (x : A) :
  x ∈ drop_duplicates l ↔ x ∈ l.
Proof.
  induction l as [|y l IH]; simpl; [done|].
  rewrite !elem_of_cons, list_elem_of_filter, IH.
  destruct (decide (x = y)); tauto.
Qed.

Lemma NoDup_drop_duplicates {A : Type} `{EqDecision A} (l : list A) :
  NoDup (drop_duplicates l).
Proof.
  induction l as [|y l IH]; simpl; [constructor|].
  constructor; [|by apply NoDup_filter].
  rewrite list_elem_of_filter. intros [Hne _]. by apply Hne.
Qed.


(** *** The two loops over the directories *)


(** Once a network file of the directory is found, the rest of the scan
    only looks for a second one. *)
Lemma scan_entries_found (cutoff_text result_dir : string) (entries : list DirEntry)
    (frame : Frame) :
  scan_entries cutoff_text result_dir entries true frame =
  match filter (λ e, entry_is_file e && matches_network_pattern cutoff_text e) entries with
  | [] => Ok frame
  | _ :: _ => Raise (ValueError ("Multiple network files in directory "
                                 +:+ result_dir +:+ "."))
  end.
Proof.
  induction entries as [|e entries IH]; [done|]. cbn [scan_entries].
  destruct (entry_is_file e && matches_network_pattern cutoff_text e) eqn:He.
  - by rewrite filter_cons_True by by rewrite He.
  - rewrite filter_cons_False by (rewrite He; simpl; tauto). exact IH.
Qed.

(** The scan of a directory depends on its matching files only: the first
    one is read, and a second one is an error unless that read failed. *)
Lemma scan_entries_cases (cutoff_text : string) (d : ResultDir) (frame : Frame) :
  scan_entries cutoff_text (dir_name d) (dir_entries d) false frame =
  match network_files cutoff_text d with
  | [] => Ok frame
  | [e] => table ← entry_table e; Ok (frame_append frame table)
  | e :: _ :: _ =>
      _ ← entry_table e;
      Raise (ValueError ("Multiple network files in directory " +:+ dir_name d +:+ "."))
  end.
Proof.
  unfold network_files.
  induction (dir_entries d) as [|e entries IH]; [done|]. cbn [scan_entries].
  destruct (entry_is_file e && matches_network_pattern cutoff_text e) eqn:He.
  - rewrite filter_cons_True by by rewrite He. cbn [negb].
    destruct (entry_table e) as [table|err]; cbn [mbind result_bind].
    + rewrite scan_entries_found. by destruct (filter _ entries).
    + by destruct (filter _ entries).
  - rewrite filter_cons_False by (rewrite He; simpl; tauto). exact IH.
Qed.



Lemma scan_results_app (cutoff_text : string) (before after : list ResultDir)
    (frame : Frame) :
  scan_results cutoff_text (before ++ after) frame =
  (frame' ← scan_results cutoff_text before frame;
   scan_results cutoff_text after frame').
Proof.
  revert frame. induction before as [|d before IH]; intros frame; [done|].
  cbn [app scan_results].
  destruct (scan_entries _ _ _ _ _) as [mid|err]; cbn [mbind result_bind]; [apply IH|done].
Qed.

(** Directories with at most one network file each, all of them read, are
    scanned without an error; a network file gives the frame its columns. *)
Lemma scan_results_readable (cutoff_text : string) (results : list ResultDir)
    (frame : Frame) :
  Forall (readable cutoff_text) results →
  ∃ frame', scan_results cutoff_text results frame = Ok frame'
            ∧ (frame' = NoColumns →
               frame = NoColumns
               ∧ Forall (λ d, network_files cutoff_text d = []) results).
Proof.
  intros Hresults. revert frame.
  induction Hresults as [|d results Hd _ IH]; intros frame.
  - exists frame. by split.
  - cbn [scan_results]. rewrite scan_entries_cases. unfold readable in Hd.
    destruct (network_files cutoff_text d) as [|e [|second others]] eqn:Hfiles;
      [| |done].
    + cbn [mbind result_bind]. destruct (IH frame) as (frame' & -> & Hnone).
      exists frame'. split; [done|]. intros [-> Hrest]%Hnone.
      split; [done|]. by constructor.
    + destruct Hd as [table ->]. cbn [mbind result_bind].
      destruct (IH (frame_append frame table)) as (frame' & -> & Hnone).
      exists frame'. split; [done|]. intros [Hframe _]%Hnone. by destruct frame.
Qed.

(** *** The mean of each group *)

Section MergeProperties.

Variable series_mean : list float64 → float64.








(** X7: when the directories before [d] are scanned without an error and
    [d] holds more than one network file of the cutoff, the first of these
    files is read before the second is met: if it is read,
    [merge_all_bigscape_networks] raises the [ValueError] that names [d],
    and if not, the exception of that read. *)
Theorem merge_all_bigscape_networks_duplicate_file (before after : list ResultDir)
    (d : ResultDir) (cutoff_text : string) (first second : DirEntry)
    (others : list DirEntry) :
  Forall (readable cutoff_text) before →
  network_files cutoff_text d = first :: second :: others →
  merge_all_bigscape_networks series_mean (before ++ d :: after) cutoff_text =
  match entry_table first with
  | Ok _ => Raise (ValueError ("Multiple network files in directory "
                               +:+ dir_name d +:+ "."))
  | Raise e => Raise e
  end.
Proof.
  intros Hbefore Hfiles. unfold merge_all_bigscape_networks.
  rewrite scan_results_app.
  destruct (scan_results_readable cutoff_text before NoColumns Hbefore)
    as (frame & -> & _).
  cbn [mbind result_bind scan_results]. rewrite scan_entries_cases, Hfiles.
  by destruct (entry_table first).
Qed.

(** X8: when no result directory holds a network file of the cutoff, the
    frame of network values never gets its columns and
    [merge_all_bigscape_networks] raises [KeyError] on the first of them. *)
Theorem merge_all_bigscape_networks_no_network_file (results : list ResultDir)
    (cutoff_text : string) :
  Forall (λ d, filter (λ e, entry_is_file e && matches_network_pattern cutoff_text e)
                      (dir_entries d) = []) results →
  merge_all_bigscape_networks series_mean results cutoff_text
  = Raise (KeyError "Clustername 1").
Proof.
  intros Hnone. unfold merge_all_bigscape_networks.
  assert (scan_results cutoff_text results NoColumns = Ok NoColumns) as ->; [|done].
  induction Hnone as [|d results Hd Hnone IH]; simpl; [done|].
  rewrite scan_entries_cases. unfold network_files. by rewrite Hd.
Qed.

End MergeProperties.




(** C9: the key that collapses duplicates is the two cluster names
    concatenated without a separator; the rows [("A", "BC")] and
    [("AB", "C")] are different pairs with the same key [ABC], they form one
    group whose mean both rows receive. *)
Theorem match_name_collision :
  ordered_pair (mkEdge "A" "BC" (tenths 1)) ≠ ordered_pair (mkEdge "AB" "C" (tenths 3))
  ∧ match_name (mkEdge "A" "BC" (tenths 1)) = "ABC"
  ∧ match_name (mkEdge "AB" "C" (tenths 3)) = "ABC"
  ∧ groupby_mean float_mean (similarity_rows "0.30" [example_dir_collision]) =
      [("ABC", float_mean [tenths 1; tenths 3])]
  ∧ merge_all_bigscape_networks float_mean [example_dir_collision] "0.30" =
      Ok [mkEdge "A" "BC" (tenths 2); mkEdge "AB" "C" (tenths 2)].
Proof.
  split; [discriminate|].
  repeat split; vm_compute; reflexivity.
Qed.

(** A directory with two network files of the cutoff after one with a
    single file. *)
Lemma merge_all_bigscape_networks_duplicate_file_witness :
  merge_all_bigscape_networks float_mean
    ([example_dir_nrps] ++ example_dir_twice :: [example_dir_mix]) "0.30" =
  match entry_table (mkDirEntry true "twice_c0.30.network"
                       (Ok [mkEdge "A" "B" (tenths 3)])) with
  | Ok _ => Raise (ValueError ("Multiple network files in directory "
                               +:+ dir_name example_dir_twice +:+ "."))
  | Raise e => Raise e
  end.
Proof.
  apply (merge_all_bigscape_networks_duplicate_file float_mean
           [example_dir_nrps] [example_dir_mix] example_dir_twice "0.30"
           (mkDirEntry true "twice_c0.30.network" (Ok [mkEdge "A" "B" (tenths 3)]))
           (mkDirEntry true "old_c0.30.network" (Ok [])) []).
  - constructor; [vm_compute; eauto|constructor].
  - vm_compute. reflexivity.
Defined.

(** A result directory with a clustering file only. *)
Lemma merge_all_bigscape_networks_no_network_file_witness :
  merge_all_bigscape_networks float_mean [example_dir_other] "0.30" =
  Raise (KeyError "Clustername 1").
Proof.
  apply merge_all_bigscape_networks_no_network_file.
  constructor; [vm_compute; reflexivity|constructor].
Defined.

(** ** FamilyDetector *)

Lemma elem_of_neighbours (network_df : list Edge) (v w : string) :
  w ∈ neighbours network_df v ↔
  ∃ e, e ∈ network_df ∧
       ((clustername_1 e = v ∧ clustername_2 e = w)
        ∨ (clustername_2 e = v ∧ clustername_1 e = w)).
Proof.
  unfold neighbours. rewrite elem_of_list_to_set, list_elem_of_bind.
  split.
  - intros (e & Hw & He). exists e. split; [done|].
    apply elem_of_app in Hw as [Hw|Hw]; case_decide;
      try (by apply elem_of_nil in Hw);
      apply list_elem_of_singleton in Hw as ->; auto.
  - intros (e & He & Hends). exists e. split; [|done].
    apply elem_of_app. destruct Hends as [[<- <-]|[<- <-]].
    + left. rewrite decide_True by done. left.
    + right. rewrite decide_True by done. left.
Qed.

Lemma elem_of_expand (network_df : list Edge) (seen : gset string) (w : string) :
  w ∈ expand network_df seen ↔
  w ∈ seen ∨ ∃ v, v ∈ seen ∧ w ∈ neighbours network_df v.
Proof.
  unfold expand. rewrite elem_of_union, elem_of_union_list.
  split; (intros [?|Hw]; [by left|right]).
  - destruct Hw as (X & (v & -> & Hv%elem_of_elements)%list_elem_of_fmap & Hw). eauto.
  - destruct Hw as (v & Hv & Hw). exists (neighbours network_df v).
    split; [|done]. apply list_elem_of_fmap. exists v.
    split; [done|]. by apply elem_of_elements.
Qed.

Lemma expand_grows (network_df : list Edge) (seen : gset string) :
  seen ⊆ expand network_df seen.
Proof. intros w Hw. apply elem_of_expand. by left. Qed.

Lemma neighbours_are_nodes (network_df : list Edge) (v w : string) :
  w ∈ neighbours network_df v → w ∈ graph_nodes network_df.
Proof.
  intros (e & He & Hends)%elem_of_neighbours.
  apply elem_of_drop_duplicates, list_elem_of_bind. exists e. split; [|done].
  destruct Hends as [[_ <-]|[_ <-]]; [right; left|left].
Qed.

Lemma expand_within_nodes (network_df : list Edge) (seen : gset string) :
  seen ⊆ list_to_set (graph_nodes network_df) →
  expand network_df seen ⊆ list_to_set (graph_nodes network_df).
Proof.
  intros Hseen w [Hw|(v & _ & Hw)]%elem_of_expand; [by apply Hseen|].
  apply elem_of_list_to_set. by eapply neighbours_are_nodes.
Qed.

(** After as many levels as there are nodes still unseen, another level adds
    nothing. *)
Lemma expand_iter_fixpoint (network_df : list Edge) (n : nat) (seen : gset string) :
  seen ⊆ list_to_set (graph_nodes network_df) →
  size (list_to_set (graph_nodes network_df) : gset string) ≤ size seen + n →
  expand network_df (Nat.iter n (expand network_df) seen)
  = Nat.iter n (expand network_df) seen.
Proof.
  set (all := list_to_set (graph_nodes network_df) : gset string).
  revert seen. induction n as [|n IH]; intros seen Hsub Hsize.
  - simpl. assert (seen = all) as ->.
    { apply set_subseteq_size_eq; [done|lia]. }
    apply (anti_symm (⊆)); [by apply expand_within_nodes | apply expand_grows].
  - rewrite Nat.iter_succ_r.
    destruct (decide (expand network_df seen = seen)) as [Hfix|Hgrow].
    + rewrite Hfix.
      assert (Nat.iter n (expand network_df) seen = seen) as ->; [|done].
      clear IH Hsize. induction n as [|m IHm]; simpl; [done|]. by rewrite IHm.
    + apply IH; [by apply expand_within_nodes|].
      assert (seen ⊂ expand network_df seen) as Hstrict.
      { split; [apply expand_grows|]. intros Hback. apply Hgrow.
        apply (anti_symm (⊆)); [done | apply expand_grows]. }
      apply subset_size in Hstrict. lia.
Qed.

Lemma plain_bfs_source (network_df : list Edge) (n : nat) (source : string) :
  source ∈ plain_bfs network_df n source.
Proof.
  unfold plain_bfs. induction n as [|n IH]; simpl.
  - by apply elem_of_singleton.
  - by apply expand_grows.
Qed.

(** The set [_plain_bfs] returns for a node of the graph is closed under the
    edges: it is the whole connected component of its source. *)
Lemma plain_bfs_closed (network_df : list Edge) (source : string) (e : Edge) :
  source ∈ graph_nodes network_df → e ∈ network_df →
  let component := plain_bfs network_df (length (graph_nodes network_df)) source in
  clustername_1 e ∈ component ↔ clustername_2 e ∈ component.
Proof.
  intros Hsource He component.
  assert (expand network_df component = component) as Hfix.
  { apply expand_iter_fixpoint.
    - intros w ->%elem_of_singleton. by apply elem_of_list_to_set.
    - rewrite size_singleton.
      pose proof (NoDup_drop_duplicates
        (network_df ≫= λ e, [clustername_1 e; clustername_2 e])) as Hnodup.
      fold (graph_nodes network_df) in Hnodup.
      rewrite size_list_to_set by done. lia. }
  split; intros Hin; rewrite <-Hfix; apply elem_of_expand; right.
  - exists (clustername_1 e). split; [done|].
    apply elem_of_neighbours. exists e. auto.
  - exists (clustername_2 e). split; [done|].
    apply elem_of_neighbours. exists e. auto.
Qed.

Lemma forallb_startswith_false (p : string) (l : list string) :
  forallb (λ c, startswith c p) l = false →
  ∃ c, c ∈ l ∧ startswith c p = false.
Proof.
  induction l as [|x l IH]; simpl; [done|].
  destruct (startswith x p) eqn:Hx; simpl.
  - intros (c & Hc & Hfalse)%IH. exists c. split; [by right|done].
  - intros _. exists x. split; [left|done].
Qed.

Lemma trim_component_keeps_query (cluster_types : gmap string string)
    (trimmed trimmed' : list CompoundFamily) (components : gset string) :
  Forall has_query_member trimmed →
  trim_component cluster_types trimmed components = Ok trimmed' →
  Forall has_query_member trimmed'.
Proof.
  intros Htrimmed. unfold trim_component.
  destruct (forallb _ (elements components)) eqn:Hall; simpl.
  - by intros [= <-].
  - intros (types & _ & [= <-])%rbind_Ok.
    apply Forall_app. split; [done|]. constructor; [|constructor].
    apply forallb_startswith_false in Hall as (c & Hc & Hfalse).
    exists c. split; [|done]. by apply elem_of_elements.
Qed.

Example get_connected_from_df_example :
  get_connected_from_df example_network example_types =
  Ok [example_family_mixed; example_family_small].
Proof. vm_compute. reflexivity. Qed.

(** C3: no family returned by [get_connected_from_df] consists of reference
    clusters only: every returned family has a member whose id does not
    start with [BGC], so it is never the case that all its members do. *)
Theorem get_connected_from_df_no_reference_only_family (network_df : list Edge)
    (cluster_types : gmap string string) (families : list CompoundFamily) :
  get_connected_from_df network_df cluster_types = Ok families →
  ∀ f, f ∈ families →
    (∃ cluster, cluster ∈ clusters f ∧ startswith cluster "BGC" = false)
    ∧ ¬ (∀ cluster, cluster ∈ clusters f → startswith cluster "BGC" = true).
Proof.
  intros Hfamilies f Hf.
  assert (Forall has_query_member families) as Hall.
  { eapply (rfold_invariant (trim_component cluster_types) (Forall has_query_member));
      [|constructor|exact Hfamilies].
    intros a x a' Ha Hstep. by eapply trim_component_keeps_query. }
  rewrite Forall_forall in Hall. destruct (Hall f Hf) as (c & Hc & Hfalse).
  split; [by exists c|].
  intros Hevery. specialize (Hevery c Hc). congruence.
Qed.

(** The mixed family of the example network. *)
Lemma get_connected_from_df_no_reference_only_family_witness :
  (∃ cluster,
     cluster ∈ clusters example_family_mixed ∧ startswith cluster "BGC" = false)
  ∧ ¬ (∀ cluster,
         cluster ∈ clusters example_family_mixed → startswith cluster "BGC" = true).
Proof.
  apply (get_connected_from_df_no_reference_only_family example_network example_types _
           get_connected_from_df_example example_family_mixed).
  left.
Defined.

(** ** MatrixBuilder *)

Global Instance item_le_total : Total item_le.
Proof. intros a b. unfold item_le. apply (total String.le). Qed.

Global Instance item_le_trans : Transitive item_le.
Proof. intros a b c. unfold item_le. apply (transitivity (R:=String.le)). Qed.

(** The index labels are the genomes of the items, in the same order: row
    [i] of every column belongs to index label [i]. *)
Lemma sorted_items_keys (d : gmap string (gset string)) :
  (sorted_items d).*1 = sorted_keys d.
Proof.
  unfold sorted_items, sorted_keys.
  apply (Sorted_unique String.le).
  - apply (Sorted_fmap fst item_le String.le); [done|].
    apply Sorted_merge_sort; apply _.
  - apply Sorted_merge_sort; apply _.
  - by rewrite !merge_sort_Permutation.
Qed.

Lemma sorted_items_lookup (d : gmap string (gset string)) (genome : string)
    (members : gset string) :
  d !! genome = Some members →
  ∃ i, sorted_items d !! i = Some (genome, members).
Proof.
  intros Hlookup. apply list_elem_of_lookup. unfold sorted_items.
  rewrite merge_sort_Permutation. by apply elem_of_map_to_list.
Qed.

Lemma family_counts_lookup (clusters_in_genomes : gmap string (gset string))
    (family : gset string) (genome : string) (members : gset string) :
  clusters_in_genomes !! genome = Some members →
  ∃ i, sorted_keys clusters_in_genomes !! i = Some genome
       ∧ family_counts clusters_in_genomes family !! i = Some (size (members ∩ family)).
Proof.
  intros (i & Hi)%sorted_items_lookup. exists i.
  rewrite <-sorted_items_keys. unfold family_counts.
  rewrite !list_lookup_fmap, Hi. done.
Qed.

Lemma elem_of_dict_set {V : Type} (key : string) (value : V)
    (d : list (string * V)) (entry : string * V) :
  entry ∈ dict_set key value d → entry = (key, value) ∨ entry ∈ d.
Proof.
  induction d as [|[k v] d IH]; simpl.
  - intros ->%list_elem_of_singleton. by left.
  - case_decide as Hk.
    + subst. intros [->|Hin]%elem_of_cons; [by left|]. right. by right.
    + intros [->|Hin]%elem_of_cons; [right; left|].
      destruct (IH Hin) as [->|Hd]; [by left|]. right. by right.
Qed.

Lemma dict_get_elem_of {V : Type} (d : list (string * V)) (key : string) (value : V) :
  dict_get d key = Ok value → (key, value) ∈ d.
Proof.
  induction d as [|[k v] d IH]; simpl; [done|].
  case_decide as Hk.
  - intros [= <-]. subst. left.
  - intros Hrest. right. by apply IH.
Qed.

Lemma count_families_columns (families_with_names : list (string * gset string))
    (clusters_in_genomes : gmap string (gset string)) (selected : list string)
    (families_clusters : list (string * list nat)) :
  count_families families_with_names clusters_in_genomes selected = Ok families_clusters →
  Forall (counts_of families_with_names clusters_in_genomes) families_clusters.
Proof.
  unfold count_families. apply rfold_invariant; [|constructor].
  intros acc family acc' Hacc (members & Hmembers & [= <-])%rbind_Ok.
  apply Forall_forall. intros entry [->|Hin]%elem_of_dict_set.
  - by exists members.
  - rewrite Forall_forall in Hacc. by apply Hacc.
Qed.

Lemma pd_DataFrame_Ok (data : list (string * list nat)) (index : list string)
    (df : DataFrame) :
  pd_DataFrame data index = Ok df → df = mkDataFrame index data.
Proof. unfold pd_DataFrame. case_match; [by intros [= <-]|done]. Qed.

Lemma rmap_Forall2 {A B : Type} (f : A → result B) (l : list A) (ys : list B) :
  rmap f l = Ok ys → Forall2 (λ x y, f x = Ok y) l ys.
Proof.
  revert ys. induction l as [|x l IH]; intros ys; simpl.
  - intros [= <-]. constructor.
  - intros (y & Hy & (ys' & Hys' & [= <-])%rbind_Ok)%rbind_Ok.
    constructor; [done|by apply IH].
Qed.

(** Both matrix builders fill their frames with columns of [count_families],
    indexed by the sorted genome names. *)
Lemma preordered_frame_columns (families_with_names : list (string * gset string))
    (clusters_in_genomes : gmap string (gset string)) (family_order : list string)
    (df : DataFrame) :
  preordered_frame families_with_names clusters_in_genomes family_order = Ok df →
  df_index df = sorted_keys clusters_in_genomes
  ∧ Forall (counts_of families_with_names clusters_in_genomes) (df_columns df).
Proof.
  unfold preordered_frame. case_match; [done|].
  intros (columns & Hcolumns & ->%pd_DataFrame_Ok)%rbind_Ok.
  split; [done|]. by eapply count_families_columns.
Qed.

Lemma absence_presence_frame_columns (linkage_leaves : list (list nat) → result (list nat))
    (families_with_names : list (string * gset string))
    (clusters_in_genomes : gmap string (gset string)) (df : DataFrame) :
  absence_presence_frame linkage_leaves families_with_names clusters_in_genomes = Ok df →
  df_index df = sorted_keys clusters_in_genomes
  ∧ Forall (counts_of families_with_names clusters_in_genomes) (df_columns df).
Proof.
  unfold absence_presence_frame.
  intros (columns & Hcolumns & (tmp & ->%pd_DataFrame_Ok
            & (leaves & _ & (reordered & Hreordered & [= <-])%rbind_Ok)%rbind_Ok
         )%rbind_Ok)%rbind_Ok.
  split; [done|]. simpl in *.
  apply count_families_columns in Hcolumns. rewrite Forall_forall in Hcolumns.
  apply rmap_Forall2 in Hreordered.
  apply Forall_forall. intros entry (i & Hi)%list_elem_of_lookup.
  destruct (Forall2_lookup_r _ _ _ _ _ Hreordered Hi) as (leaf & _ & Hentry).
  apply rbind_Ok in Hentry as (name & _ & (values & Hvalues & [= <-])%rbind_Ok).
  apply Hcolumns. by apply dict_get_elem_of.
Qed.

Lemma dict_get_list_to_map (d : list (string * gset string)) (key : string) :
  (list_to_map d : gmap string (gset string)) !! key =
  match dict_get d key with Ok members => Some members | Raise _ => None end.
Proof.
  induction d as [|[k v] d IH]; [done|]. cbn [list_to_map foldr dict_get].
  destruct (decide (k = key)) as [->|Hne].
  - by rewrite lookup_insert_eq.
  - by rewrite lookup_insert_ne.
Qed.

Lemma family_clusters_list_to_map (families_with_names : list (string * gset string))
    (family : string) :
  default ∅ ((list_to_map families_with_names : gmap string (gset string)) !! family)
  = family_clusters families_with_names family.
Proof.
  rewrite dict_get_list_to_map. unfold family_clusters.
  by destruct (dict_get families_with_names family).
Qed.

Lemma family_counts_length (clusters_in_genomes : gmap string (gset string))
    (family : gset string) :
  length (family_counts clusters_in_genomes family)
  = length (sorted_keys clusters_in_genomes).
Proof.
  unfold family_counts. by rewrite length_fmap, <-sorted_items_keys, length_fmap.
Qed.

Section Columns.

Variable families_with_names : list (string * gset string).
Variable clusters_in_genomes : gmap string (gset string).

Lemma dict_get_column_of (names : list string) (family : string) :
  family ∈ names →
  dict_get (column_of families_with_names clusters_in_genomes <$> names) family
  = Ok (column_of families_with_names clusters_in_genomes family).2.
Proof.
  induction names as [|name names IH]; [by intros ?%elem_of_nil|].
  rewrite fmap_cons. cbn [dict_get column_of].
  destruct (decide (name = family)) as [->|Hne]; [done|].
  intros [?|Hin]%elem_of_cons; [congruence|]. by apply IH.
Qed.

Lemma column_names (names : list string) :
  (column_of families_with_names clusters_in_genomes <$> names).*1 = names.
Proof. rewrite <-list_fmap_compose. apply list_fmap_id. Qed.

Lemma count_families_loop (selected names : list string) :
  Forall (λ family, family ∈ dict_keys families_with_names) selected →
  rfold (λ families_clusters family,
           members ← dict_get families_with_names family;
           Ok (dict_set family (family_counts clusters_in_genomes members)
                 families_clusters))
        (column_of families_with_names clusters_in_genomes <$> names) selected
  = Ok (column_of families_with_names clusters_in_genomes
          <$> (names ++ filter (λ family, family ∉ names) (drop_duplicates selected))).
Proof.
  intros Hselected. revert names.
  induction Hselected as [|family selected Hfamily _ IH]; intros names.
  - cbn [rfold drop_duplicates]. by rewrite filter_nil, app_nil_r.
  - cbn [rfold drop_duplicates].
    apply dict_get_keys in Hfamily as [members Hmembers]. rewrite Hmembers.
    cbn [mbind result_bind].
    assert (family_counts clusters_in_genomes members
            = (column_of families_with_names clusters_in_genomes family).2) as ->.
    { unfold column_of, family_clusters. by rewrite Hmembers. }
    destruct (decide (family ∈ names)) as [Hin|Hnotin].
    + rewrite dict_set_same by by apply dict_get_column_of.
      rewrite IH, filter_cons_False by (intros Hnot; by apply Hnot).
      do 3 f_equal. rewrite list_filter_filter.
      apply filter_ext_elem_of. intros x _. split; [|tauto].
      intros Hx. split; [done|]. by intros ->.
    + rewrite dict_set_fresh by by rewrite column_names.
      assert ((column_of families_with_names clusters_in_genomes <$> names)
              ++ [(family, (column_of families_with_names clusters_in_genomes family).2)]
              = column_of families_with_names clusters_in_genomes <$> (names ++ [family]))
        as -> by by rewrite fmap_app.
      rewrite IH, filter_cons_True by done.
      rewrite <-app_assoc. cbn [app]. do 4 f_equal.
      rewrite list_filter_filter.
      apply filter_ext_elem_of. intros x _.
      rewrite elem_of_app, list_elem_of_singleton. tauto.
Qed.

Lemma filter_not_in_nil (l : list string) : filter (λ x, x ∉ []) l = l.
Proof.
  induction l as [|x l IH]; [done|].
  rewrite filter_cons_True by by intros ?%elem_of_nil. by rewrite IH.
Qed.

(** The loop over the selected families fills the ordered dict with the
    column of each of them, at the place of its first selection. *)
Lemma count_families_selected (selected : list string) :
  Forall (λ family, family ∈ dict_keys families_with_names) selected →
  count_families families_with_names clusters_in_genomes selected
  = Ok (column_of families_with_names clusters_in_genomes <$> drop_duplicates selected).
Proof.
  intros Hselected. unfold count_families.
  pose proof (count_families_loop selected [] Hselected) as Hloop.
  rewrite fmap_nil, app_nil_l, filter_not_in_nil in Hloop. exact Hloop.
Qed.

Lemma pd_DataFrame_counts (names : list string) :
  pd_DataFrame (column_of families_with_names clusters_in_genomes <$> names)
    (sorted_keys clusters_in_genomes)
  = Ok (count_frame families_with_names clusters_in_genomes names).
Proof.
  unfold pd_DataFrame.
  assert (forallb (λ column : string * list nat,
                     bool_decide (length column.2 = length (sorted_keys clusters_in_genomes)))
                  (column_of families_with_names clusters_in_genomes <$> names) = true) as ->;
    [|done].
  apply forallb_forall. intros column (name & -> & _)%list_elem_of_In%list_elem_of_fmap.
  apply bool_decide_eq_true_2, family_counts_length.
Qed.

Lemma elem_of_families_by_order (family_order : list string) (family : string) :
  family ∈ families_by_order families_with_names family_order ↔
  family ∈ dict_keys families_with_names
  ∧ ∃ number, number ∈ family_order ∧ startswith family (number +:+ "_") = true.
Proof.
  unfold families_by_order. rewrite list_elem_of_bind. split.
  - intros (number & [Hprefix Hin]%list_elem_of_filter & Hnumber).
    split; [done|]. exists number. split; [done|]. by apply Is_true_true.
  - intros (Hin & number & Hnumber & Hprefix). exists number. split; [|done].
    apply list_elem_of_filter. split; [|done]. by apply Is_true_true.
Qed.

(** [get_preordered_matrix] builds its frame whenever the order has as many
    numbers as there are families. *)
Lemma preordered_frame_total (family_order : list string) :
  length families_with_names = length family_order →
  preordered_frame families_with_names clusters_in_genomes family_order
  = Ok (count_frame families_with_names clusters_in_genomes
          (drop_duplicates (families_by_order families_with_names family_order))).
Proof.
  intros Hlen. unfold preordered_frame.
  rewrite bool_decide_eq_true_2 by done. cbn [negb].
  rewrite count_families_selected.
  - cbn [mbind result_bind]. apply pd_DataFrame_counts.
  - apply Forall_forall. by intros family [Hin _]%elem_of_families_by_order.
Qed.

(** Every family among the columns of the frame has its entry for every
    genome. *)
Lemma count_frame_entry (names : list string) (family genome : string)
    (members genome_clusters : gset string) :
  family ∈ names →
  dict_get families_with_names family = Ok members →
  clusters_in_genomes !! genome = Some genome_clusters →
  matrix_entry (count_frame families_with_names clusters_in_genomes names)
    family genome (size (genome_clusters ∩ members)).
Proof.
  intros Hfamily Hmembers Hgenome.
  destruct (family_counts_lookup clusters_in_genomes members genome genome_clusters Hgenome)
    as (i & Hi & Hcount).
  exists (family_counts clusters_in_genomes members), i. split; [|done].
  cbn [count_frame df_columns]. apply list_elem_of_fmap. exists family. split; [|done].
  unfold column_of, family_clusters. by rewrite Hmembers.
Qed.

Section Clustering.

Variable linkage_leaves : list (list nat) → result (list nat).

Lemma reorder_columns (names : list string) (leaves : list nat) (columns : list string) :
  Forall2 (λ leaf name, names !! leaf = Some name) leaves columns →
  rmap (λ leaf_ind,
          name ← index_list (column_of families_with_names clusters_in_genomes <$> names).*1
                   leaf_ind;
          values ← dict_get (column_of families_with_names clusters_in_genomes <$> names) name;
          Ok (name, values))
       leaves
  = Ok (column_of families_with_names clusters_in_genomes <$> columns).
Proof.
  rewrite column_names.
  induction 1 as [|leaf name leaves columns Hname _ IH]; [done|].
  cbn [rmap].
  assert (index_list names leaf = Ok name) as ->
    by (unfold index_list; by rewrite Hname).
  cbn [mbind result_bind].
  rewrite dict_get_column_of by by eapply list_elem_of_lookup_2.
  cbn [mbind result_bind]. rewrite IH. done.
Qed.

(** [get_absence_presence_matrix] builds its frame whenever the clustering
    returns leaves that are positions of families. *)
Lemma absence_presence_frame_total (leaves : list nat) (columns : list string) :
  linkage_leaves (observations families_with_names clusters_in_genomes) = Ok leaves →
  Forall2 (λ leaf name, sorted_families families_with_names !! leaf = Some name)
          leaves columns →
  absence_presence_frame linkage_leaves families_with_names clusters_in_genomes
  = Ok (count_frame families_with_names clusters_in_genomes columns).
Proof.
  intros Hleaves Hcolumns. unfold absence_presence_frame.
  rewrite count_families_selected.
  - cbn [mbind result_bind]. rewrite pd_DataFrame_counts. cbn [mbind result_bind].
    cbn [count_frame df_columns df_index].
    fold (sorted_families families_with_names).
    fold (observations families_with_names clusters_in_genomes).
    rewrite Hleaves. cbn [mbind result_bind].
    by rewrite (reorder_columns _ _ _ Hcolumns).
  - apply Forall_forall. intros family. by rewrite merge_sort_Permutation.
Qed.

End Clustering.

End Columns.

Lemma leaves_columns (names : list string) (leaves : list nat) :
  Forall (λ leaf, leaf < length names) leaves →
  ∃ columns, Forall2 (λ leaf name, names !! leaf = Some name) leaves columns.
Proof.
  induction 1 as [|leaf leaves [name Hname]%lookup_lt_is_Some_2 _ [columns IH]].
  - by exists [].
  - exists (name :: columns). by constructor.
Qed.

Lemma leaves_cover (names : list string) (leaves : list nat) (columns : list string)
    (family : string) :
  leaves ≡ₚ seq 0 (length names) →
  Forall2 (λ leaf name, names !! leaf = Some name) leaves columns →
  family ∈ names → family ∈ columns.
Proof.
  intros Hperm Hcolumns (leaf & Hleaf)%list_elem_of_lookup.
  assert (leaf ∈ leaves) as (i & Hi)%list_elem_of_lookup.
  { rewrite Hperm. apply elem_of_seq. apply lookup_lt_Some in Hleaf. lia. }
  destruct (Forall2_lookup_l _ _ _ _ _ Hcolumns Hi) as (name & Hname & Hnames).
  rewrite Hleaf in Hnames. injection Hnames as <-. by eapply list_elem_of_lookup_2.
Qed.

Lemma observations_length (families_with_names : list (string * gset string))
    (clusters_in_genomes : gmap string (gset string)) :
  length (observations families_with_names clusters_in_genomes)
  = length (sorted_families families_with_names).
Proof. unfold observations. by rewrite !length_fmap. Qed.

Lemma elem_of_sorted_families (families_with_names : list (string * gset string))
    (family : string) :
  family ∈ sorted_families families_with_names ↔ family ∈ dict_keys families_with_names.
Proof.
  unfold sorted_families. by rewrite elem_of_drop_duplicates, merge_sort_Permutation.
Qed.


Example preordered_frame_example :
  preordered_frame example_named_families example_genomes ["2"; "1"] =
  Ok example_frame.
Proof. vm_compute. reflexivity. Qed.

(** C2: in the frame of either matrix builder, the entry of the column of a
    family in the row of a genome is the cardinality of the intersection of
    the genome's and the family's cluster sets; it is zero when the sets are
    disjoint and at most the smaller of the two cardinalities. The builder
    with the explicit order returns its frame whenever the order has as many
    numbers as there are families, and the frame has this entry for every
    genome and every family that the order selects; the clustering builder
    returns its frame whenever the clustering returns a rearrangement of the
    positions of the families, and the frame has this entry for every
    genome and every family. *)
Theorem matrix_entry_is_intersection_size
    (linkage_leaves : list (list nat) → result (list nat))
    (families_with_names : list (string * gset string))
    (clusters_in_genomes : gmap string (gset string)) (family_order : list string) :
  (∀ df,
     preordered_frame families_with_names clusters_in_genomes family_order = Ok df
     ∨ absence_presence_frame linkage_leaves families_with_names clusters_in_genomes
       = Ok df →
     ∀ family column genome genome_clusters,
       (family, column) ∈ df_columns df →
       clusters_in_genomes !! genome = Some genome_clusters →
       ∃ family_clusters i,
         dict_get families_with_names family = Ok family_clusters
         ∧ df_index df !! i = Some genome
         ∧ column !! i = Some (size (genome_clusters ∩ family_clusters))
         ∧ (genome_clusters ## family_clusters → column !! i = Some 0)
         ∧ size (genome_clusters ∩ family_clusters)
           ≤ Nat.min (size genome_clusters) (size family_clusters))
  ∧ (length families_with_names = length family_order →
     ∃ df,
       preordered_frame families_with_names clusters_in_genomes family_order = Ok df
       ∧ ∀ family family_clusters genome genome_clusters,
           family ∈ families_by_order families_with_names family_order →
           dict_get families_with_names family = Ok family_clusters →
           clusters_in_genomes !! genome = Some genome_clusters →
           matrix_entry df family genome (size (genome_clusters ∩ family_clusters)))
  ∧ (∀ leaves,
       linkage_leaves (observations families_with_names clusters_in_genomes) = Ok leaves →
       leaves ≡ₚ seq 0 (length (observations families_with_names clusters_in_genomes)) →
       ∃ df,
         absence_presence_frame linkage_leaves families_with_names clusters_in_genomes
           = Ok df
         ∧ ∀ family family_clusters genome genome_clusters,
             dict_get families_with_names family = Ok family_clusters →
             clusters_in_genomes !! genome = Some genome_clusters →
             matrix_entry df family genome (size (genome_clusters ∩ family_clusters))).
Proof.
  split; [|split].
  - intros df Hframe family column genome genome_clusters Hcolumn Hgenome.
    assert (df_index df = sorted_keys clusters_in_genomes
            ∧ Forall (counts_of families_with_names clusters_in_genomes) (df_columns df))
      as [Hindex Hcolumns].
    { destruct Hframe as [Hframe|Hframe].
      - by eapply preordered_frame_columns.
      - by eapply absence_presence_frame_columns. }
    rewrite Forall_forall in Hcolumns.
    destruct (Hcolumns _ Hcolumn) as (family_clusters & Hfamily & Hcounts).
    simpl in Hfamily, Hcounts. subst column.
    destruct (family_counts_lookup _ family_clusters _ _ Hgenome) as (i & Hi & Hcount).
    exists family_clusters, i. rewrite Hindex.
    repeat split; [done..| |].
    + intros Hdisjoint. rewrite Hcount. f_equal.
      apply size_empty_iff. by apply disjoint_intersection.
    + apply Nat.min_glb; apply subseteq_size;
        [apply intersection_subseteq_l | apply intersection_subseteq_r].
  - intros Hlen. eexists. split; [by apply preordered_frame_total|].
    intros family family_clusters genome genome_clusters Hfamily Hmembers Hgenome.
    apply count_frame_entry; [|done..]. by apply elem_of_drop_duplicates.
  - intros leaves Hleaves Hperm. rewrite observations_length in Hperm.
    destruct (leaves_columns (sorted_families families_with_names) leaves)
      as [columns Hcolumns].
    { apply Forall_forall. intros leaf Hleaf. rewrite Hperm in Hleaf.
      apply elem_of_seq in Hleaf. lia. }
    eexists. split; [by eapply absence_presence_frame_total|].
    intros family family_clusters genome genome_clusters Hmembers Hgenome.
    apply count_frame_entry; [|done..].
    eapply leaves_cover; [done..|].
    apply elem_of_sorted_families, dict_get_keys. eauto.
Qed.


(** The example families and genomes: the entry of [2_test] for
    [Test_org_2] in the example frame, the frame of the order [2,1] and the
    frame of the clustering that keeps the sorted order. *)
Lemma matrix_entry_is_intersection_size_witness :
  (∃ family_clusters i,
     dict_get example_named_families "2_test" = Ok family_clusters
     ∧ df_index example_frame !! i = Some "Test_org_2"
     ∧ [0; 1; 1] !! i = Some (size (({[ "Cluster_3"; "Cluster_4" ]} : gset string)
                                    ∩ family_clusters))
     ∧ (({[ "Cluster_3"; "Cluster_4" ]} : gset string) ## family_clusters →
        [0; 1; 1] !! i = Some 0)
     ∧ size (({[ "Cluster_3"; "Cluster_4" ]} : gset string) ∩ family_clusters)
       ≤ Nat.min (size ({[ "Cluster_3"; "Cluster_4" ]} : gset string))
                 (size family_clusters))
  ∧ (∃ df,
       preordered_frame example_named_families example_genomes ["2"; "1"] = Ok df
       ∧ matrix_entry df "1_test" "Test_org_2"
           (size (({[ "Cluster_3"; "Cluster_4" ]} : gset string)
                  ∩ {[ "Cluster_1"; "Cluster_2"; "Cluster_3" ]})))
  ∧ (∃ df,
       absence_presence_frame example_linkage_leaves example_named_families
         example_genomes = Ok df
       ∧ matrix_entry df "2_test" "Test_org_3"
           (size (({[ "Cluster_5" ]} : gset string)
                  ∩ {[ "Cluster_4"; "Cluster_5" ]}))).
Proof.
  destruct (matrix_entry_is_intersection_size example_linkage_leaves
              example_named_families example_genomes ["2"; "1"])
    as (Hentries & Hordered & Hclustered).
  split; [|split].
  - apply (Hentries example_frame (or_introl preordered_frame_example)
             "2_test" [0; 1; 1] "Test_org_2").
    + left.
    + vm_compute. reflexivity.
  - destruct (Hordered eq_refl) as (df & Hdf & Hall). exists df. split; [exact Hdf|].
    apply (Hall "1_test" {[ "Cluster_1"; "Cluster_2"; "Cluster_3" ]}
             "Test_org_2" {[ "Cluster_3"; "Cluster_4" ]}).
    + by_evaluation.
    + vm_compute. reflexivity.
    + vm_compute. reflexivity.
  - destruct (Hclustered [0; 1]) as (df & Hdf & Hall).
    + vm_compute. reflexivity.
    + vm_compute. reflexivity.
    + exists df. split; [exact Hdf|].
      apply (Hall "2_test" {[ "Cluster_4"; "Cluster_5" ]} "Test_org_3" {[ "Cluster_5" ]}).
      * vm_compute. reflexivity.
      * vm_compute. reflexivity.
Defined.

(** ** FamilyOrderer: the explicit order *)







(** ** Serialisation *)

Lemma lacks_app (c : ascii) (a b : string) :
  lacks c (a +:+ b) ↔ lacks c a ∧ lacks c b.
Proof.
  induction a as [|x a IH]; [rewrite str_app_nil_l; simpl; tauto|].
  rewrite str_app_cons. simpl. tauto.
Qed.

Lemma lacks_join (c : ascii) (sep : string) (l : list string) :
  lacks c sep → Forall (lacks c) l → lacks c (str_join sep l).
Proof.
  intros Hsep. induction 1 as [|x l Hx Hl IH]; simpl; [done|].
  destruct l as [|y l]; [done|].
  apply lacks_app. split; [done|]. apply lacks_app. by split.
Qed.

Lemma endswith_lacks (c : ascii) (s : string) :
  lacks c s → endswith s (String c "") = false.
Proof.
  induction s as [|x s IH]; simpl; [done|].
  intros [Hx Hs]. rewrite (IH Hs), orb_false_r.
  apply bool_decide_eq_false. intros [= -> _]. by apply Hx.
Qed.

Lemma endswith_app (c : ascii) (a b : string) :
  b ≠ "" → endswith (a +:+ b) (String c "") = endswith b (String c "").
Proof.
  intros Hb. induction a as [|x a IH]; [done|].
  rewrite str_app_cons. simpl. rewrite IH.
  rewrite bool_decide_eq_false_2; [done|].
  intros [= _ Hempty]. destruct a; [by rewrite str_app_nil_l in Hempty|done].
Qed.

Lemma endswith_terminated (c : ascii) (a : string) :
  endswith (a +:+ String c "") (String c "") = true.
Proof.
  rewrite endswith_app by done. simpl. by rewrite bool_decide_eq_true_2.
Qed.

Lemma str_join_cons (sep line : string) (lines : list string) :
  str_join sep (line :: lines) =
  line +:+ foldr String.append "" ((λ x, sep +:+ x) <$> lines).
Proof.
  revert line. induction lines as [|next lines IH]; intros line.
  - simpl. by rewrite str_app_nil_r.
  - change (str_join sep (line :: next :: lines))
      with (line +:+ sep +:+ str_join sep (next :: lines)).
    rewrite IH, fmap_cons. simpl. by rewrite str_app_assoc.
Qed.

Lemma str_join_terminated (sep line : string) (lines : list string) :
  str_join sep (line :: lines) +:+ sep =
  (line +:+ sep) +:+ foldr String.append "" ((λ x, x +:+ sep) <$> lines).
Proof.
  revert line. induction lines as [|next lines IH]; intros line.
  - simpl. by rewrite str_app_nil_r.
  - change (str_join sep (line :: next :: lines))
      with (line +:+ sep +:+ str_join sep (next :: lines)).
    rewrite fmap_cons. cbn [foldr]. rewrite <-IH. by rewrite !str_app_assoc.
Qed.

Lemma foldr_append_app (l1 l2 : list string) :
  foldr String.append "" (l1 ++ l2) =
  foldr String.append "" l1 +:+ foldr String.append "" l2.
Proof.
  induction l1 as [|x l1 IH]; simpl; [done|]. by rewrite IH, str_app_assoc.
Qed.

(** *** The comma-separated variant *)

Lemma csv_plain_lacks (field : string) :
  lacks comma field → lacks quote field → lacks newline field → csv_plain field.
Proof.
  unfold csv_plain. induction field as [|c field IH]; simpl; [done|].
  intros [Hc1 H1] [Hc2 H2] [Hc3 H3]. rewrite IH by done.
  unfold csv_special. by rewrite !bool_decide_eq_false_2.
Qed.

Lemma str_of_nat_plain (n : nat) : csv_plain (str_of_nat n).
Proof.
  apply csv_plain_lacks; apply str_of_nat_lacks;
    [apply non_digit_comma | apply non_digit_quote | apply non_digit_newline].
Qed.

Lemma csv_field_plain (field : string) : csv_plain field → csv_field field = field.
Proof. unfold csv_plain, csv_field. by intros ->. Qed.

Lemma csv_line_plain (first : string) (others : list string) :
  others ≠ [] → Forall csv_plain (first :: others) →
  csv_line (first :: others) =
  (first +:+ "," +:+ str_join "," others) +:+ String newline "".
Proof.
  intros Hothers Hplain. unfold csv_line.
  rewrite decide_False by (intros [= _ ?]; done).
  f_equal.
  assert (csv_field <$> first :: others = first :: others) as ->.
  { induction Hplain as [|x l Hx Hl IH]; [done|].
    by rewrite fmap_cons, IH, csv_field_plain. }
  destruct others as [|second others]; done.
Qed.

Lemma csv_line_terminated (fields : list string) :
  ∃ text, csv_line fields = text +:+ String newline "".
Proof. unfold csv_line. eauto. Qed.

Lemma to_csv_terminated (df : DataFrame) :
  endswith ("#NAMES" +:+ to_csv df) (String newline "") = true.
Proof.
  unfold to_csv.
  destruct (df_index df) as [|label index _] using rev_ind.
  - simpl. rewrite str_app_nil_r.
    destruct (csv_line_terminated ("" :: (df_columns df).*1)) as [text ->].
    rewrite <-str_app_assoc. apply endswith_terminated.
  - rewrite imap_app, foldr_append_app. simpl. rewrite str_app_nil_r.
    destruct (csv_line_terminated (frame_row df (length index + 0) label)) as [text ->].
    rewrite <-!str_app_assoc. apply endswith_terminated.
Qed.

(** With at least one column and cells that need no quotes, the document is
    the lines of the specification, each of them ended by a newline. *)
Lemma to_csv_lines (df : DataFrame) :
  df_columns df ≠ [] →
  Forall csv_plain (df_columns df).*1 → Forall csv_plain (df_index df) →
  "#NAMES" +:+ to_csv df =
  str_join (String newline "")
    (spec_matrix_lines "," (df_columns df).*1 (frame_rows_of df)) +:+ String newline "".
Proof.
  intros Hcolumns Hnames Hindex. unfold to_csv, spec_matrix_lines.
  rewrite str_join_terminated.
  rewrite csv_line_plain;
    [|by destruct (df_columns df) | by constructor].
  rewrite <-!str_app_assoc. do 2 f_equal.
  unfold frame_rows_of. rewrite <-!list_fmap_compose, fmap_imap.
  apply imap_ext. intros i label Hlabel. simpl.
  unfold frame_row. rewrite <-list_fmap_compose.
  apply csv_line_plain.
  - by destruct (df_columns df).
  - constructor.
    + rewrite Forall_forall in Hindex. apply Hindex.
      by eapply list_elem_of_lookup_2.
    + apply Forall_fmap, Forall_true. intros column. apply str_of_nat_plain.
Qed.

(** *** The tab-separated variant *)

Lemma bigscape_row_cells (all_families : list string)
    (families_with_clusters : gmap string (gset string)) (members : gset string)
    (row : list string) :
  rmap (λ family,
          family_members ← getitem families_with_clusters family;
          Ok (str_of_nat (size (members ∩ family_members))))
       all_families = Ok row →
  row = str_of_nat <$>
          ((λ family, size (members ∩ default ∅ (families_with_clusters !! family)))
             <$> all_families).
Proof.
  revert row. induction all_families as [|family rest IH]; intros row; simpl.
  - by intros [= <-].
  - intros (cell & Hcell & (cells & Hcells & [= <-])%rbind_Ok)%rbind_Ok.
    unfold getitem in Hcell.
    destruct (families_with_clusters !! family) as [family_members|]; [|done].
    injection Hcell as <-. simpl. f_equal. by apply IH.
Qed.

Lemma bigscape_loop_lines (all_families : list string)
    (families_with_clusters : gmap string (gset string))
    (items : list (string * gset string)) (acc document : string) :
  rfold (λ absence_presence_matrix item,
           absence_presence_row ←
             rmap (λ family,
                     members ← getitem families_with_clusters family;
                     Ok (str_of_nat (size (item.2 ∩ members))))
                  all_families;
           Ok ((absence_presence_matrix
                +:+ (String newline "" +:+ item.1 +:+ String tab ""))
               +:+ str_join (String tab "") absence_presence_row))
        acc items = Ok document →
  document =
  acc +:+ foldr String.append ""
            ((λ item,
                String newline ""
                +:+ (item.1 +:+ String tab ""
                     +:+ str_join (String tab "")
                           (str_of_nat <$>
                              ((λ family,
                                  size (item.2
                                        ∩ default ∅ (families_with_clusters !! family)))
                                 <$> all_families))))
               <$> items).
Proof.
  revert acc. induction items as [|item items IH]; intros acc; simpl.
  - intros [= <-]. by rewrite str_app_nil_r.
  - intros (acc' & (row & ->%bigscape_row_cells & [= <-])%rbind_Ok & Hrest)%rbind_Ok.
    rewrite (IH _ Hrest). by rewrite !str_app_assoc.
Qed.

Lemma bigscape_to_matrix_lines (all_families : list string)
    (families_with_clusters genomes_to_clusters : gmap string (gset string))
    (document : string) :
  bigscape_to_matrix all_families families_with_clusters genomes_to_clusters
    = Ok document →
  document =
  str_join (String newline "")
    (spec_matrix_lines (String tab "") all_families
       (genome_rows all_families families_with_clusters genomes_to_clusters)).
Proof.
  unfold bigscape_to_matrix. intros ->%bigscape_loop_lines.
  unfold spec_matrix_lines, genome_rows.
  rewrite str_join_cons, <-!list_fmap_compose. done.
Qed.

Lemma endswith_last_row (before genome cells : string) :
  lacks newline cells →
  endswith (before +:+ (String newline ""
                        +:+ (genome +:+ String tab "" +:+ cells)))
           (String newline "") = false.
Proof.
  intros Hcells.
  assert (before +:+ (String newline "" +:+ (genome +:+ String tab "" +:+ cells))
          = (before +:+ String newline "" +:+ genome) +:+ (String tab "" +:+ cells))
    as -> by by rewrite !str_app_assoc.
  rewrite endswith_app by done.
  apply endswith_lacks. split; [done|exact Hcells].
Qed.

Lemma bigscape_to_matrix_no_trailing_newline (all_families : list string)
    (families_with_clusters genomes_to_clusters : gmap string (gset string))
    (document : string) :
  Forall (lacks newline) all_families →
  bigscape_to_matrix all_families families_with_clusters genomes_to_clusters
    = Ok document →
  endswith document (String newline "") = false.
Proof.
  intros Hfamilies. unfold bigscape_to_matrix. intros ->%bigscape_loop_lines.
  destruct (sorted_items genomes_to_clusters) as [|item items _] using rev_ind.
  - cbn [fmap list_fmap foldr]. rewrite str_app_nil_r. apply endswith_lacks.
    apply (lacks_app newline "#NAMES"). split; [by repeat split|].
    apply (lacks_app newline (String tab "")). split; [by repeat split|].
    apply lacks_join; [by repeat split|done].
  - rewrite fmap_app, foldr_append_app. cbn [fmap list_fmap foldr].
    rewrite str_app_nil_r, <-str_app_assoc.
    apply endswith_last_row.
    apply lacks_join; [by repeat split|].
    apply Forall_fmap, Forall_true. intros n.
    apply str_of_nat_lacks, non_digit_newline.
Qed.

Example bigscape_to_matrix_example :
  bigscape_to_matrix ["1"; "2"] example_families_by_number example_genomes =
  Ok ("#NAMES" +:+ String tab "1" +:+ String tab "2" +:+ String newline
      ("Test_org_1" +:+ String tab "1" +:+ String tab "0" +:+ String newline
      ("Test_org_2" +:+ String tab "1" +:+ String tab "1" +:+ String newline
      ("Test_org_3" +:+ String tab "0" +:+ String tab "1")))).
Proof. vm_compute. reflexivity. Qed.

Example get_preordered_matrix_example :
  get_preordered_matrix example_named_families example_genomes ["2"; "1"] =
  Ok ("#NAMES,2_test,1_test" +:+ String newline
      ("Test_org_1,0,1" +:+ String newline
      ("Test_org_2,1,1" +:+ String newline
      ("Test_org_3,1,0" +:+ String newline "")))).
Proof. vm_compute. reflexivity. Qed.

(** C7 (as stated it fails): the comma-separated document of the example of
    the test suite ends with a newline. *)
Lemma comma_separated_matrix_ends_with_newline :
  ∃ document,
    get_preordered_matrix example_named_families example_genomes ["2"; "1"] = Ok document
    ∧ endswith document (String newline "") = true.
Proof.
  eexists. split; [apply get_preordered_matrix_example|].
  vm_compute. reflexivity.
Qed.

(** The rows of the frame of counts are the genomes with the sizes of the
    intersections. *)
Lemma frame_rows_of_count_frame (families_with_names : list (string * gset string))
    (clusters_in_genomes : gmap string (gset string)) (names : list string) :
  frame_rows_of (count_frame families_with_names clusters_in_genomes names)
  = genome_rows names (list_to_map families_with_names) clusters_in_genomes.
Proof.
  unfold frame_rows_of, genome_rows. cbn [count_frame df_index df_columns].
  apply list_eq. intros i.
  rewrite list_lookup_imap, list_lookup_fmap, <-sorted_items_keys, list_lookup_fmap.
  destruct (sorted_items clusters_in_genomes !! i) as [item|] eqn:Hitem; [|done].
  cbn [fmap option_fmap option_map]. do 2 f_equal.
  rewrite <-list_fmap_compose. apply list_fmap_ext. intros j family _. cbn.
  rewrite family_clusters_list_to_map. unfold family_counts.
  by rewrite list_lookup_fmap, Hitem.
Qed.

(** The comma-separated document of the frame of counts. *)
Lemma count_frame_document (families_with_names : list (string * gset string))
    (clusters_in_genomes : gmap string (gset string)) (names : list string) :
  endswith ("#NAMES" +:+ to_csv (count_frame families_with_names clusters_in_genomes names))
           (String newline "") = true
  ∧ (names ≠ [] → Forall csv_plain names →
     Forall csv_plain (sorted_keys clusters_in_genomes) →
     "#NAMES" +:+ to_csv (count_frame families_with_names clusters_in_genomes names) =
     str_join (String newline "")
       (spec_matrix_lines "," names
          (genome_rows names (list_to_map families_with_names) clusters_in_genomes))
     +:+ String newline "").
Proof.
  split; [apply to_csv_terminated|].
  intros Hnames Hplain Hgenomes.
  rewrite to_csv_lines.
  - rewrite frame_rows_of_count_frame. cbn [count_frame df_columns].
    by rewrite column_names.
  - cbn [count_frame df_columns]. by destruct names.
  - cbn [count_frame df_columns]. by rewrite column_names.
  - done.
Qed.

(** C7 (amended): the serialised matrix is a header line that begins with
    [#NAMES] and goes on with the family names, then one line per genome
    with its name and its counts. In the tab-separated variant the lines are
    joined by newlines and, family names being free of newlines, the
    document does not end with one. In the comma-separated variant (both the
    clustered and the explicitly ordered matrix) the document is returned
    whenever the frame is built and always ends with a newline; when there
    is at least one column and no family name or genome needs quotes, it is
    these lines, each of them, the last one too, ended by a newline. *)
Theorem matrix_serialisation :
  (∀ all_families families_with_clusters genomes_to_clusters document,
     bigscape_to_matrix all_families families_with_clusters genomes_to_clusters
       = Ok document →
     document =
       str_join (String newline "")
         (spec_matrix_lines (String tab "") all_families
            (genome_rows all_families families_with_clusters genomes_to_clusters))
     ∧ (Forall (lacks newline) all_families →
        endswith document (String newline "") = false))
  ∧ (∀ families_with_names clusters_in_genomes family_order,
       length families_with_names = length family_order →
       ∃ document,
         get_preordered_matrix families_with_names clusters_in_genomes family_order
           = Ok document
         ∧ endswith document (String newline "") = true
         ∧ (drop_duplicates (families_by_order families_with_names family_order) ≠ [] →
            Forall csv_plain (dict_keys families_with_names) →
            Forall csv_plain (sorted_keys clusters_in_genomes) →
            document =
            str_join (String newline "")
              (spec_matrix_lines ","
                 (drop_duplicates (families_by_order families_with_names family_order))
                 (genome_rows
                    (drop_duplicates (families_by_order families_with_names family_order))
                    (list_to_map families_with_names) clusters_in_genomes))
            +:+ String newline ""))
  ∧ (∀ linkage_leaves families_with_names clusters_in_genomes leaves columns,
       linkage_leaves (observations families_with_names clusters_in_genomes) = Ok leaves →
       Forall2 (λ leaf name, sorted_families families_with_names !! leaf = Some name)
               leaves columns →
       ∃ document,
         get_absence_presence_matrix linkage_leaves families_with_names
           clusters_in_genomes = Ok document
         ∧ endswith document (String newline "") = true
         ∧ (columns ≠ [] →
            Forall csv_plain (dict_keys families_with_names) →
            Forall csv_plain (sorted_keys clusters_in_genomes) →
            document =
            str_join (String newline "")
              (spec_matrix_lines "," columns
                 (genome_rows columns (list_to_map families_with_names)
                    clusters_in_genomes))
            +:+ String newline ""))
  ∧ (∀ linkage_leaves families_with_names clusters_in_genomes family_order document,
       get_preordered_matrix families_with_names clusters_in_genomes family_order
         = Ok document
       ∨ get_absence_presence_matrix linkage_leaves families_with_names
           clusters_in_genomes = Ok document →
       endswith document (String newline "") = true).
Proof.
  split; [|split; [|split]].
  - intros all_families families genomes document Hdocument. split.
    + by apply bigscape_to_matrix_lines.
    + intros Hfamilies. by eapply bigscape_to_matrix_no_trailing_newline.
  - intros families genomes order Hlen. unfold get_preordered_matrix.
    rewrite preordered_frame_total by done. cbn [mbind result_bind].
    eexists. split; [done|].
    destruct (count_frame_document families genomes
                (drop_duplicates (families_by_order families order))) as [Hend Hlines].
    split; [done|]. intros Hnames Hplain Hgenomes. apply Hlines; [done| |done].
    apply Forall_forall. intros family Hfamily.
    rewrite elem_of_drop_duplicates, elem_of_families_by_order in Hfamily.
    destruct Hfamily as [Hfamily _].
    rewrite Forall_forall in Hplain. by apply Hplain.
  - intros linkage families genomes leaves columns Hleaves Hcolumns.
    unfold get_absence_presence_matrix.
    rewrite (absence_presence_frame_total _ _ _ _ _ Hleaves Hcolumns).
    cbn [mbind result_bind]. eexists. split; [done|].
    destruct (count_frame_document families genomes columns) as [Hend Hlines].
    split; [done|]. intros Hnames Hplain Hgenomes. apply Hlines; [done| |done].
    apply Forall_forall. intros family (i & Hi)%list_elem_of_lookup.
    destruct (Forall2_lookup_r _ _ _ _ _ Hcolumns Hi) as (leaf & _ & Hname).
    apply list_elem_of_lookup_2, elem_of_sorted_families in Hname.
    rewrite Forall_forall in Hplain. by apply Hplain.
  - intros linkage families genomes order document [Hdocument|Hdocument].
    + unfold get_preordered_matrix in Hdocument.
      apply rbind_Ok in Hdocument as (df & _ & [= <-]). apply to_csv_terminated.
    + unfold get_absence_presence_matrix in Hdocument.
      apply rbind_Ok in Hdocument as (df & _ & [= <-]). apply to_csv_terminated.
Qed.

(** The documents of both variants for the example families and genomes. *)
Lemma matrix_serialisation_witness :
  ("#NAMES" +:+ String tab "1" +:+ String tab "2" +:+ String newline
     ("Test_org_1" +:+ String tab "1" +:+ String tab "0" +:+ String newline
     ("Test_org_2" +:+ String tab "1" +:+ String tab "1" +:+ String newline
     ("Test_org_3" +:+ String tab "0" +:+ String tab "1")))
   = str_join (String newline "")
       (spec_matrix_lines (String tab "") ["1"; "2"]
          (genome_rows ["1"; "2"] example_families_by_number example_genomes))
   ∧ endswith
       ("#NAMES" +:+ String tab "1" +:+ String tab "2" +:+ String newline
          ("Test_org_1" +:+ String tab "1" +:+ String tab "0" +:+ String newline
          ("Test_org_2" +:+ String tab "1" +:+ String tab "1" +:+ String newline
          ("Test_org_3" +:+ String tab "0" +:+ String tab "1"))))
       (String newline "") = false)
  ∧ (∃ document,
       get_preordered_matrix example_named_families example_genomes ["2"; "1"]
         = Ok document
       ∧ endswith document (String newline "") = true
       ∧ document =
         str_join (String newline "")
           (spec_matrix_lines ","
              (drop_duplicates (families_by_order example_named_families ["2"; "1"]))
              (genome_rows
                 (drop_duplicates (families_by_order example_named_families ["2"; "1"]))
                 (list_to_map example_named_families) example_genomes))
         +:+ String newline "")
  ∧ (∃ document,
       get_absence_presence_matrix example_linkage_leaves example_named_families
         example_genomes = Ok document
       ∧ endswith document (String newline "") = true
       ∧ document =
         str_join (String newline "")
           (spec_matrix_lines "," ["1_test"; "2_test"]
              (genome_rows ["1_test"; "2_test"]
                 (list_to_map example_named_families) example_genomes))
         +:+ String newline "").
Proof.
  destruct matrix_serialisation as (Htab & Hordered & Hclustered & _).
  split; [|split].
  - destruct (Htab _ _ _ _ bigscape_to_matrix_example) as [Hlines Hend].
    split; [exact Hlines|]. apply Hend.
    constructor; [by repeat split|]. constructor; [by repeat split|]. constructor.
  - destruct (Hordered example_named_families example_genomes ["2"; "1"] eq_refl)
      as (document & Hdocument & Hend & Hlines).
    exists document. split; [exact Hdocument|]. split; [exact Hend|]. apply Hlines.
    + vm_compute. discriminate.
    + constructor; [vm_compute; reflexivity|].
      constructor; [vm_compute; reflexivity|]. constructor.
    + vm_compute.
      constructor; [reflexivity|]. constructor; [reflexivity|].
      constructor; [reflexivity|]. constructor.
  - destruct (Hclustered example_linkage_leaves example_named_families example_genomes
                [0; 1] ["1_test"; "2_test"]) as (document & Hdocument & Hend & Hlines).
    + vm_compute. reflexivity.
    + constructor; [vm_compute; reflexivity|].
      constructor; [vm_compute; reflexivity|]. constructor.
    + exists document. split; [exact Hdocument|]. split; [exact Hend|]. apply Hlines.
      * discriminate.
      * constructor; [vm_compute; reflexivity|].
        constructor; [vm_compute; reflexivity|]. constructor.
      * vm_compute.
        constructor; [reflexivity|]. constructor; [reflexivity|].
        constructor; [reflexivity|]. constructor.
Defined.

(** ** Further properties of the parsers *)

Lemma index_list_Ok {A : Type} (l : list A) (i : nat) :
  i < length l → ∃ x, index_list l i = Ok x.
Proof.
  intros Hi. unfold index_list.
  destruct (lookup_lt_is_Some_2 l i Hi) as [x ->]. eauto.
Qed.

Lemma parse_row_enough_fields (st : ParseState) (raw_line : string) :
  enough_fields raw_line →
  ∃ st', parse_row st raw_line = Ok st'
         ∧ wrong_line_format st' =
           (if decide (length (row_fields raw_line) ≠ 7) then true
            else wrong_line_format st).
Proof.
  unfold enough_fields, parse_row. fold (row_fields raw_line).
  destruct (row_fields raw_line) as [|cluster fields]; simpl.
  - intros Hlen. exfalso. lia.
  - destruct (startswith cluster "BGC"); intros Hlen;
      destruct fields as [|f1 [|f2 [|f3 [|f4 fields]]]]; simpl in Hlen; try lia.
    + eexists. split; reflexivity.
    + destruct fields as [|f5 fields]; simpl in Hlen; [lia|].
      eexists. split; reflexivity.
Qed.

Lemma parse_rows_enough_fields (rows : list string) (st : ParseState) :
  Forall enough_fields rows →
  ∃ st', rfold parse_row st rows = Ok st'
         ∧ wrong_line_format st' =
           (if decide (Forall (λ raw_line, length (row_fields raw_line) = 7) rows)
            then wrong_line_format st else true).
Proof.
  intros Hrows. revert st.
  induction Hrows as [|raw_line rows Hrow Hrows IH]; intros st.
  - exists st. split; [done|]. by rewrite decide_True by constructor.
  - destruct (parse_row_enough_fields st raw_line Hrow) as (st1 & Hst1 & Hflag1).
    destruct (IH st1) as (st' & Hst' & Hflag).
    exists st'. simpl. rewrite Hst1. split; [exact Hst'|].
    rewrite Hflag, Hflag1.
    destruct (decide (length (row_fields raw_line) ≠ 7)) as [Hne|Heq].
    + rewrite (decide_False (P:=Forall _ (raw_line :: rows)));
        [by case_decide|].
      intros Hall. apply Forall_cons in Hall as [? _]. done.
    + apply dec_stable in Heq.
      destruct (decide (Forall _ rows)) as [Hall|Hnot].
      * by rewrite decide_True by by constructor.
      * rewrite decide_False; [done|].
        intros Hall. apply Forall_cons in Hall as [_ ?]. done.
Qed.

(** X1: on rows that are long enough the parsing completes whatever
    the field counts are, and the warning is written once exactly when some
    row does not have 7 fields. *)
Theorem map_clusters_to_names_tolerates_wrong_counts (content header : string)
    (rows : list string) :
  readlines content = header :: rows →
  startswith header "BGC" = true →
  Forall enough_fields rows →
  ∃ summary,
    map_clusters_to_names content = Ok summary
    ∧ summary_stderr summary =
      (if decide (Forall (λ raw_line, length (row_fields raw_line) = 7) rows)
       then [] else [format_warn]).
Proof.
  intros Hlines Hheader Hrows. unfold map_clusters_to_names.
  rewrite Hlines, Hheader. simpl.
  destruct (parse_rows_enough_fields rows (mkParseState ∅ ∅ ∅ false) Hrows)
    as (st & -> & Hflag).
  simpl. eexists. split; [done|]. simpl. rewrite Hflag. simpl.
  by case_decide.
Qed.

(** The example annotation table: its last row has 6 fields. *)
Lemma map_clusters_to_names_tolerates_wrong_counts_witness :
  ∃ summary,
    map_clusters_to_names example_summary_file = Ok summary
    ∧ summary_stderr summary = [format_warn].
Proof.
  destruct (map_clusters_to_names_tolerates_wrong_counts example_summary_file
              (tsv_row ["BGC"; "Accesion ID"; "Description"; "Product Prediction";
                        "BiG-SCAPE class"; "Organism"; "Taxonomy"])
              [tsv_row ["testcluster1"; "acc1"; "first"; "nrps"; "NRPS";
                        "Test organism 1"; "Bacteria"];
               tsv_row ["BGC_1"; "acc2"; "Testomycin biosynthetic gene cluster"; "other";
                        "other"; "Some organism"; "Bacteria"];
               tsv_row ["testcluster2"; "acc3"; "second"; "pks"; "PKS";
                        "Test organism (2)"; ""]])
    as (summary & Hsummary & Hwarn).
  - vm_compute. reflexivity.
  - vm_compute. reflexivity.
  - constructor; [vm_compute; lia|].
    constructor; [vm_compute; lia|].
    constructor; [vm_compute; lia|].
    constructor.
  - exists summary. split; [exact Hsummary|].
    rewrite Hwarn. apply decide_False.
    intros Hall. apply Forall_cons in Hall as [_ Hall].
    apply Forall_cons in Hall as [_ Hall]. apply Forall_cons in Hall as [Hlast _].
    vm_compute in Hlast. discriminate Hlast.
Defined.

(** X3: a missing header line is fatal: [map_clusters_to_names] raises
    [ValueError] when the first line does not start with [BGC]. *)
Theorem map_clusters_to_names_missing_header (content : string) :
  startswith (default "" (head (readlines content))) "BGC" = false →
  map_clusters_to_names content =
  Raise (ValueError "Header line of summary file missing.").
Proof.
  unfold map_clusters_to_names.
  destruct (readlines content) as [|header rows]; simpl; [done|].
  by intros ->.
Qed.

(** An annotation table without its header line. *)
Lemma map_clusters_to_names_missing_header_witness :
  map_clusters_to_names (tsv_row ["testcluster1"; "acc1"; "first"; "nrps"; "NRPS";
                                  "Test organism 1"; "Bacteria"]) =
  Raise (ValueError "Header line of summary file missing.").
Proof.
  apply map_clusters_to_names_missing_header. vm_compute. reflexivity.
Defined.

(** *** The sanitizer *)

Lemma str_filter_forallb (keep : ascii → bool) (s : string) :
  str_forallb keep (str_filter keep s) = true.
Proof.
  induction s as [|c s IH]; simpl; [done|].
  destruct (keep c) eqn:Hc; simpl; [by rewrite Hc|done].
Qed.

Lemma sanitize_sanitized (s : string) : sanitized (sanitize s).
Proof. apply str_filter_forallb. Qed.

Lemma str_filter_id (keep : ascii → bool) (s : string) :
  str_forallb keep s = true → str_filter keep s = s.
Proof.
  induction s as [|c s IH]; simpl; [done|].
  intros [Hc Hs]%andb_prop. rewrite Hc. by rewrite IH.
Qed.

Lemma prefix_space (c : ascii) (s : string) :
  c ≠ " "%char → String.prefix " " (String c s) = false.
Proof.
  intros Hc. cbn [String.prefix].
  destruct (ascii_dec " " c) as [Heq|Hne]; [by destruct Hc|done].
Qed.

Lemma str_replace_space_id (s : string) :
  str_forallb is_name_char s = true → str_replace " " "_" s = s.
Proof.
  unfold str_replace. induction s as [|c s IH]; [done|].
  cbn [str_forallb str_replace_from]. intros [Hc Hs]%andb_prop.
  rewrite prefix_space, IH; [done..|].
  intros ->. vm_compute in Hc. discriminate Hc.
Qed.

Lemma sanitize_id (s : string) : sanitized s → sanitize s = s.
Proof.
  intros Hs. unfold sanitize.
  by rewrite str_replace_space_id, str_filter_id.
Qed.

(** X2: the sanitizer only lets the characters [[A-Za-z0-9_-]] through and
    is idempotent; every genome name and every display name returned by
    [map_clusters_to_names] is sanitized. *)
Theorem summary_names_are_sanitized :
  (∀ s, sanitized (sanitize s) ∧ sanitize (sanitize s) = sanitize s)
  ∧ (∀ content summary,
       map_clusters_to_names content = Ok summary →
       (∀ genome, genome ∈ dom (summary_genomes summary) → sanitized genome)
       ∧ (∀ cluster name,
            summary_bgcs summary !! cluster = Some name → sanitized name)).
Proof.
  split.
  { intros s. split; [apply sanitize_sanitized|].
    apply sanitize_id, sanitize_sanitized. }
  intros content summary. unfold map_clusters_to_names.
  destruct (readlines content) as [|header rows]; [done|].
  destruct (negb (startswith header "BGC")); [done|].
  intros (st & Hst & [= <-])%rbind_Ok. simpl.
  eapply (rfold_invariant parse_row
            (λ st, (∀ genome, genome ∈ dom (genomes_with_clusters st) → sanitized genome)
                   ∧ (∀ cluster name,
                        bgcs_with_names st !! cluster = Some name → sanitized name)));
    [|split|exact Hst].
  - clear. intros st raw_line st' [Hgenomes Hbgcs]. unfold parse_row.
    intros (cluster & _ & (maps & Hmaps & (ty & _ & [= <-])%rbind_Ok)%rbind_Ok)%rbind_Ok.
    simpl. destruct (startswith cluster "BGC").
    + apply rbind_Ok in Hmaps as (field & _ & [= <-]). simpl. split; [done|].
      intros k name. destruct (decide (cluster = k)) as [<-|Hne].
      * rewrite lookup_insert_eq. intros [= <-]. apply sanitize_sanitized.
      * rewrite lookup_insert_ne by done. apply Hbgcs.
    + apply rbind_Ok in Hmaps as (field & _ & [= <-]). simpl. split; [|done].
      intros genome Hgenome. destruct (decide (sanitize field = genome)) as [<-|Hne].
      * apply sanitize_sanitized.
      * apply Hgenomes.
        destruct (genomes_with_clusters st !! sanitize field);
          rewrite dom_insert_L, elem_of_union, elem_of_singleton in Hgenome;
          by destruct Hgenome.
  - intros genome. simpl. by rewrite dom_empty_L, elem_of_empty.
  - intros cluster name. simpl. by rewrite lookup_empty.
Qed.

(** The names read from the example annotation table. *)
Lemma summary_names_are_sanitized_witness :
  sanitized "Test_organism_2" ∧ sanitized "Testomycin".
Proof.
  destruct summary_names_are_sanitized as [_ Hsummary].
  destruct (Hsummary _ _ map_clusters_to_names_example) as [Hgenomes Hbgcs].
  split.
  - apply Hgenomes. simpl. by_evaluation.
  - apply (Hbgcs "BGC_1"). reflexivity.
Defined.

(** *** The order file *)

Lemma order_duplicates_nil (family_numbers numbers_seen : list string) :
  order_duplicates family_numbers numbers_seen = [] ↔
  NoDup family_numbers
  ∧ ∀ number, number ∈ family_numbers → number ∉ numbers_seen.
Proof.
  revert numbers_seen.
  induction family_numbers as [|number rest IH]; intros numbers_seen; simpl.
  - split; [|done]. intros _. split; [constructor|].
    intros number Hin. by apply elem_of_nil in Hin.
  - case_decide as Hseen; simpl.
    + split; [done|]. intros [_ Hfresh]. destruct (Hfresh number); [left|done].
    + rewrite IH. split.
      * intros [Hnodup Hfresh]. split.
        -- constructor; [|done]. intros Hin. apply (Hfresh _ Hin). left.
        -- intros n [->|Hin]%elem_of_cons; [done|].
           intros Hn. apply (Hfresh _ Hin). by right.
      * intros [[Hnotin Hnodup]%NoDup_cons Hfresh]. split; [done|].
        intros n Hin [->|Hn]%elem_of_cons; [done|].
        apply (Hfresh n); [by right|done].
Qed.

(** X4: [parse_family_order] returns the numbers of the first line when they
    are pairwise distinct and raises [ValueError] when one is repeated. *)
Theorem parse_family_order_rejects_duplicates (content : string) :
  (NoDup (str_split comma (rstrip (default "" (head (readlines content))))) →
   parse_family_order content =
   Ok (str_split comma (rstrip (default "" (head (readlines content))))))
  ∧ (¬ NoDup (str_split comma (rstrip (default "" (head (readlines content))))) →
     ∃ msg, parse_family_order content = Raise (ValueError msg)).
Proof.
  unfold parse_family_order. fold comma.
  set (numbers := str_split comma (rstrip (default "" (head (readlines content))))).
  split.
  - intros Hnodup. rewrite decide_True; [done|].
    apply order_duplicates_nil. split; [done|].
    intros number _ Hin. by apply elem_of_nil in Hin.
  - intros Hdup. rewrite decide_False; [eauto|].
    intros [Hnodup _]%order_duplicates_nil. by apply Hdup.
Qed.

(** The order files [2,1] and [2,1,2]. *)
Lemma parse_family_order_rejects_duplicates_witness :
  parse_family_order "2,1" = Ok ["2"; "1"]
  ∧ ∃ msg, parse_family_order "2,1,2" = Raise (ValueError msg).
Proof.
  split.
  - apply (parse_family_order_rejects_duplicates "2,1"). by_evaluation.
  - apply (parse_family_order_rejects_duplicates "2,1,2").
    intros Hnodup. assert (bool_decide (NoDup ["2"; "1"; "2"]) = true) as Hdec.
    { by apply bool_decide_eq_true_2. }
    vm_compute in Hdec. discriminate Hdec.
Defined.

(** X5: an order with another number of entries than there are families is
    refused before any count is computed, with a [ValueError] whose message
    gives both numbers. *)
Theorem get_preordered_matrix_length_mismatch
    (families_with_names : list (string * gset string))
    (clusters_in_genomes : gmap string (gset string)) (family_order : list string) :
  length families_with_names ≠ length family_order →
  get_preordered_matrix families_with_names clusters_in_genomes family_order =
  Raise (ValueError
           ("Length of family order list must match amount of families."
            +:+ String newline
                  ("        Amount of families: "
                   +:+ str_of_nat (length families_with_names)
                   +:+ " Length of family order list: "
                   +:+ str_of_nat (length family_order)))).
Proof.
  intros Hlen. unfold get_preordered_matrix, preordered_frame.
  by rewrite bool_decide_eq_false_2.
Qed.

(** Two families and an order of one number. *)
Lemma get_preordered_matrix_length_mismatch_witness :
  get_preordered_matrix example_named_families example_genomes ["2"] =
  Raise (ValueError
           ("Length of family order list must match amount of families."
            +:+ String newline
                  "        Amount of families: 2 Length of family order list: 1")).
Proof.
  rewrite get_preordered_matrix_length_mismatch by (simpl; lia).
  vm_compute. reflexivity.
Defined.

(** ** Further properties of the network steps *)

Lemma connected_components_from_sources (network_df : list Edge) (n : nat)
    (nodes : list string) (seen component : gset string) :
  component ∈ connected_components_from network_df n nodes seen →
  ∃ source, source ∈ nodes ∧ component = plain_bfs network_df n source.
Proof.
  revert seen. induction nodes as [|v nodes IH]; intros seen; simpl.
  - by intros ?%elem_of_nil.
  - case_decide.
    + intros (source & Hsource & ->)%IH. exists source. split; [by right|done].
    + intros [->|(source & Hsource & ->)%IH]%elem_of_cons.
      * exists v. split; [left|done].
      * exists source. split; [by right|done].
Qed.

(** X6: every set that the component search returns is not empty and holds
    both ends or neither end of every edge. *)
Theorem connected_components_closed (network_df : list Edge)
    (component : gset string) (e : Edge) :
  component ∈ connected_components network_df → e ∈ network_df →
  component ≠ ∅
  ∧ (clustername_1 e ∈ component ↔ clustername_2 e ∈ component).
Proof.
  intros (source & Hsource & ->)%connected_components_from_sources He. split.
  - intros Hempty.
    pose proof (plain_bfs_source network_df (length (graph_nodes network_df)) source)
      as Hin.
    rewrite Hempty in Hin. by apply elem_of_empty in Hin.
  - by apply plain_bfs_closed.
Qed.

(** The component of [Cluster_1] in the example network and its edge to
    [Cluster_3]. *)
Lemma connected_components_closed_witness :
  clusters example_family_mixed ≠ ∅
  ∧ ("Cluster_3" ∈ clusters example_family_mixed
     ↔ "Cluster_1" ∈ clusters example_family_mixed).
Proof.
  apply (connected_components_closed example_network (clusters example_family_mixed)
           (mkEdge "Cluster_3" "Cluster_1" (tenths 1))).
  - by_evaluation.
  - by_evaluation.
Defined.

(** ** The clustering variants *)

(** *** The base directory *)

Lemma find_inputs_cases (entries : list BaseEntry) (all_networks : option BaseEntry)
    (result_dirs : list BaseEntry) :
  find_inputs entries all_networks result_dirs =
  match option_list all_networks ++ filter (λ entry, is_summary_file entry = true) entries with
  | _ :: _ :: _ => Raised (Exception (ValueError "Multiple summary files found."))
  | found =>
      Returned (head found,
                result_dirs ++ filter (λ entry, base_is_dir entry = true) entries)
  end.
Proof.
  revert all_networks result_dirs.
  induction entries as [|entry rest IH]; intros all_networks result_dirs.
  - simpl. rewrite !app_nil_r. by destruct all_networks.
  - cbn [find_inputs]. destruct (is_summary_file entry) eqn:Hsummary.
    + rewrite filter_cons_True by done.
      destruct all_networks as [first|]; simpl; [done|].
      rewrite IH. simpl.
      destruct (base_is_dir entry) eqn:Hdir.
      * rewrite (filter_cons_True (λ entry, base_is_dir entry = true)) by done.
        by rewrite <-app_assoc.
      * rewrite (filter_cons_False (λ entry, base_is_dir entry = true))
          by by rewrite Hdir.
        done.
    + rewrite filter_cons_False by by rewrite Hsummary.
      simpl. rewrite IH.
      destruct (base_is_dir entry) eqn:Hdir.
      * rewrite (filter_cons_True (λ entry, base_is_dir entry = true)) by done.
        by rewrite <-app_assoc.
      * rewrite (filter_cons_False (λ entry, base_is_dir entry = true))
          by by rewrite Hdir.
        done.
Qed.

(** X9: the search of the base directory, which the three command-line
    variants share, depends only on the summary files and the directories
    among the entries: no summary file is an [IOError], more than one a
    [ValueError]; with one summary file, no directory is an [IOError], and
    otherwise the summary file and all directories, in the order of the
    entries, are the result. *)
Theorem find_summary_and_results_cases (entries : list BaseEntry) :
  find_summary_and_results entries =
  match filter (λ entry, is_summary_file entry = true) entries with
  | [] => Raised (IOError "No summary file found.")
  | [all_networks] =>
      match filter (λ entry, base_is_dir entry = true) entries with
      | [] => Raised (IOError "No results found.")
      | result_dirs => Returned (all_networks, result_dirs)
      end
  | _ :: _ :: _ => Raised (Exception (ValueError "Multiple summary files found."))
  end.
Proof.
  unfold find_summary_and_results. rewrite find_inputs_cases. simpl.
  destruct (filter _ entries) as [|first [|second others]]; simpl; [done| |done].
  destruct (filter _ entries); [done|]. by case_decide.
Qed.

(** *** The clustering files *)

Lemma plain_scan_found (cutoff_text result_dir : string) (entries : list TextEntry)
    (families : list (string * gset string)) :
  MakeAbsPres.scan_clusterings cutoff_text result_dir entries true families =
  match filter (λ entry, text_is_file entry
                         && MakeAbsPres.matches_clustering_pattern cutoff_text entry = true)
               entries with
  | [] => Ok families
  | _ :: _ => Raise (multiple_clustering_files result_dir)
  end.
Proof.
  induction entries as [|entry entries IH]; [done|]. cbn [MakeAbsPres.scan_clusterings].
  destruct (text_is_file entry && MakeAbsPres.matches_clustering_pattern cutoff_text entry)
    eqn:Hmatch.
  - by rewrite filter_cons_True.
  - rewrite filter_cons_False by by rewrite Hmatch. done.
Qed.

Lemma reference_scan_found (cutoff_text result_dir : string) (entries : list TextEntry)
    (families : list (string * gset string)) :
  Mibig.scan_clusterings cutoff_text result_dir entries true families =
  match filter (λ entry, text_is_file entry
                         && Mibig.matches_clustering_pattern cutoff_text entry = true)
               entries with
  | [] => Ok families
  | _ :: _ => Raise (multiple_clustering_files result_dir)
  end.
Proof.
  induction entries as [|entry entries IH]; [done|]. cbn [Mibig.scan_clusterings].
  destruct (text_is_file entry && Mibig.matches_clustering_pattern cutoff_text entry)
    eqn:Hmatch.
  - by rewrite filter_cons_True.
  - rewrite filter_cons_False by by rewrite Hmatch. done.
Qed.

(** X10: the scan of a result directory reads the first file that matches
    the clustering pattern; a directory without such a file leaves the
    families as they are, and a second such file is a [ValueError] that names
    the directory, unless reading the first file already failed. *)
Theorem scan_clusterings_cases (cutoff_text result_dir : string)
    (entries : list TextEntry) (families : list (string * gset string)) :
  MakeAbsPres.scan_clusterings cutoff_text result_dir entries false families =
  match filter (λ entry, text_is_file entry
                         && MakeAbsPres.matches_clustering_pattern cutoff_text entry = true)
               entries with
  | [] => Ok families
  | [entry] =>
      MakeAbsPres.get_families (text_name entry) (text_content entry) families
  | entry :: _ :: _ =>
      _ ← MakeAbsPres.get_families (text_name entry) (text_content entry) families;
      Raise (multiple_clustering_files result_dir)
  end
  ∧ Mibig.scan_clusterings cutoff_text result_dir entries false families =
    match filter (λ entry, text_is_file entry
                           && Mibig.matches_clustering_pattern cutoff_text entry = true)
                 entries with
    | [] => Ok families
    | [entry] => Mibig.get_families (text_name entry) (text_content entry) families
    | entry :: _ :: _ =>
        _ ← Mibig.get_families (text_name entry) (text_content entry) families;
        Raise (multiple_clustering_files result_dir)
    end.
Proof.
  split.
  - induction entries as [|entry entries IH]; [done|].
    cbn [MakeAbsPres.scan_clusterings].
    destruct (text_is_file entry && MakeAbsPres.matches_clustering_pattern cutoff_text entry)
      eqn:Hmatch.
    + rewrite filter_cons_True by done. cbn [negb].
      destruct (MakeAbsPres.get_families (text_name entry) (text_content entry) families)
        as [families'|e]; cbn [mbind result_bind].
      * rewrite plain_scan_found. by destruct (filter _ entries).
      * by destruct (filter _ entries).
    + rewrite filter_cons_False by by rewrite Hmatch. done.
  - induction entries as [|entry entries IH]; [done|].
    cbn [Mibig.scan_clusterings].
    destruct (text_is_file entry && Mibig.matches_clustering_pattern cutoff_text entry)
      eqn:Hmatch.
    + rewrite filter_cons_True by done. cbn [negb].
      destruct (Mibig.get_families (text_name entry) (text_content entry) families)
        as [families'|e]; cbn [mbind result_bind].
      * rewrite reference_scan_found. by destruct (filter _ entries).
      * by destruct (filter _ entries).
    + rewrite filter_cons_False by by rewrite Hmatch. done.
Qed.

Lemma endswith_refl (s : string) : endswith s s = true.
Proof. destruct s; cbn [endswith]; by rewrite bool_decide_eq_true_2. Qed.

Lemma endswith_length (s suffix : string) :
  endswith s suffix = true → String.length suffix ≤ String.length s.
Proof.
  induction s as [|c s IH]; cbn [endswith].
  - rewrite orb_false_r. by intros <-%bool_decide_eq_true.
  - intros [<-%bool_decide_eq_true|Hs%IH]%orb_true_iff; simpl; lia.
Qed.

Lemma endswith_tail (s suffix : string) (c : ascii) :
  endswith s (String c suffix) = true → endswith s suffix = true.
Proof.
  induction s as [|x s IH]; cbn [endswith].
  - rewrite orb_false_r. by intros [=]%bool_decide_eq_true.
  - intros [[= -> ->]%bool_decide_eq_true|Hs%IH]%orb_true_iff.
    + by rewrite endswith_refl, orb_true_r.
    + by rewrite Hs, orb_true_r.
Qed.

Lemma endswith_same_length (s x y : string) :
  endswith s x = true → endswith s y = true →
  String.length x = String.length y → x = y.
Proof.
  induction s as [|c s IH]; cbn [endswith].
  - rewrite !orb_false_r. by intros <-%bool_decide_eq_true <-%bool_decide_eq_true.
  - intros [<-%bool_decide_eq_true|Hx]%orb_true_iff
           [<-%bool_decide_eq_true|Hy]%orb_true_iff Hlen; [done| | |by apply IH].
    + apply endswith_length in Hy. simpl in Hlen. lia.
    + apply endswith_length in Hx. simpl in Hlen. lia.
Qed.

Lemma str_length_app (a b : string) :
  String.length (a +:+ b) = String.length a + String.length b.
Proof. induction a as [|c a IH]; [done|]. rewrite str_app_cons. simpl. by rewrite IH. Qed.

(** X11: no file name matches the clustering pattern of [make_abs_pres.py],
    which has a dot after [_clustering_c], and that of
    [make_abs_pres_mibig.py], which has none, for the same cutoff. *)
Theorem clustering_patterns_disjoint (cutoff_text : string) (entry : TextEntry) :
  MakeAbsPres.matches_clustering_pattern cutoff_text entry = true →
  Mibig.matches_clustering_pattern cutoff_text entry = false.
Proof.
  unfold MakeAbsPres.matches_clustering_pattern, Mibig.matches_clustering_pattern.
  intros Hdot. apply not_true_is_false. intros Hplain.
  change ("_clustering_c." +:+ cutoff_text +:+ ".tsv")
    with (String "_" ("clustering_c." +:+ cutoff_text +:+ ".tsv")) in Hdot.
  apply endswith_tail in Hdot.
  pose proof (endswith_same_length _ _ _ Hdot Hplain) as Heq.
  rewrite !str_length_app in Heq. by specialize (Heq eq_refl).
Qed.

(** The clustering file of the example that [make_abs_pres.py] reads. *)
Lemma clustering_patterns_disjoint_witness :
  Mibig.matches_clustering_pattern "0.30"
    (mkTextEntry true "NRPS_clustering_c.0.30.tsv" example_clustering_file) = false.
Proof. apply clustering_patterns_disjoint. vm_compute. reflexivity. Defined.


Lemma family_row_two_fields (file_name : string) (families : list (string * gset string))
    (raw_line : string) :
  two_fields raw_line →
  ∃ cluster family families',
    row_fields raw_line = [cluster; family]
    ∧ MakeAbsPres.family_row file_name families raw_line = Ok families'
    ∧ dict_keys families `prefix_of` dict_keys families'
    ∧ (NoDup (dict_keys families) → NoDup (dict_keys families'))
    ∧ ∀ f c, family_member families' f c ↔
             family_member families f c ∨ (c = cluster ∧ f = family).
Proof.
  unfold two_fields, MakeAbsPres.family_row. fold (row_fields raw_line).
  destruct (row_fields raw_line) as [|cluster [|family [|? ?]]]; try done.
  intros _. exists cluster, family. eexists. split; [done|].
  rewrite decide_False by (simpl; lia). simpl. split; [done|].
  assert (∀ members : gset string,
            dict_keys families `prefix_of` dict_keys (dict_set family members families)
            ∧ (NoDup (dict_keys families) →
               NoDup (dict_keys (dict_set family members families)))) as Hkeys.
  { intros members. rewrite dict_keys_set. case_decide as Hin; [done|].
    split; [by apply prefix_app_r|].
    intros Hnodup. apply NoDup_app. split; [done|]. split; [|apply NoDup_singleton].
    intros k Hk ->%list_elem_of_singleton. done. }
  destruct (dict_get families family) as [members|e] eqn:Hget.
  - split; [apply Hkeys|]. split; [apply Hkeys|].
    intros f c. unfold family_member. rewrite dict_get_set.
    destruct (decide (family = f)) as [<-|Hf].
    + rewrite Hget. split.
      * intros (m & [= <-] & [Hc| ->%elem_of_singleton]%elem_of_union); eauto.
      * intros [(m & [= <-] & Hc)|[-> _]]; eexists; (split; [done|]);
          apply elem_of_union; [by left|right]. by apply elem_of_singleton.
    + split; [by left|]. by intros [?|[_ ->]].
  - split; [apply Hkeys|]. split; [apply Hkeys|].
    intros f c. unfold family_member. rewrite dict_get_set.
    destruct (decide (family = f)) as [<-|Hf].
    + rewrite Hget. split.
      * intros (m & [= <-] & ->%elem_of_singleton). by right.
      * intros [(m & [=] & _)|[-> _]]. eexists. split; [done|]. by apply elem_of_singleton.
    + split; [by left|]. by intros [?|[_ ->]].
Qed.

Lemma family_rows_two_fields (file_name : string) (rows : list string)
    (families : list (string * gset string)) :
  Forall two_fields rows →
  ∃ families',
    rfold (MakeAbsPres.family_row file_name) families rows = Ok families'
    ∧ dict_keys families `prefix_of` dict_keys families'
    ∧ (NoDup (dict_keys families) → NoDup (dict_keys families'))
    ∧ ∀ f c, family_member families' f c ↔
             family_member families f c
             ∨ ∃ raw_line, raw_line ∈ rows ∧ row_fields raw_line = [c; f].
Proof.
  intros Hrows. revert families.
  induction Hrows as [|raw_line rows Hrow Hrows IH]; intros families.
  - exists families. split; [done|]. split; [done|]. split; [done|].
    intros f c. split; [by left|]. intros [?|(? & ?%elem_of_nil & _)]; done.
  - destruct (family_row_two_fields file_name families raw_line Hrow)
      as (cluster & family & families1 & Hfields & Hrun & Hprefix & Hnodup & Hmem).
    destruct (IH families1) as (families' & Hrun' & Hprefix' & Hnodup' & Hmem').
    exists families'. simpl. rewrite Hrun. simpl. split; [done|].
    split; [by etrans|]. split; [auto|].
    intros f c. rewrite Hmem', Hmem. split.
    + intros [[?|[-> ->]]|(r & Hin & Hr)]; [by left| |].
      * right. exists raw_line. split; [left|done].
      * right. exists r. split; [by right|done].
    + intros [?|(r & [->|Hin]%elem_of_cons & Hr)].
      * left. by left.
      * left. right. rewrite Hfields in Hr. by injection Hr as -> ->.
      * right. eauto.
Qed.

Lemma family_row_raises (file_name : string) (families : list (string * gset string))
    (raw_line : string) :
  ¬ two_fields raw_line →
  MakeAbsPres.family_row file_name families raw_line =
  Raise (ValueError ("Cluster file must contain two columns. File " +:+ file_name
                     +:+ " contains " +:+ str_of_nat (length (row_fields raw_line))
                     +:+ ".")).
Proof.
  unfold two_fields, MakeAbsPres.family_row. fold (row_fields raw_line).
  intros Hlen. by rewrite decide_True.
Qed.

(** X12: [get_families] of the clustering variants raises a [ValueError]
    that names the file when the first line does not start with [#], and one
    that names the file and the number of fields of the first row that has
    not two fields. *)
Theorem clustering_file_errors (file_name content : string)
    (families : list (string * gset string)) :
  (startswith (default "" (head (readlines content))) "#" = false →
   MakeAbsPres.get_families file_name content families =
   Raise (ValueError ("Header line of file " +:+ file_name +:+ " missing.")))
  ∧ (∀ header before raw_line after,
       readlines content = header :: before ++ raw_line :: after →
       startswith header "#" = true →
       Forall two_fields before → ¬ two_fields raw_line →
       MakeAbsPres.get_families file_name content families =
       Raise (ValueError ("Cluster file must contain two columns. File " +:+ file_name
                          +:+ " contains " +:+ str_of_nat (length (row_fields raw_line))
                          +:+ "."))).
Proof.
  unfold MakeAbsPres.get_families. split.
  - destruct (readlines content) as [|header rows]; [done|]. simpl. by intros ->.
  - intros header before raw_line after -> -> Hbefore Hbad. simpl.
    destruct (family_rows_two_fields file_name before families Hbefore)
      as (families' & Hrun & _).
    revert families Hrun. clear Hbefore.
    induction before as [|row before IH]; intros families; simpl.
    + intros _. by rewrite family_row_raises.
    + intros (families1 & -> & Hrest)%rbind_Ok. simpl. by eapply IH.
Qed.

(** A clustering file without its header, and one with a row of one field. *)
Lemma clustering_file_errors_witness :
  MakeAbsPres.get_families "NRPS_clustering_c.0.30.tsv"
    (foldr String.append "" example_clustering_rows) []
  = Raise (ValueError "Header line of file NRPS_clustering_c.0.30.tsv missing.")
  ∧ MakeAbsPres.get_families "NRPS_clustering_c.0.30.tsv"
      example_short_clustering_file []
    = Raise (ValueError
               "Cluster file must contain two columns. File NRPS_clustering_c.0.30.tsv contains 1.").
Proof.
  split.
  - rewrite (proj1 (clustering_file_errors "NRPS_clustering_c.0.30.tsv"
                      (foldr String.append "" example_clustering_rows) []));
      vm_compute; reflexivity.
  - rewrite (proj2 (clustering_file_errors "NRPS_clustering_c.0.30.tsv"
                      example_short_clustering_file [])
               example_clustering_header [tsv_row ["testcluster1"; "10"]]
               (tsv_row ["testcluster2"]) []).
    + vm_compute. reflexivity.
    + vm_compute. reflexivity.
    + vm_compute. reflexivity.
    + by_evaluation.
    + vm_compute. discriminate.
Defined.

(** X13: on a clustering file with a header and rows of two fields
    [get_families] succeeds; the families known before keep their place,
    new ones follow, no family is listed twice, and a cluster is a member of
    a family exactly if it was one before or a row of the file puts it
    there. *)
Theorem clustering_file_updates (file_name content header : string)
    (rows : list string) (families : list (string * gset string)) :
  readlines content = header :: rows →
  startswith header "#" = true →
  Forall two_fields rows →
  ∃ families',
    MakeAbsPres.get_families file_name content families = Ok families'
    ∧ dict_keys families `prefix_of` dict_keys families'
    ∧ (NoDup (dict_keys families) → NoDup (dict_keys families'))
    ∧ ∀ family cluster,
        family_member families' family cluster ↔
        family_member families family cluster
        ∨ ∃ raw_line, raw_line ∈ rows ∧ row_fields raw_line = [cluster; family].
Proof.
  intros Hlines Hheader Hrows. unfold MakeAbsPres.get_families.
  rewrite Hlines, Hheader. simpl. by apply family_rows_two_fields.
Qed.

(** The example clustering file, read into an empty dict. *)
Lemma clustering_file_updates_witness :
  ∃ families',
    MakeAbsPres.get_families "NRPS_clustering_c.0.30.tsv" example_clustering_file []
      = Ok families'
    ∧ dict_keys ([] : list (string * gset string)) `prefix_of` dict_keys families'
    ∧ (NoDup (dict_keys ([] : list (string * gset string))) → NoDup (dict_keys families'))
    ∧ ∀ family cluster,
        family_member families' family cluster ↔
        family_member [] family cluster
        ∨ ∃ raw_line, raw_line ∈ example_clustering_rows
                      ∧ row_fields raw_line = [cluster; family].
Proof.
  apply (clustering_file_updates "NRPS_clustering_c.0.30.tsv" example_clustering_file
           example_clustering_header example_clustering_rows []).
  - vm_compute. reflexivity.
  - vm_compute. reflexivity.
  - by_evaluation.
Defined.

(** *** The annotation table in the three variants *)

Lemma names_row_parse_row (st st' : ParseState) (raw_line : string) :
  parse_row st raw_line = Ok st' →
  Mibig.names_row (names_of st) raw_line = Ok (names_of st').
Proof.
  unfold parse_row, Mibig.names_row.
  intros (cluster & -> & (maps & Hmaps & (ty & _ & [= <-])%rbind_Ok)%rbind_Ok)%rbind_Ok.
  simpl. destruct (startswith cluster "BGC").
  - apply rbind_Ok in Hmaps as (field & -> & [= <-]). done.
  - apply rbind_Ok in Hmaps as (field & -> & [= <-]). done.
Qed.

Lemma names_rows_parse_rows (rows : list string) (st st' : ParseState) :
  rfold parse_row st rows = Ok st' →
  rfold Mibig.names_row (names_of st) rows = Ok (names_of st').
Proof.
  revert st. induction rows as [|raw_line rows IH]; intros st; simpl.
  - by intros [= <-].
  - intros (st1 & Hrow & Hrest)%rbind_Ok.
    rewrite (names_row_parse_row _ _ _ Hrow). simpl. by apply IH.
Qed.

(** X14: whenever [map_clusters_to_names] of the network variant accepts an
    annotation table, [map_clusters_to_names] of [make_abs_pres_mibig.py]
    accepts it too, with the same genomes, the same display names and the
    same warning. *)
Theorem reference_variant_reads_same_names (content : string) (summary : Summary) :
  map_clusters_to_names content = Ok summary →
  Mibig.map_clusters_to_names content =
  Ok (summary_genomes summary, summary_bgcs summary, summary_stderr summary).
Proof.
  unfold map_clusters_to_names, Mibig.map_clusters_to_names.
  destruct (readlines content) as [|header rows]; [done|].
  destruct (negb (startswith header "BGC")); [done|].
  intros (st & Hst%names_rows_parse_rows & [= <-])%rbind_Ok.
  change (Mibig.mkNamesState ∅ ∅ false) with (names_of (mkParseState ∅ ∅ ∅ false)).
  rewrite Hst. done.
Qed.

(** The example annotation table. *)
Lemma reference_variant_reads_same_names_witness :
  Mibig.map_clusters_to_names example_summary_file =
  Ok (summary_genomes example_summary, summary_bgcs example_summary,
      summary_stderr example_summary).
Proof. apply reference_variant_reads_same_names. vm_compute. reflexivity. Defined.

Lemma genome_row_names_row (st : Mibig.NamesState) (raw_line : string) :
  query_row raw_line →
  MakeAbsPres.genome_row (Mibig.names_genomes st, Mibig.names_wrong st) raw_line =
  (st' ← Mibig.names_row st raw_line;
   Ok (Mibig.names_genomes st', Mibig.names_wrong st'))
  ∧ ∀ st', Mibig.names_row st raw_line = Ok st' →
           Mibig.names_bgcs st' = Mibig.names_bgcs st.
Proof.
  unfold query_row, MakeAbsPres.genome_row, Mibig.names_row.
  fold (row_fields raw_line).
  destruct (row_fields raw_line) as [|cluster fields] eqn:Hfields.
  { unfold row_fields in Hfields. by destruct (rstrip raw_line); simpl in *; repeat case_match. }
  cbn [head default from_option id]. intros Hquery.
  change (index_list (cluster :: fields) 0) with (Ok (A:=string) cluster).
  change (index_list (cluster :: fields) 5) with (index_list fields 4).
  cbn [mbind result_bind]. rewrite Hquery.
  destruct (index_list fields 4) as [field|e]; cbn [mbind result_bind fst snd].
  - split; [done|]. by intros st' [= <-].
  - split; [done|]. by intros st'.
Qed.

Lemma genome_rows_names_rows (rows : list string) (st : Mibig.NamesState) :
  Forall query_row rows →
  rfold MakeAbsPres.genome_row (Mibig.names_genomes st, Mibig.names_wrong st) rows =
  (st' ← rfold Mibig.names_row st rows;
   Ok (Mibig.names_genomes st', Mibig.names_wrong st'))
  ∧ ∀ st', rfold Mibig.names_row st rows = Ok st' →
           Mibig.names_bgcs st' = Mibig.names_bgcs st.
Proof.
  intros Hrows. revert st.
  induction Hrows as [|raw_line rows Hrow Hrows IH]; intros st.
  - simpl. split; [done|]. by intros st' [= <-].
  - destruct (genome_row_names_row st raw_line Hrow) as [Hstep Hbgcs].
    cbn [rfold]. rewrite Hstep.
    destruct (Mibig.names_row st raw_line) as [st1|e]; simpl.
    + destruct (IH st1) as [Hrest Hbgcs']. split; [done|].
      intros st' Hst'. rewrite (Hbgcs' _ Hst'). by apply Hbgcs.
    + split; [done|]. by intros st'.
Qed.

(** X15: on an annotation table without rows of reference clusters,
    [match_clusters_to_genomes] of [make_abs_pres.py] gives the genomes and
    the warning of [map_clusters_to_names] of [make_abs_pres_mibig.py], or
    fails with the same exception, and the latter finds no display name. *)
Theorem plain_variant_reads_same_genomes (content : string) :
  Forall query_row (tail (readlines content)) →
  MakeAbsPres.match_clusters_to_genomes content =
  (names ← Mibig.map_clusters_to_names content; Ok (names.1.1, names.2))
  ∧ ∀ names, Mibig.map_clusters_to_names content = Ok names → names.1.2 = ∅.
Proof.
  unfold MakeAbsPres.match_clusters_to_genomes, Mibig.map_clusters_to_names.
  destruct (readlines content) as [|header rows]; [done|].
  destruct (negb (startswith header "BGC")); [done|].
  cbn [tail]. intros Hrows.
  destruct (genome_rows_names_rows rows (Mibig.mkNamesState ∅ ∅ false) Hrows)
    as [Hrun Hbgcs].
  cbn [Mibig.names_genomes Mibig.names_wrong] in Hrun. rewrite Hrun.
  destruct (rfold Mibig.names_row _ rows) as [st|e]; simpl; [|done].
  split; [done|]. intros names [= <-]. simpl. by apply Hbgcs.
Qed.

(** The annotation table of query clusters. *)
Lemma plain_variant_reads_same_genomes_witness :
  MakeAbsPres.match_clusters_to_genomes example_query_summary_file =
  (names ← Mibig.map_clusters_to_names example_query_summary_file;
   Ok (names.1.1, names.2))
  ∧ ∀ names, Mibig.map_clusters_to_names example_query_summary_file = Ok names →
             names.1.2 = ∅.
Proof. apply plain_variant_reads_same_genomes. by_evaluation. Defined.

(** *** The matrix of the clustering variants *)

Lemma obind_Returned {A B : Type} (m : outcome A) (k : A → outcome B) (b : B) :
  (m ≫= k) = Returned b ↔ ∃ a, m = Returned a ∧ k a = Returned b.
Proof.
  destruct m as [a|e]; simpl.
  - split; [eauto | intros (a' & [= <-] & ?); done].
  - split; [done | intros (a' & [=] & _)].
Qed.

Lemma step_Returned {A : Type} (r : result A) (a : A) :
  step r = Returned a ↔ r = Ok a.
Proof. destruct r; simpl; split; congruence. Qed.

Lemma insert_by_key_perm (x : Z * string) (l : list (Z * string)) :
  insert_by_key x l ≡ₚ x :: l.
Proof.
  induction l as [|y l IH]; simpl; [done|].
  case_decide; [|done]. rewrite IH. apply Permutation_swap.
Qed.

Lemma sort_by_key_perm (l : list (Z * string)) : sort_by_key l ≡ₚ l.
Proof.
  induction l as [|x l IH]; simpl; [done|].
  by rewrite insert_by_key_perm, IH.
Qed.

Lemma insert_by_key_sorted (x : Z * string) (l : list (Z * string)) :
  Sorted Z.le l.*1 → Sorted Z.le (insert_by_key x l).*1.
Proof.
  induction l as [|y l IH]; simpl; [by repeat constructor|].
  intros [Hl Hy]%Sorted_inv. case_decide as Hlt; simpl.
  - constructor; [by apply IH|].
    destruct l as [|z l]; simpl; [constructor; lia|].
    case_decide; simpl; constructor; [by inversion Hy|lia].
  - constructor; [by constructor|]. constructor. lia.
Qed.

Lemma sort_by_key_sorted (l : list (Z * string)) : Sorted Z.le (sort_by_key l).*1.
Proof.
  induction l as [|x l IH]; simpl; [constructor|]. by apply insert_by_key_sorted.
Qed.

Section NumericOrder.

Variable py_int : string → result Z.

Lemma rmap_zip (keys : list string) (numbers : list Z) :
  rmap py_int keys = Ok numbers →
  Forall (λ item : Z * string, py_int item.2 = Ok item.1) (zip numbers keys)
  ∧ (zip numbers keys).*2 = keys.
Proof.
  revert numbers. induction keys as [|key keys IH]; intros numbers; simpl.
  - intros [= <-]. by split.
  - intros (n & Hn & (ns & [Hns Hkeys]%IH & [= <-])%rbind_Ok)%rbind_Ok. simpl.
    split; [by constructor|]. f_equal. exact Hkeys.
Qed.

Lemma rmap_keyed (items : list (Z * string)) :
  Forall (λ item : Z * string, py_int item.2 = Ok item.1) items →
  rmap py_int items.*2 = Ok items.*1.
Proof.
  induction 1 as [|[n key] items Hitem _ IH]; [done|].
  cbn [fmap list_fmap rmap fst snd] in *.
  rewrite Hitem. cbn [mbind result_bind].
  change (list_fmap _ _ snd items) with (items.*2).
  by rewrite IH.
Qed.

Lemma sorted_by_int_sorted (keys all_families : list string) :
  MakeAbsPres.sorted_by_int py_int keys = Ok all_families →
  all_families ≡ₚ keys
  ∧ ∃ numbers, rmap py_int all_families = Ok numbers ∧ Sorted Z.le numbers.
Proof.
  unfold MakeAbsPres.sorted_by_int.
  intros (numbers & [Hkeyed Hkeys]%rmap_zip & [= <-])%rbind_Ok. split.
  - rewrite sort_by_key_perm. by rewrite Hkeys.
  - exists (sort_by_key (zip numbers keys)).*1. split; [|apply sort_by_key_sorted].
    apply rmap_keyed. by rewrite sort_by_key_perm.
Qed.

(** X16: when [bigscape_to_matrix] of [make_abs_pres.py] returns, the
    columns of the matrix are the family numbers of the clustering files in
    ascending order of their integer values, and the matrix has a header
    line and one line for each genome of the annotation table, with the
    sizes of the intersections. *)
Theorem columns_in_numeric_order (entries : list BaseEntry) (cutoff_text : string)
    (document : string) (warnings : list string) :
  MakeAbsPres.bigscape_to_matrix py_int entries cutoff_text
    = Returned (document, warnings) →
  ∃ all_networks result_dirs families_with_clusters all_families numbers,
    find_summary_and_results entries = Returned (all_networks, result_dirs)
    ∧ rfold (λ families result_dir,
               MakeAbsPres.scan_clusterings cutoff_text (base_name result_dir)
                 (base_children result_dir) false families)
            [] result_dirs = Ok families_with_clusters
    ∧ all_families ≡ₚ dict_keys families_with_clusters
    ∧ rmap py_int all_families = Ok numbers ∧ Sorted Z.le numbers
    ∧ ∃ genomes_to_clusters,
        MakeAbsPres.match_clusters_to_genomes (base_content all_networks)
          = Ok (genomes_to_clusters, warnings)
        ∧ document =
          str_join (String newline "")
            (spec_matrix_lines (String tab "") all_families
               (genome_rows all_families (list_to_map families_with_clusters)
                  genomes_to_clusters)).
Proof.
  unfold MakeAbsPres.bigscape_to_matrix.
  intros ([all_networks result_dirs] & Hfind
          & (families & Hscan%step_Returned
             & (all_families & (Hperm & numbers & Hnumbers & Hsorted)%step_Returned%sorted_by_int_sorted
                & ([genomes stderr] & Hgenomes%step_Returned
                   & (matrix & Hmatrix%step_Returned%bigscape_to_matrix_lines
                      & [= <- <-])%obind_Returned)%obind_Returned)%obind_Returned)%obind_Returned)%obind_Returned.
  exists all_networks, result_dirs, families, all_families, numbers.
  repeat (split; [done|]). by exists genomes.
Qed.

End NumericOrder.

(** The example directory: the columns are [7], [9] and [10], where the
    order of the strings has [10] first. *)
Lemma columns_in_numeric_order_witness :
  ∃ all_networks result_dirs families_with_clusters all_families numbers,
    find_summary_and_results example_base_entries = Returned (all_networks, result_dirs)
    ∧ rfold (λ families result_dir,
               MakeAbsPres.scan_clusterings "0.30" (base_name result_dir)
                 (base_children result_dir) false families)
            [] result_dirs = Ok families_with_clusters
    ∧ all_families ≡ₚ dict_keys families_with_clusters
    ∧ rmap example_int all_families = Ok numbers ∧ Sorted Z.le numbers
    ∧ ∃ genomes_to_clusters,
        MakeAbsPres.match_clusters_to_genomes (base_content all_networks)
          = Ok (genomes_to_clusters, [format_warn])
        ∧ example_plain_matrix =
          str_join (String newline "")
            (spec_matrix_lines (String tab "") all_families
               (genome_rows all_families (list_to_map families_with_clusters)
                  genomes_to_clusters)).
Proof.
  apply (columns_in_numeric_order example_int example_base_entries "0.30"
           example_plain_matrix [format_warn]).
  vm_compute. reflexivity.
Defined.

Lemma matrix_row_Ok (families_with_clusters : gmap string (gset string))
    (clusters : gset string) (all_families : list string) :
  Forall (λ family, family ∈ dom families_with_clusters) all_families →
  ∃ row, rmap (λ family,
                 members ← getitem families_with_clusters family;
                 Ok (str_of_nat (size (clusters ∩ members))))
              all_families = Ok row.
Proof.
  induction 1 as [|family families [members Hfamily]%elem_of_dom _ [row IH]];
    cbn [rmap]; [by eexists|].
  assert (getitem families_with_clusters family = Ok members) as ->
    by (unfold getitem; by rewrite Hfamily).
  cbn [mbind result_bind]. rewrite IH. by eexists.
Qed.

Lemma bigscape_to_matrix_total (all_families : list string)
    (families_with_clusters genomes_to_clusters : gmap string (gset string)) :
  Forall (λ family, family ∈ dom families_with_clusters) all_families →
  bigscape_to_matrix all_families families_with_clusters genomes_to_clusters =
  Ok (str_join (String newline "")
        (spec_matrix_lines (String tab "") all_families
           (genome_rows all_families families_with_clusters genomes_to_clusters))).
Proof.
  intros Hfamilies.
  assert (∃ document,
            bigscape_to_matrix all_families families_with_clusters genomes_to_clusters
            = Ok document) as [document Hdocument].
  { unfold bigscape_to_matrix.
    generalize (("#NAMES" +:+ String tab "") +:+ str_join (String tab "") all_families).
    induction (sorted_items genomes_to_clusters) as [|item items IH]; intros acc;
      cbn [rfold]; [by eexists|].
    destruct (matrix_row_Ok families_with_clusters item.2 all_families Hfamilies)
      as [row ->].
    cbn [mbind result_bind]. apply IH. }
  rewrite Hdocument. f_equal. by apply bigscape_to_matrix_lines.
Qed.

Lemma dict_keys_dom (d : list (string * gset string)) (keys : list string) :
  keys ≡ₚ dict_keys d →
  Forall (λ key, key ∈ dom (list_to_map d : gmap string (gset string))) keys.
Proof.
  intros Hkeys. apply Forall_forall. intros key Hkey.
  rewrite dom_list_to_map_L, elem_of_list_to_set. by rewrite <-Hkeys.
Qed.

Section PlainMatrix.

Variable py_int : string → result Z.

(** X17: once the inputs are found, the clustering files are read, every
    family number is an integer and the annotation table is read, the last
    block of [bigscape_to_matrix] of [make_abs_pres.py] raises nothing: the
    run returns the tab-separated matrix and the warning of the table. *)
Theorem plain_variant_matrix (entries : list BaseEntry) (cutoff_text : string)
    (all_networks : BaseEntry) (result_dirs : list BaseEntry)
    (families_with_clusters : list (string * gset string)) (all_families : list string)
    (genomes_to_clusters : gmap string (gset string)) (warnings : list string) :
  find_summary_and_results entries = Returned (all_networks, result_dirs) →
  rfold (λ families result_dir,
           MakeAbsPres.scan_clusterings cutoff_text (base_name result_dir)
             (base_children result_dir) false families)
        [] result_dirs = Ok families_with_clusters →
  MakeAbsPres.sorted_by_int py_int (dict_keys families_with_clusters) = Ok all_families →
  MakeAbsPres.match_clusters_to_genomes (base_content all_networks)
    = Ok (genomes_to_clusters, warnings) →
  MakeAbsPres.bigscape_to_matrix py_int entries cutoff_text =
  Returned (str_join (String newline "")
              (spec_matrix_lines (String tab "") all_families
                 (genome_rows all_families (list_to_map families_with_clusters)
                    genomes_to_clusters)),
            warnings).
Proof.
  intros Hfind Hscan Hsorted Hgenomes. unfold MakeAbsPres.bigscape_to_matrix.
  rewrite Hfind. cbn [mbind outcome_bind fst snd].
  rewrite Hscan. cbn [mbind outcome_bind step].
  rewrite Hsorted. cbn [mbind outcome_bind step].
  rewrite Hgenomes. cbn [mbind outcome_bind step fst snd].
  apply sorted_by_int_sorted in Hsorted as [Hperm _].
  rewrite bigscape_to_matrix_total by by apply dict_keys_dom.
  done.
Qed.

End PlainMatrix.

(** The example directory. *)
Lemma plain_variant_matrix_witness :
  MakeAbsPres.bigscape_to_matrix example_int example_base_entries "0.30" =
  Returned (str_join (String newline "")
              (spec_matrix_lines (String tab "") ["7"; "9"; "10"]
                 (genome_rows ["7"; "9"; "10"] (list_to_map example_clustering_families)
                    example_plain_genomes)),
            [format_warn]).
Proof.
  apply (plain_variant_matrix example_int example_base_entries "0.30"
           example_summary_entry [example_result_dir; example_other_dir]
           example_clustering_families ["7"; "9"; "10"] example_plain_genomes
           [format_warn]);
    vm_compute; reflexivity.
Defined.


Lemma prefix_app (p s t : string) :
  String.prefix p s = true → String.prefix p (s +:+ t) = true.
Proof.
  revert s. induction p as [|c p IH]; intros s.
  - intros _. by destruct (s +:+ t).
  - destruct s as [|x s]; [done|]. rewrite str_app_cons. cbn [String.prefix].
    destruct (ascii_dec c x); [apply IH|done].
Qed.

Lemma prefix_refl (s : string) : String.prefix s s = true.
Proof.
  induction s as [|c s IH]; [done|]. cbn [String.prefix].
  by destruct (ascii_dec c c).
Qed.

Lemma name_component_prefix (bgc_names : gmap string string)
    (family family_name component name : string) :
  startswith family_name family = true →
  name_component bgc_names family_name component = Ok name →
  startswith name family = true.
Proof.
  unfold name_component, startswith. intros Hprefix.
  destruct (String.prefix "BGC" component); [|by intros [= <-]].
  intros (display & _ & Hname)%rbind_Ok.
  destruct (negb (str_in display family_name)); injection Hname as <-; [|done].
  by apply prefix_app.
Qed.

Lemma name_components_prefix (bgc_names : gmap string string)
    (family : string) (members : list string) (family_name name : string) :
  startswith family_name family = true →
  rfold (name_component bgc_names) family_name members = Ok name →
  startswith name family = true.
Proof.
  intros Hprefix Hrun.
  eapply (rfold_invariant (name_component bgc_names)
            (λ name, startswith name family = true)); [|exact Hprefix|exact Hrun].
  intros a x a'. apply name_component_prefix.
Qed.

Lemma forallb_false {A : Type} (f : A → bool) (l : list A) :
  negb (forallb f l) = true ↔ ∃ x, x ∈ l ∧ f x = false.
Proof.
  induction l as [|y l IH]; cbn [forallb].
  - split; [done|]. by intros (x & ?%elem_of_nil & _).
  - rewrite negb_andb, orb_true_iff, IH, negb_true_iff. split.
    + intros [Hy|(x & Hx & Hfx)]; [exists y; split; [left|done]|].
      exists x. split; [by right|done].
    + intros (x & [->|Hx]%elem_of_cons & Hfx); [by left|]. right. eauto.
Qed.

Lemma query_family_forallb (members : gset string) :
  negb (forallb (λ found_cluster, startswith found_cluster "BGC") (elements members)) = true
  ↔ query_family members.
Proof.
  rewrite forallb_false. unfold query_family.
  split; intros (cluster & Hin & Hprefix); exists cluster;
    (split; [by apply elem_of_elements|done]).
Qed.

Lemma dict_set_keys_grow {V : Type} (key k : string) (value : V) (d : list (string * V)) :
  k ∈ dict_keys d ∨ k = key → k ∈ dict_keys (dict_set key value d).
Proof.
  unfold dict_keys. induction d as [|[k' v] d IH]; cbn [dict_set fmap list_fmap fst].
  - intros [?%elem_of_nil| ->]; [done|left].
  - destruct (decide (k' = key)) as [->|Hne]; cbn [fmap list_fmap fst].
    + intros [?| ->]; [done|left].
    + intros [[->|?]%elem_of_cons| ->]; [left|right; apply IH; by left|right; apply IH; by right].
Qed.

Lemma name_families_from (bgcs_to_names : gmap string string)
    (families acc named : list (string * gset string)) :
  rfold (Mibig.name_family bgcs_to_names) acc families = Ok named →
  (∀ name, name ∈ dict_keys acc → name ∈ dict_keys named)
  ∧ (∀ name members, (name, members) ∈ named →
       (name, members) ∈ acc
       ∨ ∃ family, (family, members) ∈ families
                   ∧ startswith name family = true ∧ query_family members)
  ∧ (∀ family members, (family, members) ∈ families → query_family members →
       ∃ name, name ∈ dict_keys named ∧ startswith name family = true).
Proof.
  revert acc. induction families as [|[family members] families IH]; intros acc; cbn [rfold].
  - intros [= <-]. split; [done|]. split; [by left|]. by intros ? ? ?%elem_of_nil.
  - intros (acc' & Hitem & (Hkeys & Hfrom & Hall)%IH)%rbind_Ok.
    unfold Mibig.name_family in Hitem. cbn [fst snd] in Hitem.
    destruct (negb (forallb _ (elements members))) eqn:Hquery.
    + apply query_family_forallb in Hquery.
      apply rbind_Ok in Hitem as (family_name & Hname & [= <-]).
      apply name_components_prefix with (family := family) in Hname;
        [|apply prefix_refl].
      split; [|split].
      * intros name Hin. apply Hkeys, dict_set_keys_grow. by left.
      * intros name members' [[[= -> ->]|Hin]%elem_of_dict_set|Hrest]%Hfrom.
        -- right. exists family. split; [left|done].
        -- by left.
        -- right. destruct Hrest as (family' & Hin & Hrest).
           exists family'. split; [by right|done].
      * intros family' members' [[= -> ->]|Hin]%elem_of_cons Hq.
        -- exists family_name. split; [|done]. apply Hkeys, dict_set_keys_grow. by right.
        -- by eapply Hall.
    + injection Hitem as <-. split; [done|]. split.
      * intros name members' [Hin|Hrest]%Hfrom; [by left|].
        right. destruct Hrest as (family' & Hin & Hrest).
        exists family'. split; [by right|done].
      * intros family' members' [[= -> ->]|Hin]%elem_of_cons Hq.
        -- apply query_family_forallb in Hq. congruence.
        -- by eapply Hall.
Qed.

(** X18: the naming loop of [make_abs_pres_mibig.py] makes no column of a
    family of reference clusters only: every named family is a family of the
    clustering files with a member that is no reference cluster, under a
    name that starts with its number; and every such family has a column
    under such a name. *)
Theorem reference_families_are_no_columns (families_with_clusters : list (string * gset string))
    (bgcs_to_names : gmap string string) (named_families : list (string * gset string)) :
  Mibig.name_families families_with_clusters bgcs_to_names = Ok named_families →
  (∀ name members, (name, members) ∈ named_families →
     ∃ family, (family, members) ∈ families_with_clusters
               ∧ startswith name family = true ∧ query_family members)
  ∧ (∀ family members, (family, members) ∈ families_with_clusters →
       query_family members →
       ∃ name, name ∈ dict_keys named_families ∧ startswith name family = true).
Proof.
  intros (_ & Hfrom & Hall)%name_families_from. split; [|done].
  intros name members [?%elem_of_nil|?]%Hfrom; done.
Qed.

(** The families of the example clustering file. *)
Lemma reference_families_are_no_columns_witness :
  (∀ name members, (name, members) ∈ example_named_clustering_families →
     ∃ family, (family, members) ∈ example_clustering_families
               ∧ startswith name family = true ∧ query_family members)
  ∧ (∀ family members, (family, members) ∈ example_clustering_families →
       query_family members →
       ∃ name, name ∈ dict_keys example_named_clustering_families
               ∧ startswith name family = true).
Proof.
  apply (reference_families_are_no_columns example_clustering_families
           (summary_bgcs example_summary) example_named_clustering_families).
  vm_compute. reflexivity.
Defined.


(** X19: once the inputs are found and read and the families are named,
    [bigscape_to_matrix] of [make_abs_pres_mibig.py] raises nothing more: it
    returns the tab-separated matrix whose columns are the names of the
    families in sorted order. *)
Theorem reference_variant_matrix (entries : list BaseEntry) (cutoff_text : string)
    (all_networks : BaseEntry) (result_dirs : list BaseEntry)
    (families_with_clusters named_families : list (string * gset string))
    (genomes_to_clusters : gmap string (gset string)) (bgcs_to_names : gmap string string)
    (warnings : list string) :
  find_summary_and_results entries = Returned (all_networks, result_dirs) →
  rfold (λ families result_dir,
           Mibig.scan_clusterings cutoff_text (base_name result_dir)
             (base_children result_dir) false families)
        [] result_dirs = Ok families_with_clusters →
  Mibig.map_clusters_to_names (base_content all_networks)
    = Ok (genomes_to_clusters, bgcs_to_names, warnings) →
  Mibig.name_families families_with_clusters bgcs_to_names = Ok named_families →
  Sorted String.le (merge_sort String.le (dict_keys named_families))
  ∧ Mibig.bigscape_to_matrix entries cutoff_text =
    Returned (str_join (String newline "")
                (spec_matrix_lines (String tab "")
                   (merge_sort String.le (dict_keys named_families))
                   (genome_rows (merge_sort String.le (dict_keys named_families))
                      (list_to_map named_families) genomes_to_clusters)),
              warnings).
Proof.
  intros Hfind Hscan Hnames Hnamed. split; [apply Sorted_merge_sort; apply _|].
  unfold Mibig.bigscape_to_matrix.
  rewrite Hfind. cbn [mbind outcome_bind fst snd].
  rewrite Hscan. cbn [mbind outcome_bind step].
  rewrite Hnames. cbn [mbind outcome_bind step fst snd].
  rewrite Hnamed. cbn [mbind outcome_bind step].
  rewrite bigscape_to_matrix_total; [done|].
  apply dict_keys_dom, merge_sort_Permutation.
Qed.

(** The example directory: the family of the reference cluster alone is no
    column. *)
Lemma reference_variant_matrix_witness :
  Sorted String.le (merge_sort String.le (dict_keys example_named_clustering_families))
  ∧ Mibig.bigscape_to_matrix example_base_entries "0.30" =
    Returned (str_join (String newline "")
                (spec_matrix_lines (String tab "")
                   (merge_sort String.le (dict_keys example_named_clustering_families))
                   (genome_rows
                      (merge_sort String.le (dict_keys example_named_clustering_families))
                      (list_to_map example_named_clustering_families)
                      (summary_genomes example_summary))),
              [format_warn]).
Proof.
  apply (reference_variant_matrix example_base_entries "0.30"
           example_summary_entry [example_result_dir; example_other_dir]
           example_clustering_families example_named_clustering_families
           (summary_genomes example_summary) (summary_bgcs example_summary)
           [format_warn]);
    vm_compute; reflexivity.
Defined.


(** *** The steps of the network variant together *)

Lemma parse_row_references_named (st st' : ParseState) (raw_line : string) :
  references_named (clusters_with_types st) (bgcs_with_names st) →
  parse_row st raw_line = Ok st' →
  references_named (clusters_with_types st') (bgcs_with_names st').
Proof.
  intros Hnamed. unfold parse_row.
  intros (cluster & _ & (maps & Hmaps & (ty & _ & [= <-])%rbind_Ok)%rbind_Ok)%rbind_Ok.
  simpl. intros c. rewrite dom_insert_L, elem_of_union, elem_of_singleton.
  destruct (startswith cluster "BGC") eqn:Hprefix.
  - apply rbind_Ok in Hmaps as (field & _ & [= <-]). simpl.
    rewrite dom_insert_L, elem_of_union, elem_of_singleton.
    intros [->|Hc] Hc'; [by left|]. right. by apply Hnamed.
  - apply rbind_Ok in Hmaps as (field & _ & [= <-]). simpl.
    intros [->|Hc] Hc'; [congruence|]. by apply Hnamed.
Qed.

Lemma map_clusters_to_names_references_named (content : string) (summary : Summary) :
  map_clusters_to_names content = Ok summary →
  references_named (summary_types summary) (summary_bgcs summary).
Proof.
  unfold map_clusters_to_names.
  destruct (readlines content) as [|header rows]; [done|].
  destruct (negb (startswith header "BGC")); [done|].
  intros (st & Hst & [= <-])%rbind_Ok. simpl.
  eapply (rfold_invariant parse_row
            (λ st, references_named (clusters_with_types st) (bgcs_with_names st)));
    [|..|exact Hst].
  - intros a x a'. apply parse_row_references_named.
  - intros c. simpl. by rewrite dom_empty_L, elem_of_empty.
Qed.

Lemma plain_bfs_within_nodes (network_df : list Edge) (n : nat) (source : string) :
  source ∈ graph_nodes network_df →
  plain_bfs network_df n source ⊆ list_to_set (graph_nodes network_df).
Proof.
  intros Hsource. unfold plain_bfs. induction n as [|n IH]; simpl.
  - intros w ->%elem_of_singleton. by apply elem_of_list_to_set.
  - by apply expand_within_nodes.
Qed.

Lemma components_within_nodes (network_df : list Edge) (component : gset string)
    (cluster : string) :
  component ∈ connected_components network_df → cluster ∈ component →
  ∃ e, e ∈ network_df ∧ (cluster = clustername_1 e ∨ cluster = clustername_2 e).
Proof.
  intros (source & Hsource & ->)%connected_components_from_sources Hcluster.
  apply (plain_bfs_within_nodes _ _ _ Hsource) in Hcluster.
  apply elem_of_list_to_set, elem_of_drop_duplicates, list_elem_of_bind in Hcluster
    as (e & Hends & He).
  exists e. split; [done|].
  apply elem_of_cons in Hends as [->|Hends]; [by left|].
  apply list_elem_of_singleton in Hends as ->. by right.
Qed.

Lemma rmap_getitem_Ok (d : gmap string string) (keys : list string) :
  Forall (λ key, key ∈ dom d) keys → ∃ values, rmap (getitem d) keys = Ok values.
Proof.
  induction 1 as [|key keys [value Hkey]%elem_of_dom _ [values IH]];
    cbn [rmap]; [by eexists|].
  assert (getitem d key = Ok value) as -> by (unfold getitem; by rewrite Hkey).
  rewrite IH. by eexists.
Qed.

Lemma get_connected_annotated (cluster_types : gmap string string)
    (components : list (gset string)) (trimmed : list CompoundFamily) :
  Forall (λ component : gset string, ∀ cluster, cluster ∈ component → cluster ∈ dom cluster_types)
         components →
  Forall (λ family, ∀ cluster, cluster ∈ clusters family → cluster ∈ dom cluster_types)
         trimmed →
  ∃ connected,
    rfold (trim_component cluster_types) trimmed components = Ok connected
    ∧ Forall (λ family, ∀ cluster, cluster ∈ clusters family → cluster ∈ dom cluster_types)
             connected.
Proof.
  intros Hcomponents. revert trimmed.
  induction Hcomponents as [|component components Hcomponent _ IH]; intros trimmed Htrimmed.
  - by exists trimmed.
  - cbn [rfold]. unfold trim_component at 2.
    destruct (negb (forallb _ (elements component))); [|by apply IH].
    destruct (rmap_getitem_Ok cluster_types (elements component)) as [types ->].
    { apply Forall_forall. intros c Hc%elem_of_elements. by apply Hcomponent. }
    simpl. apply IH. apply Forall_app. split; [done|].
    by apply Forall_singleton.
Qed.

Lemma name_components_Ok (bgc_names : gmap string string) (members : list string)
    (family_name : string) :
  Forall (λ cluster, startswith cluster "BGC" = true → cluster ∈ dom bgc_names) members →
  ∃ name, rfold (name_component bgc_names) family_name members = Ok name.
Proof.
  intros Hmembers. revert family_name.
  induction Hmembers as [|cluster members Hcluster _ IH]; intros family_name;
    cbn [rfold].
  - by eexists.
  - unfold name_component at 2. destruct (startswith cluster "BGC").
    + pose proof (Hcluster eq_refl) as Hin.
      apply elem_of_dom in Hin as [display Hdisplay].
      assert (getitem bgc_names cluster = Ok display) as ->
        by (unfold getitem; by rewrite Hdisplay).
      simpl.
      destruct (negb (str_in display family_name)); apply IH.
    + apply IH.
Qed.

Lemma get_families_loop_Ok (bgc_names : gmap string string)
    (families : list CompoundFamily) (index : nat)
    (families_names : list (string * gset string)) :
  Forall (λ family, ∀ cluster, cluster ∈ clusters family →
                      startswith cluster "BGC" = true → cluster ∈ dom bgc_names)
         families →
  ∃ named, get_families_loop bgc_names index families families_names = Ok named.
Proof.
  intros Hfamilies. revert index families_names.
  induction Hfamilies as [|family families Hfamily _ IH]; intros index families_names; simpl.
  - by eexists.
  - destruct (name_components_Ok bgc_names (elements (clusters family))
                ((str_of_nat index +:+ "_") +:+ compound_class family)) as [name ->].
    { apply Forall_forall. intros c Hc%elem_of_elements. by apply Hfamily. }
    simpl. apply IH.
Qed.

(** X20: when the annotation table is accepted and every cluster id of the
    merged network has a row in it, the steps that follow in the network
    variant raise nothing: the families are detected and named. *)
Theorem annotated_network_is_named (content : string) (summary : Summary)
    (network_df : list Edge) :
  map_clusters_to_names content = Ok summary →
  annotated network_df (summary_types summary) →
  ∃ connected_families families_with_names,
    get_connected_from_df network_df (summary_types summary) = Ok connected_families
    ∧ get_families connected_families (summary_bgcs summary) = Ok families_with_names.
Proof.
  intros Hnamed%map_clusters_to_names_references_named Hannotated.
  destruct (get_connected_annotated (summary_types summary)
              (connected_components network_df) []) as (connected & Hconnected & Hwithin).
  { apply Forall_forall. intros component Hcomponent cluster Hcluster.
    destruct (components_within_nodes _ _ _ Hcomponent Hcluster) as (e & He & Hend).
    unfold annotated in Hannotated. rewrite Forall_forall in Hannotated.
    destruct (Hannotated e He) as [Hfirst Hsecond]. by destruct Hend as [->| ->]. }
  { constructor. }
  exists connected.
  destruct (get_families_loop_Ok (summary_bgcs summary) (sorted_by_len_desc connected) 1 [])
    as [named Hloop].
  { rewrite sorted_by_len_desc_perm. eapply Forall_impl; [exact Hwithin|].
    intros family Hfamily cluster Hcluster. apply Hnamed. by apply Hfamily. }
  by exists named.
Qed.

(** The example annotation table with a network over its clusters. *)
Lemma annotated_network_is_named_witness :
  ∃ connected_families families_with_names,
    get_connected_from_df example_annotated_network (summary_types example_summary)
      = Ok connected_families
    ∧ get_families connected_families (summary_bgcs example_summary)
      = Ok families_with_names.
Proof.
  apply (annotated_network_is_named example_summary_file example_summary
           example_annotated_network).
  - vm_compute. reflexivity.
  - by_evaluation.
Defined.

(** ** The tree, the cluster files and the strain names *)

Lemma str_replace_char (a : ascii) (new s : string) :
  str_replace (String a "") new s = str_expand (replace_char a new) s.
Proof.
  unfold str_replace. induction s as [|c s IH]; [done|].
  cbn [str_replace_from str_expand String.prefix String.length].
  unfold replace_char at 1. rewrite <-IH.
  destruct (ascii_dec a c) as [->|Hne].
  - rewrite decide_True by done. by destruct s.
  - rewrite decide_False by done. done.
Qed.

Lemma str_expand_app (f : ascii → string) (a b : string) :
  str_expand f (a +:+ b) = str_expand f a +:+ str_expand f b.
Proof.
  induction a as [|c a IH]; [done|].
  rewrite str_app_cons. simpl. by rewrite IH, str_app_assoc.
Qed.

Lemma str_expand_lacks (a : ascii) (new s : string) :
  lacks a s → str_expand (replace_char a new) s = s.
Proof.
  induction s as [|c s IH]; [done|]. intros [Hc Hs]. simpl.
  unfold replace_char at 1. rewrite decide_False by done. by rewrite IH.
Qed.

Lemma str_expand_removes (a : ascii) (new s : string) :
  lacks a new → lacks a (str_expand (replace_char a new) s).
Proof.
  intros Hnew. induction s as [|c s IH]; [done|]. simpl.
  apply lacks_app. split; [|done]. unfold replace_char. by case_decide.
Qed.

Lemma str_expand_join (a b : ascii) (cells : list string) :
  Forall (lacks a) cells →
  str_expand (replace_char a (String b "")) (str_join (String a "") cells) =
  str_join (String b "") cells.
Proof.
  induction 1 as [|cell cells Hcell Hcells IH]; [done|].
  destruct cells as [|next cells].
  - simpl. by apply str_expand_lacks.
  - change (str_join (String a "") (cell :: next :: cells))
      with (cell +:+ String a "" +:+ str_join (String a "") (next :: cells)).
    change (str_join (String b "") (cell :: next :: cells))
      with (cell +:+ String b "" +:+ str_join (String b "") (next :: cells)).
    rewrite !str_expand_app, IH, str_expand_lacks by done.
    simpl. unfold replace_char at 1. by rewrite decide_True.
Qed.

Lemma str_of_nat_lacks_all (c : ascii) (cells : list nat) :
  non_digit c → Forall (lacks c) (str_of_nat <$> cells).
Proof. intros Hc. apply Forall_fmap, Forall_true. intros n. by apply str_of_nat_lacks. Qed.

Lemma tabbed_line (label : string) (cells : list string) :
  lacks comma label → Forall (lacks comma) cells →
  str_expand (replace_char comma (String tab ""))
    ((label +:+ "," +:+ str_join "," cells) +:+ String newline "") =
  (label +:+ String tab "" +:+ str_join (String tab "") cells) +:+ String newline "".
Proof.
  intros Hlabel Hcells. change "," with (String comma "").
  rewrite !str_expand_app, str_expand_join, str_expand_lacks by done.
  done.
Qed.

Lemma tabbed_lines (names : list string) (rows : list (string * list nat)) :
  Forall (lacks comma) names → Forall (λ row, lacks comma row.1) rows →
  Forall2 (λ line tabbed,
             str_expand (replace_char comma (String tab "")) (line +:+ String newline "")
             = tabbed +:+ String newline "")
          (spec_matrix_lines "," names rows)
          (spec_matrix_lines (String tab "") names rows).
Proof.
  intros Hnames Hrows. unfold spec_matrix_lines. constructor.
  - by apply tabbed_line; [repeat split|].
  - apply Forall2_fmap, Forall_Forall2_diag. eapply Forall_impl; [exact Hrows|].
    intros [label cells] Hlabel. simpl in Hlabel. cbn [fst snd].
    apply tabbed_line; [done|]. apply str_of_nat_lacks_all, non_digit_comma.
Qed.

Lemma str_expand_lines (f : ascii → string) (lines tabbed : list string) :
  Forall2 (λ line out, str_expand f (line +:+ String newline "") = out +:+ String newline "")
          lines tabbed →
  str_expand f (foldr String.append "" ((λ x, x +:+ String newline "") <$> lines)) =
  foldr String.append "" ((λ x, x +:+ String newline "") <$> tabbed).
Proof.
  induction 1 as [|line out lines tabbed Hline _ IH]; [done|].
  cbn [fmap list_fmap foldr].
  change (String.append ?a ?b) with (a +:+ b).
  by rewrite str_expand_app, Hline, IH.
Qed.

(** X21: the replacement of commas by tabs in [make_cluster_tree] turns the
    comma-separated matrix, with its line terminators, into the
    tab-separated matrix with the same names, labels and counts, when no
    family name and no genome has a comma. *)
Theorem comma_separated_matrix_becomes_tab_separated (names : list string)
    (rows : list (string * list nat)) :
  Forall (lacks comma) names → Forall (λ row, lacks comma row.1) rows →
  cluster_tree_text_array
    (str_join (String newline "") (spec_matrix_lines "," names rows)
     +:+ String newline "") =
  str_join (String newline "") (spec_matrix_lines (String tab "") names rows)
  +:+ String newline "".
Proof.
  intros Hnames Hrows. unfold cluster_tree_text_array.
  rewrite (str_replace_char comma).
  pose proof (tabbed_lines names rows Hnames Hrows) as Hlines.
  unfold spec_matrix_lines in *.
  rewrite !str_join_terminated.
  inversion Hlines as [|line out lines tabbed Hline Hrest]; subst.
  rewrite str_expand_app, Hline. f_equal. by apply str_expand_lines.
Qed.

(** A matrix of two families and two genomes. *)
Lemma comma_separated_matrix_becomes_tab_separated_witness :
  cluster_tree_text_array
    (str_join (String newline "")
       (spec_matrix_lines "," ["1_NRPS"; "2_PKS"]
          [("Test_organism_1", [1; 0]); ("Test_organism_2", [0; 2])])
     +:+ String newline "") =
  str_join (String newline "")
    (spec_matrix_lines (String tab "") ["1_NRPS"; "2_PKS"]
       [("Test_organism_1", [1; 0]); ("Test_organism_2", [0; 2])])
  +:+ String newline "".
Proof.
  apply comma_separated_matrix_becomes_tab_separated.
  - constructor; [by repeat split|]. constructor; [by repeat split|]. constructor.
  - constructor; [by repeat split|]. constructor; [by repeat split|]. constructor.
Defined.

(** *** Renaming the cluster files *)

Lemma match_items_separator (items : list RegexItem) (c : ascii) (a b : string) :
  Forall (λ item, accepts item c = false) items →
  items ≠ [] →
  match_items items (a +:+ String c b) = match_items items a.
Proof.
  intros Hitems. revert a. induction Hitems as [|item items Hitem Hitems IH]; [done|].
  intros a _. destruct a as [|x a].
  - rewrite str_app_nil_l. simpl. fold (accepts item c). by rewrite Hitem.
  - rewrite str_app_cons. simpl. f_equal.
    destruct items as [|item' items']; [done|]. by apply IH.
Qed.

Lemma plain_name_items (count : nat) :
  Forall (λ item, accepts item "_" = false)
         (replicate count Digit ++ literal_items ".region"
          ++ replicate 3 Digit ++ literal_items ".gbk").
Proof.
  apply Forall_app. split; [by apply Forall_replicate|].
  by repeat constructor.
Qed.

Lemma plain_name_renamed (entry_name result_name : string) :
  plain_name (entry_name +:+ "_" +:+ result_name) = plain_name entry_name.
Proof.
  unfold plain_name. induction (seq 1 7) as [|count counts IH]; [done|].
  cbn [existsb]. rewrite IH. f_equal.
  apply match_items_separator; [apply plain_name_items|].
  by destruct count.
Qed.

(** X22: a file that [rename_clusters.py] has renamed is renamed again by a
    second run exactly if the name of its directory itself matches the
    pattern of the plain names. *)
Theorem renamed_cluster_is_renamed_once (entry_name result_name renamed : string) :
  new_name entry_name result_name = Some renamed →
  new_name entry_name renamed =
  if plain_name entry_name then Some (entry_name +:+ "_" +:+ renamed) else None.
Proof.
  unfold new_name. destruct (plain_name result_name); [|done].
  intros [= <-]. by rewrite plain_name_renamed.
Qed.

(** A region file of the directory [genome]. *)
Lemma renamed_cluster_is_renamed_once_witness :
  new_name "genome" "genome_1.region001.gbk" =
  if plain_name "genome" then Some ("genome" +:+ "_" +:+ "genome_1.region001.gbk")
  else None.
Proof.
  apply (renamed_cluster_is_renamed_once "genome" "1.region001.gbk").
  vm_compute. reflexivity.
Defined.

(** *** Strain names *)


Lemma str_in_refl (s : string) : str_in s s = true.
Proof. destruct s; cbn [str_in]; by rewrite prefix_refl. Qed.

Lemma str_in_app_r (pat a b : string) :
  str_in pat b = true → str_in pat (a +:+ b) = true.
Proof.
  intros Hb. induction a as [|c a IH]; [done|].
  rewrite str_app_cons. cbn [str_in]. by rewrite IH, orb_true_r.
Qed.

Lemma str_in_empty (s : string) : str_in "" s = true.
Proof. by destruct s. Qed.

(** X23: after the update of [rename_organism] an annotation holds the
    strain name; a second update changes nothing, and an empty strain name
    changes nothing at all. *)
Theorem strain_is_added_once (strain_name annotation : string) :
  str_in strain_name (add_strain strain_name annotation) = true
  ∧ add_strain strain_name (add_strain strain_name annotation)
    = add_strain strain_name annotation
  ∧ add_strain "" annotation = annotation.
Proof.
  assert (str_in strain_name (add_strain strain_name annotation) = true) as Hin.
  { unfold add_strain. destruct (str_in strain_name annotation) eqn:Hfound; simpl; [done|].
    apply str_in_app_r, str_in_app_r, str_in_refl. }
  split; [done|]. split.
  - unfold add_strain at 1. by rewrite Hin.
  - unfold add_strain. by rewrite str_in_empty.
Qed.


Lemma lacks_rstrip (c : ascii) (s : string) : lacks c s → lacks c (rstrip s).
Proof.
  induction s as [|x s IH]; [done|]. intros [Hx Hs]. cbn [rstrip].
  destruct (rstrip s) as [|y kept].
  - by destruct (py_isspace x).
  - split; [done|by apply IH].
Qed.

Lemma lacks_lstrip (c : ascii) (s : string) : lacks c s → lacks c (lstrip s).
Proof.
  induction s as [|x s IH]; [done|]. intros [Hx Hs]. cbn [lstrip].
  destruct (py_isspace x); [by apply IH|done].
Qed.

Lemma str_split_lacks (sep : ascii) (s : string) : lacks sep s → str_split sep s = [s].
Proof.
  induction s as [|x s IH]; [done|]. intros [Hx Hs]. cbn [str_split].
  rewrite decide_False by done. by rewrite IH.
Qed.

(** X24: the strain name that [rename_organism] finds holds no double
    quote, and a strain name that is not empty comes from a line with
    [/strain]; the first line with [/strain], when it has no [=], is an
    [IndexError]. *)
Theorem find_strain_cases (lines : list string) :
  (∀ strain_name, find_strain lines = Ok strain_name →
     lacks quote strain_name
     ∧ (strain_name ≠ "" →
        ∃ line, line ∈ lines ∧ str_in "/strain" line = true))
  ∧ (∀ before line after,
       lines = before ++ line :: after →
       Forall (λ earlier, str_in "/strain" earlier = false) before →
       str_in "/strain" line = true → lacks "=" line →
       find_strain lines = Raise IndexError).
Proof.
  split.
  - induction lines as [|line lines IH]; intros strain_name; cbn [find_strain].
    + intros [= <-]. done.
    + destruct (str_in "/strain" line) eqn:Hfound.
      * intros (part & _ & Hrest)%rbind_Ok. case_decide as Hempty.
        -- destruct (IH _ Hrest) as [Hquote Hline]. split; [done|].
           intros (l & Hl & Hin)%Hline. exists l. split; [by right|done].
        -- injection Hrest as <-. split.
           ++ rewrite (str_replace_char quote). by apply str_expand_removes.
           ++ intros _. exists line. split; [left|done].
      * intros Hrest. destruct (IH _ Hrest) as [Hquote Hline]. split; [done|].
        intros (l & Hl & Hin)%Hline. exists l. split; [by right|done].
  - intros before line after -> Hbefore Hfound Hequals.
    induction Hbefore as [|earlier before Hearlier _ IH]; cbn [app find_strain].
    + rewrite Hfound. unfold strip.
      rewrite str_split_lacks by by apply lacks_lstrip, lacks_rstrip. done.
    + by rewrite Hearlier.
Qed.

(** Lines with a quoted strain name, and lines whose strain has no value. *)
Lemma find_strain_cases_witness :
  (lacks quote "DSM 1234"
   ∧ ("DSM 1234" ≠ "" →
      ∃ line, line ∈ example_genbank_lines ∧ str_in "/strain" line = true))
  ∧ find_strain example_strainless_lines = Raise IndexError.
Proof.
  split.
  - apply (proj1 (find_strain_cases example_genbank_lines)). vm_compute. reflexivity.
  - apply (proj2 (find_strain_cases example_strainless_lines)
             ["SOURCE      Streptomyces sp." +:+ String newline ""]
             ("                     /strain" +:+ String newline "") []).
    + reflexivity.
    + constructor; [vm_compute; reflexivity|constructor].
    + vm_compute. reflexivity.
    + by repeat split.
Defined.
